(** * ProTrader terminal backend: strategies and backtest loop

    A shallow embedding of the trading bots under [src/bots] and of the
    backtest endpoint of [src/app.py], with the properties the specification
    states about them.

    Numbers.  The Python code computes on IEEE doubles held in pandas
    columns.  Here a number is an exact rational extended with the three
    special values the code can meet ([nan], [+inf], [-inf]): finite
    arithmetic is exact (no rounding, no overflow, no signed zero), and the
    special values follow the IEEE rules numpy applies (a division by zero
    gives an infinity or [nan] and does not raise, every ordered comparison
    with [nan] is false).

    Doubles round, overflow and underflow.  A statement whose truth turns
    on that keeps its numbers, by hypothesis, where the doubles agree with
    the exact operations on what is stated (normal prices, magnitudes
    between [10^-100] and [10^100], an entry price off 0), and a statement
    that compares a computed number with a formula leaves a margin for the
    rounding. *)

From Stdlib Require Import QArith Qabs Qround Lqa Lia ZArith Bool.
From stdpp Require Import base strings list gmap.

Local Open Scope string_scope.

(** ** Extended rationals *)

Inductive num : Type :=
| NaN
| NInf
| PInf
| Fin (q : Q).

Definition Qlt_bool (x y : Q) : bool := negb (Qle_bool y x).

Definition nneg (a : num) : num :=
  match a with
  | NaN => NaN
  | NInf => PInf
  | PInf => NInf
  | Fin x => Fin (- x)
  end.

Definition nadd (a b : num) : num :=
  match a, b with
  | NaN, _ | _, NaN => NaN
  | PInf, NInf | NInf, PInf => NaN
  | PInf, _ | _, PInf => PInf
  | NInf, _ | _, NInf => NInf
  | Fin x, Fin y => Fin (x + y)
  end.

Definition nsub (a b : num) : num := nadd a (nneg b).

(** The sign of a number: [Some true] positive, [Some false] negative,
    [None] for zero and [nan]. *)
Definition nsign (a : num) : option bool :=
  match a with
  | NaN => None
  | NInf => Some false
  | PInf => Some true
  | Fin x => if Qlt_bool 0 x then Some true
             else if Qlt_bool x 0 then Some false else None
  end.

Definition inf_of (positive : bool) : num := if positive then PInf else NInf.

Definition nmul (a b : num) : num :=
  match a, b with
  | NaN, _ | _, NaN => NaN
  | Fin x, Fin y => Fin (x * y)
  | _, _ =>
      match nsign a, nsign b with
      | Some s, Some t => inf_of (eqb s t)
      | _, _ => NaN
      end
  end.

Definition ndiv (a b : num) : num :=
  match a, b with
  | NaN, _ | _, NaN => NaN
  | Fin x, Fin y =>
      if Qeq_bool y 0 then
        match nsign a with
        | Some s => inf_of s
        | None => NaN
        end
      else Fin (x / y)
  | Fin _, _ => Fin 0
  | _, Fin y => if Qlt_bool y 0 then nneg a else a
  | _, _ => NaN
  end.

Definition nabs (a : num) : num :=
  match a with
  | NaN => NaN
  | NInf | PInf => PInf
  | Fin x => Fin (Qabs x)
  end.

Definition nlt (a b : num) : bool :=
  match a, b with
  | NaN, _ | _, NaN => false
  | _, NInf => false
  | NInf, _ => true
  | PInf, _ => false
  | Fin _, PInf => true
  | Fin x, Fin y => Qlt_bool x y
  end.

Definition nle (a b : num) : bool :=
  match a, b with
  | NaN, _ | _, NaN => false
  | NInf, _ => true
  | _, NInf => false
  | _, PInf => true
  | PInf, _ => false
  | Fin x, Fin y => Qle_bool x y
  end.

Definition ngt (a b : num) : bool := nlt b a.
Definition nge (a b : num) : bool := nle b a.

(** Python's [==] on numbers. *)
Definition neqb (a b : num) : bool :=
  match a, b with
  | NInf, NInf | PInf, PInf => true
  | Fin x, Fin y => Qeq_bool x y
  | _, _ => false
  end.

(** Python's builtin [min(a, b)]: the first argument is kept unless the
    second compares strictly below it. *)
Definition py_min (a b : num) : num := if nlt b a then b else a.

Definition of_nat (n : nat) : num := Fin (inject_Z (Z.of_nat n)).

Declare Scope num_scope.
Delimit Scope num_scope with num.
Bind Scope num_scope with num.
Infix "+" := nadd : num_scope.
Infix "-" := nsub : num_scope.
Infix "*" := nmul : num_scope.
Infix "/" := ndiv : num_scope.
Notation "- x" := (nneg x) : num_scope.
Infix "<?" := nlt : num_scope.
Infix "<=?" := nle : num_scope.
Infix ">?" := ngt : num_scope.
Infix ">=?" := nge : num_scope.
Infix "=?" := neqb : num_scope.

(** The observations pandas counts: everything but [nan]. *)
Definition notna (x : num) : bool :=
  match x with
  | NaN => false
  | _ => true
  end.

(** ** Exceptions

    The only exception a bot raises is the [IndexError] of a positional
    access into an empty column, and every bot catches it at the end of
    [analyze].  [ValueError] is what the [DataFrame] constructor raises on
    columns of different lengths. *)

Inductive exn : Type :=
| IndexError (msg : string)
| ValueError (msg : string).

(** [str(e)] *)
Definition str_exn (e : exn) : string :=
  match e with
  | IndexError msg => msg
  | ValueError msg => msg
  end.

Inductive result (A : Type) : Type :=
| Ok (a : A)
| Raise (e : exn).
Arguments Ok {A} a.
Arguments Raise {A} e.

Definition bind {A B : Type} (c : result A) (k : A -> result B) : result B :=
  match c with
  | Ok a => k a
  | Raise e => Raise e
  end.

Notation "'let*' x ':=' c 'in' k" := (bind c (fun x => k))
  (at level 10, x name, c at level 100, k at level 200, only parsing).

(** [try: ... except Exception as e: handler(e)]. *)
Definition try_except {A : Type} (body : result A) (handler : exn -> A) : A :=
  match body with
  | Ok a => a
  | Raise e => handler e
  end.

(** ** The pandas operations the bots use *)

Definition Series := list num.

(** [s.iloc[-1]] *)
Definition iloc_last {A : Type} (s : list A) : result A :=
  match last s with
  | Some x => Ok x
  | None => Raise (IndexError "single positional indexer is out-of-bounds")
  end.

(** [s.diff()] *)
Definition diff (s : Series) : Series :=
  match s with
  | [] => []
  | _ :: t => NaN :: zip_with nsub t s
  end.

(** [s.where(cond, other)] *)
Definition where_ (cond : num -> bool) (other : num) (s : Series) : Series :=
  List.map (fun x => if cond x then x else other) s.

Definition nsum (s : Series) : num := fold_left nadd s (Fin 0).

Definition agg_max (obs : Series) : num :=
  match obs with
  | [] => NaN
  | x :: t => fold_left (fun m y => if nlt m y then y else m) t x
  end.

Definition agg_min (obs : Series) : num :=
  match obs with
  | [] => NaN
  | x :: t => fold_left (fun m y => if nlt y m then y else m) t x
  end.

Definition agg_mean (obs : Series) : num :=
  (nsum obs / of_nat (length obs))%num.

(** [s.max()] and [s.min()] skip [nan]. *)
Definition series_max (s : Series) : num := agg_max (List.filter notna s).
Definition series_min (s : Series) : num := agg_min (List.filter notna s).

(** [s.rolling(window=w).agg()]: at each index the observations of the
    last [w] rows; fewer than [w] of them ([min_periods] defaults to the
    window) gives [nan]. *)
Definition rolling (agg : Series -> num) (w : nat) (s : Series) : Series :=
  List.map
    (fun k =>
       let obs := List.filter notna (drop (S k - w) (take (S k) s)) in
       if (length obs <? w)%nat then NaN else agg obs)
    (seq 0 (length s)).

(** [s.pct_change(n)]: the ratio to the value [n] rows earlier, minus 1
    (missing values are not filled forward first, as older pandas releases
    do). *)
Definition pct_change (n : nat) (s : Series) : Series :=
  List.map
    (fun k =>
       if (k <? n)%nat then NaN
       else (nth k s NaN / nth (k - n) s NaN - Fin 1)%num)
    (seq 0 (length s)).

(** [df.tail(n)] *)
Definition tail_rows {A : Type} (n : nat) (s : list A) : list A :=
  drop (length s - n) s.

(** [s.ewm(span=span).mean()] with pandas' defaults ([adjust=True],
    [ignore_na=False], [min_periods=0]): the recurrence of pandas' [ewm]
    kernel, carrying the running average and the weight of the past. *)
Definition ewm_step (alpha : Q) (st : num * Q) (cur : num) : num * Q :=
  let '(weighted, old_wt) := st in
  if notna weighted then
    let old_wt := (old_wt * (1 - alpha))%Q in
    if notna cur then
      let weighted :=
        if neqb weighted cur then weighted
        else ((Fin old_wt * weighted + cur) / Fin (old_wt + 1))%num in
      (weighted, (old_wt + 1)%Q)
    else (weighted, old_wt)
  else if notna cur then (cur, old_wt)
  else (weighted, old_wt).

Fixpoint ewm_scan (alpha : Q) (st : num * Q) (s : Series) : Series :=
  match s with
  | [] => []
  | cur :: t =>
      let st' := ewm_step alpha st cur in
      fst st' :: ewm_scan alpha st' t
  end.

Definition ewm_mean (span : nat) (s : Series) : Series :=
  match s with
  | [] => []
  | x :: t =>
      x :: ewm_scan (2 / (inject_Z (Z.of_nat span) + 1))%Q (x, 1%Q) t
  end.

(** ** Data model *)

(** One row of the OHLCV frame. *)
Record bar : Type := {
  date : Z;
  open : num;
  high : num;
  low : num;
  close : num;
  volume : num
}.

Definition DataFrame := list bar.

(** [data[col]] *)
Definition col (f : bar -> num) (data : DataFrame) : Series := List.map f data.

(** Modelled from the spec: [bots/base_bot.py] ([SignalType],
    [TradingSignal], [BaseBot]) is not among the sources.  The signal is the
    record of section 3 of the specification, with the field names and the
    field order the bots construct it with. *)
Inductive SignalType : Type := BUY | SELL | HOLD.

(** [signal_type.value] *)
Definition value (t : SignalType) : string :=
  match t with
  | BUY => "buy"
  | SELL => "sell"
  | HOLD => "hold"
  end.

(** The values an indicator mapping holds. *)
Inductive ival : Type :=
| VNum (x : num)
| VBool (b : bool)
| VStr (s : string)
| VNone
| VLevels (l : list (num * num)).

Record TradingSignal : Type := {
  signal_type : SignalType;
  symbol : string;
  confidence : num;
  entry_price : num;
  stop_loss : num;
  take_profit : num;
  position_size : num;
  timestamp : Z;
  reason : string;
  indicators : gmap string ival
}.

(** The routines of the Python runtime that exact arithmetic does not
    provide: the square root behind [rolling(...).std()], the [:.Nf] format
    of an f-string and [str] of a number.  Every property below holds for
    every choice of them. *)
Class Runtime : Type := {
  sqrtQ : Q -> Q;
  format_f : nat -> num -> string;
  str_num : num -> string
}.

Definition nsqrt `{Runtime} (a : num) : num :=
  match a with
  | NaN | NInf => NaN
  | PInf => PInf
  | Fin x => if Qlt_bool x 0 then NaN else Fin (sqrtQ x)
  end.

(** The sample standard deviation ([ddof=1]) of a window. *)
Definition agg_std `{Runtime} (obs : Series) : num :=
  let m := agg_mean obs in
  let sq := List.map (fun x => ((x - m) * (x - m))%num) obs in
  nsqrt (nsum sq / of_nat (length obs - 1))%num.

(** The RSI both the momentum and the mean-reversion bot compute. *)
Definition rsi_series (period : nat) (closes : Series) : Series :=
  let delta := diff closes in
  let gain :=
    rolling agg_mean period (where_ (fun d => d >? Fin 0)%num (Fin 0) delta) in
  let loss :=
    rolling agg_mean period
      (List.map nneg (where_ (fun d => d <? Fin 0)%num (Fin 0) delta)) in
  let rs := zip_with ndiv gain loss in
  List.map (fun r => (Fin 100 - Fin 100 / (Fin 1 + r))%num) rs.

(** [current_volume / avg_volume if avg_volume > 0 else 1.0] over a
    20-row rolling mean (momentum and news bots). *)
Definition volume_ratio_of (data : DataFrame) : result num :=
  let* avg_volume := iloc_last (rolling agg_mean 20 (col volume data)) in
  let* current_volume := iloc_last (col volume data) in
  Ok (if (avg_volume >? Fin 0)%num then (current_volume / avg_volume)%num
      else Fin 1).

(** The signal every bot returns when it holds. *)
Definition hold_signal (symbol : string) (price : num) (now : Z)
    (reason : string) (indicators : gmap string ival) : TradingSignal :=
  {| signal_type := HOLD; symbol := symbol; confidence := Fin 0;
     entry_price := price; stop_loss := Fin 0; take_profit := Fin 0;
     position_size := Fin 0; timestamp := now; reason := reason;
     indicators := indicators |}.

(** The stop and target at fixed fractions of the entry price that most
    bots use. *)
Definition pct_risk_parameters (stop_pct target_pct : Q) (entry_price : num)
    (signal_type : SignalType) : num * num :=
  match signal_type with
  | BUY => ((entry_price * Fin (1 - stop_pct))%num,
            (entry_price * Fin (1 + target_pct))%num)
  | _ => ((entry_price * Fin (1 + stop_pct))%num,
          (entry_price * Fin (1 - target_pct))%num)
  end.

(** The sizing by risk budget that the momentum, mean-reversion and news
    bots share, up to the cap. *)
Definition risk_position_size (cap : Q) (signal : TradingSignal)
    (portfolio_value risk_per_trade : num) : num :=
  let risk_amount := (portfolio_value * risk_per_trade)%num in
  let price_risk := nabs (entry_price signal - stop_loss signal)%num in
  if (price_risk =? Fin 0)%num then Fin 0
  else
    let shares := (risk_amount / price_risk)%num in
    py_min (shares * entry_price signal)%num (portfolio_value * Fin cap)%num.

(** The decision of a bot before the signal is built. *)
Definition decision : Type := SignalType * num * string.

(** The tail every [analyze] ends with: a trade signal with the bot's risk
    parameters when the decision is not to hold, the hold signal at the
    latest close otherwise. *)
Definition build_signal (risk : num -> SignalType -> num * num)
    (symbol : string) (latest_close : num) (now : Z) (d : decision)
    (indicators : gmap string ival) : TradingSignal :=
  let '(signal_type, confidence, reason) := d in
  match signal_type with
  | HOLD => hold_signal symbol latest_close now reason indicators
  | _ =>
      let entry_price := latest_close in
      let '(stop_loss, take_profit) := risk entry_price signal_type in
      {| signal_type := signal_type; symbol := symbol;
         confidence := confidence; entry_price := entry_price;
         stop_loss := stop_loss; take_profit := take_profit;
         position_size := Fin 0; timestamp := now; reason := reason;
         indicators := indicators |}
  end.

(** ** The bots

    Each bot computes its indicators into a record (the Python dictionary
    with literal keys), decides, and builds the signal; the whole body of
    [analyze] sits in a [try] whose handler returns a hold signal.  The
    clock reading [now] stands for [datetime.now()]. *)

Abbreviation MarketData := (gmap string num).

(** *** Momentum bot ([bots/momentum_bot.py]) *)
Module MomentumBot.
Definition breakout_period : nat := 20.
Definition volume_threshold : Q := 1.5.
Definition min_confidence : Q := 0.65.
Definition rsi_oversold : Q := 30.
Definition rsi_overbought : Q := 70.

Record Indicators : Type := {
  rsi : num;
  resistance : num;
  support : num;
  volume_ratio : num;
  price : num
}.

Definition to_dict (i : Indicators) : gmap string ival :=
  list_to_map
    [("rsi", VNum (rsi i)); ("resistance", VNum (resistance i));
     ("support", VNum (support i)); ("volume_ratio", VNum (volume_ratio i));
     ("price", VNum (price i))].

Definition calculate_indicators (data : DataFrame) : result Indicators :=
  let period := breakout_period in
  let rsi := rsi_series 14 (col close data) in
  let* resistance := iloc_last (rolling agg_max period (col high data)) in
  let* support := iloc_last (rolling agg_min period (col low data)) in
  let* volume_ratio := volume_ratio_of data in
  let* rsi_last := iloc_last rsi in
  let* price := iloc_last (col close data) in
  Ok {| rsi := rsi_last; resistance := resistance; support := support;
        volume_ratio := volume_ratio; price := price |}.

Definition get_risk_parameters (entry_price : num) (signal_type : SignalType)
    : num * num :=
  pct_risk_parameters 0.025 0.05 entry_price signal_type.

Definition decide_signal `{Runtime} (latest : bar) (i : Indicators)
    : decision :=
  if (close latest >? resistance i)%num
     && (rsi i <? Fin rsi_overbought)%num
     && (volume_ratio i >? Fin volume_threshold)%num
  then (BUY, Fin 0.75,
        "Bullish breakout above $" ++ format_f 2 (resistance i))
  else if (close latest <? support i)%num
          && (rsi i >? Fin rsi_oversold)%num
          && (volume_ratio i >? Fin volume_threshold)%num
  then (SELL, Fin 0.75,
        "Bearish breakdown below $" ++ format_f 2 (support i))
  else (HOLD, Fin 0, "No momentum signal").

Definition analyze_body `{Runtime} (symbol : string) (data : DataFrame)
    (market_data : MarketData) (now : Z) : result TradingSignal :=
  let* indicators := calculate_indicators data in
  let* latest := iloc_last data in
  Ok (build_signal get_risk_parameters symbol (close latest) now
        (decide_signal latest indicators) (to_dict indicators)).

Definition analyze `{Runtime} (symbol : string) (data : DataFrame)
    (market_data : MarketData) (now : Z) : TradingSignal :=
  try_except (analyze_body symbol data market_data now)
    (fun e => hold_signal symbol (Fin 0) now ("Error: " ++ str_exn e) ∅).

Definition validate_signal (signal : TradingSignal) : bool :=
  (confidence signal >=? Fin min_confidence)%num.

Definition calculate_position_size (signal : TradingSignal)
    (portfolio_value risk_per_trade : num) : num :=
  risk_position_size 0.25 signal portfolio_value risk_per_trade.
End MomentumBot.

(** *** Grid trading bot ([bots/grid_trading_bot.py]) *)
Module GridTradingBot.
Definition grid_levels : nat := 10.
Definition grid_spacing : Q := 0.02.
Definition base_size : Q := 1000.
Definition range_detection_period : nat := 50.

Record Indicators : Type := {
  range_high : num;
  range_low : num;
  range_middle : num;
  price : num
}.

Definition to_dict (i : Indicators) : gmap string ival :=
  list_to_map
    [("range_high", VNum (range_high i)); ("range_low", VNum (range_low i));
     ("range_middle", VNum (range_middle i)); ("price", VNum (price i))].

Definition calculate_indicators (data : DataFrame) : result Indicators :=
  let period := range_detection_period in
  let* range_high := iloc_last (rolling agg_max period (col high data)) in
  let* range_low := iloc_last (rolling agg_min period (col low data)) in
  let range_middle := ((range_high + range_low) / Fin 2)%num in
  let* price := iloc_last (col close data) in
  Ok {| range_high := range_high; range_low := range_low;
        range_middle := range_middle; price := price |}.

Definition get_risk_parameters (entry_price : num) (signal_type : SignalType)
    : num * num :=
  pct_risk_parameters (grid_spacing * 2) grid_spacing entry_price signal_type.

Definition decide_signal `{Runtime} (latest : bar) (i : Indicators)
    : decision :=
  let current_price := close latest in
  let range_size := (range_high i - range_low i)%num in
  let position_in_range := ((current_price - range_low i) / range_size)%num in
  if (position_in_range <? Fin 0.3)%num
  then (BUY, Fin 0.70,
        "Price in lower 30% of range ($" ++ format_f 2 current_price ++ ")")
  else if (position_in_range >? Fin 0.7)%num
  then (SELL, Fin 0.70,
        "Price in upper 30% of range ($" ++ format_f 2 current_price ++ ")")
  else (HOLD, Fin 0, "Grid levels maintained").

Definition analyze_body `{Runtime} (symbol : string) (data : DataFrame)
    (market_data : MarketData) (now : Z) : result TradingSignal :=
  let* indicators := calculate_indicators data in
  let* latest := iloc_last data in
  Ok (build_signal get_risk_parameters symbol (close latest) now
        (decide_signal latest indicators) (to_dict indicators)).

Definition analyze `{Runtime} (symbol : string) (data : DataFrame)
    (market_data : MarketData) (now : Z) : TradingSignal :=
  try_except (analyze_body symbol data market_data now)
    (fun _ => hold_signal symbol (Fin 0) now "Error" ∅).

Definition validate_signal (signal : TradingSignal) : bool :=
  (confidence signal >=? Fin 0.65)%num.

(** Grid trading uses a fixed size per level. *)
Definition calculate_position_size (signal : TradingSignal)
    (portfolio_value risk_per_trade : num) : num :=
  py_min (Fin base_size) (portfolio_value * Fin 0.10)%num.
End GridTradingBot.

(** *** Crypto arbitrage bot ([bots/crypto_arbitrage_bot.py]) *)
Module CryptoArbitrageBot.
Definition min_spread : Q := 0.01.
Definition max_trade_size : Q := 50000.

Record Indicators : Type := {
  spread : num;
  price : num
}.

Definition to_dict (i : Indicators) : gmap string ival :=
  list_to_map [("spread", VNum (spread i)); ("price", VNum (price i))].

Definition calculate_indicators (data : DataFrame) : result Indicators :=
  let* high_last := iloc_last (col high data) in
  let* low_last := iloc_last (col low data) in
  let* close_last := iloc_last (col close data) in
  let high_low_spread := ((high_last - low_last) / close_last)%num in
  let* price := iloc_last (col close data) in
  Ok {| spread := high_low_spread; price := price |}.

Definition get_risk_parameters (entry_price : num) (signal_type : SignalType)
    : num * num :=
  pct_risk_parameters 0.002 0.01 entry_price signal_type.

Definition decide_signal `{Runtime} (latest : bar) (i : Indicators)
    : decision :=
  let spread := spread i in
  if (spread >? Fin min_spread)%num
  then (BUY, Fin 0.85,
        "Arbitrage opportunity detected - "
          ++ format_f 2 (spread * Fin 100)%num ++ "% spread")
  else (HOLD, Fin 0, "No arbitrage opportunity").

Definition analyze_body `{Runtime} (symbol : string) (data : DataFrame)
    (market_data : MarketData) (now : Z) : result TradingSignal :=
  let* indicators := calculate_indicators data in
  let* latest := iloc_last data in
  Ok (build_signal get_risk_parameters symbol (close latest) now
        (decide_signal latest indicators) (to_dict indicators)).

Definition analyze `{Runtime} (symbol : string) (data : DataFrame)
    (market_data : MarketData) (now : Z) : TradingSignal :=
  try_except (analyze_body symbol data market_data now)
    (fun _ => hold_signal symbol (Fin 0) now "Error" ∅).

Definition validate_signal (signal : TradingSignal) : bool :=
  (confidence signal >=? Fin 0.80)%num.

Definition calculate_position_size (signal : TradingSignal)
    (portfolio_value risk_per_trade : num) : num :=
  py_min (portfolio_value * Fin 0.15)%num (Fin max_trade_size).
End CryptoArbitrageBot.

(** *** Fibonacci trader ([bots/fibonacci_trader.py]) *)
Module FibonacciTrader.
Definition lookback : nat := 50.
Definition fib_tolerance : Q := 0.005.
Definition key_levels : list Q := [0.236; 0.382; 0.500; 0.618; 0.786]%Q.

Record Indicators : Type := {
  at_fib_level : bool;
  fib_level : option num;
  trend : string;
  fib_levels : list (num * num);
  price : num
}.

Definition to_dict (i : Indicators) : gmap string ival :=
  list_to_map
    [("at_fib_level", VBool (at_fib_level i));
     ("fib_level", match fib_level i with Some l => VNum l | None => VNone end);
     ("trend", VStr (trend i)); ("fib_levels", VLevels (fib_levels i));
     ("price", VNum (price i))].

(** The loop over [fib_levels.items()] that stops at the first level
    the price is close to. *)
Fixpoint find_level (current_price : num) (levels : list (num * num))
    : option num :=
  match levels with
  | [] => None
  | (level, price) :: rest =>
      if (nabs (current_price - price) / current_price
            <? Fin fib_tolerance)%num
      then Some level
      else find_level current_price rest
  end.

Definition calculate_indicators (data : DataFrame) : result Indicators :=
  let recent := tail_rows lookback data in
  let high := series_max (col high recent) in
  let low := series_min (col low recent) in
  let* current_price := iloc_last (col close data) in
  let diff := (high - low)%num in
  let fib_levels :=
    List.map (fun level => (Fin level, (high - diff * Fin level)%num))
      key_levels in
  let fib_level := find_level current_price fib_levels in
  let at_fib_level :=
    match fib_level with Some _ => true | None => false end in
  let* sma_20 := iloc_last (rolling agg_mean 20 (col close data)) in
  let trend :=
    if (current_price >? sma_20)%num then "uptrend" else "downtrend" in
  Ok {| at_fib_level := at_fib_level; fib_level := fib_level;
        trend := trend; fib_levels := fib_levels; price := current_price |}.

Definition get_risk_parameters (entry_price : num) (signal_type : SignalType)
    : num * num :=
  let stop_distance := (entry_price * Fin 0.025)%num in
  let target_distance := (entry_price * Fin 0.07)%num in
  match signal_type with
  | BUY => ((entry_price - stop_distance)%num,
            (entry_price + target_distance)%num)
  | _ => ((entry_price + stop_distance)%num,
          (entry_price - target_distance)%num)
  end.

(** [fib_level in [0.382, 0.500, 0.618]] *)
Definition in_mid_levels (fib_level : option num) : bool :=
  match fib_level with
  | Some l => existsb (neqb l) [Fin 0.382; Fin 0.500; Fin 0.618]
  | None => false
  end.

Definition show_level `{Runtime} (fib_level : option num) : string :=
  match fib_level with
  | Some l => str_num l
  | None => "None"
  end.

Definition decide_signal `{Runtime} (latest : bar) (i : Indicators)
    : decision :=
  if at_fib_level i then
    if String.eqb (trend i) "uptrend" && in_mid_levels (fib_level i)
    then (BUY, Fin 0.77,
          "Fib " ++ show_level (fib_level i) ++ " retracement in uptrend")
    else if String.eqb (trend i) "downtrend" && in_mid_levels (fib_level i)
    then (SELL, Fin 0.77,
          "Fib " ++ show_level (fib_level i) ++ " retracement in downtrend")
    else (HOLD, Fin 0, "No Fibonacci signal")
  else (HOLD, Fin 0, "No Fibonacci signal").

Definition create_error_signal (symbol : string) (now : Z) (error : string)
    : TradingSignal :=
  hold_signal symbol (Fin 0) now ("Error: " ++ error) ∅.

Definition analyze_body `{Runtime} (symbol : string) (data : DataFrame)
    (market_data : MarketData) (now : Z) : result TradingSignal :=
  let* indicators := calculate_indicators data in
  let* latest := iloc_last data in
  Ok (build_signal get_risk_parameters symbol (close latest) now
        (decide_signal latest indicators) (to_dict indicators)).

Definition analyze `{Runtime} (symbol : string) (data : DataFrame)
    (market_data : MarketData) (now : Z) : TradingSignal :=
  try_except (analyze_body symbol data market_data now)
    (fun e => create_error_signal symbol now (str_exn e)).

Definition validate_signal (signal : TradingSignal) : bool :=
  (confidence signal >? Fin 0.70)%num.
End FibonacciTrader.

(** *** Mean reversion bot ([bots/mean_reversion_bot.py]) *)
Module MeanReversionBot.
Definition bb_period : nat := 20.
Definition bb_std : Q := 2.0.
Definition rsi_period : nat := 14.
Definition rsi_oversold : Q := 30.
Definition rsi_overbought : Q := 70.
Definition min_confidence : Q := 0.70.

Record Indicators : Type := {
  bb_upper : num;
  bb_middle : num;
  bb_lower : num;
  rsi : num;
  price : num
}.

Definition to_dict (i : Indicators) : gmap string ival :=
  list_to_map
    [("bb_upper", VNum (bb_upper i)); ("bb_middle", VNum (bb_middle i));
     ("bb_lower", VNum (bb_lower i)); ("rsi", VNum (rsi i));
     ("price", VNum (price i))].

Definition calculate_indicators `{Runtime} (data : DataFrame)
    : result Indicators :=
  let sma := rolling agg_mean bb_period (col close data) in
  let std := rolling agg_std bb_period (col close data) in
  let bb_upper := zip_with (fun m s => (m + s * Fin bb_std)%num) sma std in
  let bb_lower := zip_with (fun m s => (m - s * Fin bb_std)%num) sma std in
  let rsi := rsi_series rsi_period (col close data) in
  let* bb_upper_last := iloc_last bb_upper in
  let* bb_middle := iloc_last sma in
  let* bb_lower_last := iloc_last bb_lower in
  let* rsi_last := iloc_last rsi in
  let* price := iloc_last (col close data) in
  Ok {| bb_upper := bb_upper_last; bb_middle := bb_middle;
        bb_lower := bb_lower_last; rsi := rsi_last; price := price |}.

Definition get_risk_parameters (entry_price : num) (signal_type : SignalType)
    : num * num :=
  pct_risk_parameters 0.03 0.045 entry_price signal_type.

Definition decide_signal `{Runtime} (latest : bar) (i : Indicators)
    : decision :=
  if (close latest <? bb_lower i)%num && (rsi i <? Fin rsi_oversold)%num
  then (BUY, Fin 0.80,
        "Oversold - RSI: " ++ format_f 1 (rsi i) ++ ", Below BB lower band")
  else if (close latest >? bb_upper i)%num
          && (rsi i >? Fin rsi_overbought)%num
  then (SELL, Fin 0.80,
        "Overbought - RSI: " ++ format_f 1 (rsi i)
          ++ ", Above BB upper band")
  else (HOLD, Fin 0, "No mean reversion signal").

Definition analyze_body `{Runtime} (symbol : string) (data : DataFrame)
    (market_data : MarketData) (now : Z) : result TradingSignal :=
  let* indicators := calculate_indicators data in
  let* latest := iloc_last data in
  Ok (build_signal get_risk_parameters symbol (close latest) now
        (decide_signal latest indicators) (to_dict indicators)).

Definition analyze `{Runtime} (symbol : string) (data : DataFrame)
    (market_data : MarketData) (now : Z) : TradingSignal :=
  try_except (analyze_body symbol data market_data now)
    (fun e => hold_signal symbol (Fin 0) now ("Error: " ++ str_exn e) ∅).

Definition validate_signal (signal : TradingSignal) : bool :=
  (confidence signal >=? Fin min_confidence)%num.

Definition calculate_position_size (signal : TradingSignal)
    (portfolio_value risk_per_trade : num) : num :=
  risk_position_size 0.20 signal portfolio_value risk_per_trade.
End MeanReversionBot.

(** *** News sentinel bot ([bots/news_sentinel_bot.py]) *)
Module NewsSentinelBot.
Definition sentiment_threshold : Q := 0.6.
Definition volume_spike_threshold : Q := 2.0.

Record Indicators : Type := {
  volume_ratio : num;
  price_change : num;
  price : num
}.

Definition to_dict (i : Indicators) : gmap string ival :=
  list_to_map
    [("volume_ratio", VNum (volume_ratio i));
     ("price_change", VNum (price_change i)); ("price", VNum (price i))].

Definition calculate_indicators (data : DataFrame) : result Indicators :=
  let* volume_ratio := volume_ratio_of data in
  let* price_change := iloc_last (pct_change 5 (col close data)) in
  let* price := iloc_last (col close data) in
  Ok {| volume_ratio := volume_ratio; price_change := price_change;
        price := price |}.

Definition get_risk_parameters (entry_price : num) (signal_type : SignalType)
    : num * num :=
  pct_risk_parameters 0.03 0.06 entry_price signal_type.

Definition decide_signal `{Runtime} (market_data : MarketData)
    (i : Indicators) : decision :=
  let sentiment := default (Fin 0) (market_data !! "news_sentiment") in
  let volume_spike := volume_ratio i in
  if (sentiment >? Fin sentiment_threshold)%num
     && (volume_spike >? Fin volume_spike_threshold)%num
  then (BUY, Fin 0.75,
        "Positive news sentiment (" ++ format_f 2 sentiment ++ ") with "
          ++ format_f 1 volume_spike ++ "x volume")
  else if (sentiment <? Fin (- sentiment_threshold))%num
          && (volume_spike >? Fin volume_spike_threshold)%num
  then (SELL, Fin 0.75,
        "Negative news sentiment (" ++ format_f 2 sentiment ++ ") with "
          ++ format_f 1 volume_spike ++ "x volume")
  else (HOLD, Fin 0, "No news catalyst").

Definition analyze_body `{Runtime} (symbol : string) (data : DataFrame)
    (market_data : MarketData) (now : Z) : result TradingSignal :=
  let* indicators := calculate_indicators data in
  let* latest := iloc_last data in
  Ok (build_signal get_risk_parameters symbol (close latest) now
        (decide_signal market_data indicators) (to_dict indicators)).

Definition analyze `{Runtime} (symbol : string) (data : DataFrame)
    (market_data : MarketData) (now : Z) : TradingSignal :=
  try_except (analyze_body symbol data market_data now)
    (fun _ => hold_signal symbol (Fin 0) now "Error" ∅).

Definition validate_signal (signal : TradingSignal) : bool :=
  (confidence signal >=? Fin 0.70)%num.

Definition calculate_position_size (signal : TradingSignal)
    (portfolio_value risk_per_trade : num) : num :=
  risk_position_size 0.20 signal portfolio_value risk_per_trade.
End NewsSentinelBot.

(** *** Pattern recognition bot ([bots/pattern_recognition_bot.py]) *)
Module PatternRecognitionBot.
Definition threshold : Q := 0.7.

Record Indicators : Type := {
  price : num
}.

Definition to_dict (i : Indicators) : gmap string ival :=
  list_to_map [("price", VNum (price i))].

Definition calculate_indicators (data : DataFrame) : result Indicators :=
  let* price := iloc_last (col close data) in
  Ok {| price := price |}.

Definition get_risk_parameters (entry_price : num) (signal_type : SignalType)
    : num * num :=
  ((entry_price * Fin 0.98)%num, (entry_price * Fin 1.05)%num).

Definition create_error_signal (symbol : string) (now : Z) (error : string)
    : TradingSignal :=
  hold_signal symbol (Fin 0) now ("Error: " ++ error) ∅.

Definition analyze_body (symbol : string) (data : DataFrame)
    (market_data : MarketData) (now : Z) : result TradingSignal :=
  let* indicators := calculate_indicators data in
  let* entry_price := iloc_last (col close data) in
  Ok (hold_signal symbol entry_price now "Signal logic here"
        (to_dict indicators)).

Definition analyze (symbol : string) (data : DataFrame)
    (market_data : MarketData) (now : Z) : TradingSignal :=
  try_except (analyze_body symbol data market_data now)
    (fun _ => create_error_signal symbol now "Error").

Definition validate_signal (signal : TradingSignal) : bool :=
  (confidence signal >? Fin 0.7)%num.
End PatternRecognitionBot.

(** *** Scalping bot ([bots/scalping_bot.py]) *)
Module ScalpingBot.
Definition ema_fast_span : nat := 5.
Definition ema_slow_span : nat := 15.
Definition min_spread : Q := 0.001.
Definition target_profit : Q := 0.005.

Record Indicators : Type := {
  ema_fast : num;
  ema_slow : num;
  momentum : num;
  price : num
}.

Definition to_dict (i : Indicators) : gmap string ival :=
  list_to_map
    [("ema_fast", VNum (ema_fast i)); ("ema_slow", VNum (ema_slow i));
     ("momentum", VNum (momentum i)); ("price", VNum (price i))].

Definition calculate_indicators (data : DataFrame) : result Indicators :=
  let* ema_fast := iloc_last (ewm_mean ema_fast_span (col close data)) in
  let* ema_slow := iloc_last (ewm_mean ema_slow_span (col close data)) in
  let* momentum := iloc_last (pct_change 5 (col close data)) in
  let* price := iloc_last (col close data) in
  Ok {| ema_fast := ema_fast; ema_slow := ema_slow; momentum := momentum;
        price := price |}.

Definition get_risk_parameters (entry_price : num) (signal_type : SignalType)
    : num * num :=
  pct_risk_parameters 0.005 0.01 entry_price signal_type.

Definition decide_signal (latest : bar) (i : Indicators) : decision :=
  if (ema_fast i >? ema_slow i)%num && (momentum i >? Fin 0)%num
  then (BUY, Fin 0.70,
        "Fast EMA crossed above slow EMA with positive momentum")
  else if (ema_fast i <? ema_slow i)%num && (momentum i <? Fin 0)%num
  then (SELL, Fin 0.70,
        "Fast EMA crossed below slow EMA with negative momentum")
  else (HOLD, Fin 0, "No scalp setup").

Definition analyze_body (symbol : string) (data : DataFrame)
    (market_data : MarketData) (now : Z) : result TradingSignal :=
  let* indicators := calculate_indicators data in
  let* latest := iloc_last data in
  Ok (build_signal get_risk_parameters symbol (close latest) now
        (decide_signal latest indicators) (to_dict indicators)).

Definition analyze (symbol : string) (data : DataFrame)
    (market_data : MarketData) (now : Z) : TradingSignal :=
  try_except (analyze_body symbol data market_data now)
    (fun _ => hold_signal symbol (Fin 0) now "Error" ∅).

Definition validate_signal (signal : TradingSignal) : bool :=
  (confidence signal >=? Fin 0.65)%num.

(** Small positions for scalping. *)
Definition calculate_position_size (signal : TradingSignal)
    (portfolio_value risk_per_trade : num) : num :=
  py_min (portfolio_value * Fin 0.10)%num (Fin 10000).
End ScalpingBot.

(** ** The strategies as one family *)

Inductive bot : Type :=
| momentum_bot
| grid_trading_bot
| crypto_arbitrage_bot
| fibonacci_trader
| mean_reversion_bot
| news_sentinel_bot
| pattern_recognition_bot
| scalping_bot.

(** The body of [bot.analyze] inside its [try]. *)
Definition analyze_body `{Runtime} (b : bot) (symbol : string)
    (data : DataFrame) (market_data : MarketData) (now : Z)
    : result TradingSignal :=
  match b with
  | momentum_bot => MomentumBot.analyze_body symbol data market_data now
  | grid_trading_bot => GridTradingBot.analyze_body symbol data market_data now
  | crypto_arbitrage_bot =>
      CryptoArbitrageBot.analyze_body symbol data market_data now
  | fibonacci_trader => FibonacciTrader.analyze_body symbol data market_data now
  | mean_reversion_bot =>
      MeanReversionBot.analyze_body symbol data market_data now
  | news_sentinel_bot => NewsSentinelBot.analyze_body symbol data market_data now
  | pattern_recognition_bot =>
      PatternRecognitionBot.analyze_body symbol data market_data now
  | scalping_bot => ScalpingBot.analyze_body symbol data market_data now
  end.

(** [bot.analyze(symbol, data, market_data)] *)
Definition analyze `{Runtime} (b : bot) (symbol : string) (data : DataFrame)
    (market_data : MarketData) (now : Z) : TradingSignal :=
  match b with
  | momentum_bot => MomentumBot.analyze symbol data market_data now
  | grid_trading_bot => GridTradingBot.analyze symbol data market_data now
  | crypto_arbitrage_bot =>
      CryptoArbitrageBot.analyze symbol data market_data now
  | fibonacci_trader => FibonacciTrader.analyze symbol data market_data now
  | mean_reversion_bot => MeanReversionBot.analyze symbol data market_data now
  | news_sentinel_bot => NewsSentinelBot.analyze symbol data market_data now
  | pattern_recognition_bot =>
      PatternRecognitionBot.analyze symbol data market_data now
  | scalping_bot => ScalpingBot.analyze symbol data market_data now
  end.

(** [bot.validate_signal(signal, market_data)] *)
Definition validate_signal (b : bot) (signal : TradingSignal) : bool :=
  match b with
  | momentum_bot => MomentumBot.validate_signal signal
  | grid_trading_bot => GridTradingBot.validate_signal signal
  | crypto_arbitrage_bot => CryptoArbitrageBot.validate_signal signal
  | fibonacci_trader => FibonacciTrader.validate_signal signal
  | mean_reversion_bot => MeanReversionBot.validate_signal signal
  | news_sentinel_bot => NewsSentinelBot.validate_signal signal
  | pattern_recognition_bot => PatternRecognitionBot.validate_signal signal
  | scalping_bot => ScalpingBot.validate_signal signal
  end.

(** [bot.calculate_position_size(signal, portfolio_value, risk_per_trade)]
    for the bots that define it; the Fibonacci and the pattern bot inherit
    theirs from [BaseBot], which is not among the sources. *)
Definition calculate_position_size (b : bot) (signal : TradingSignal)
    (portfolio_value risk_per_trade : num) : option num :=
  match b with
  | momentum_bot =>
      Some (MomentumBot.calculate_position_size signal portfolio_value
              risk_per_trade)
  | grid_trading_bot =>
      Some (GridTradingBot.calculate_position_size signal portfolio_value
              risk_per_trade)
  | crypto_arbitrage_bot =>
      Some (CryptoArbitrageBot.calculate_position_size signal portfolio_value
              risk_per_trade)
  | mean_reversion_bot =>
      Some (MeanReversionBot.calculate_position_size signal portfolio_value
              risk_per_trade)
  | news_sentinel_bot =>
      Some (NewsSentinelBot.calculate_position_size signal portfolio_value
              risk_per_trade)
  | scalping_bot =>
      Some (ScalpingBot.calculate_position_size signal portfolio_value
              risk_per_trade)
  | fibonacci_trader | pattern_recognition_bot => None
  end.

(** [bot.get_risk_parameters(symbol, entry_price, signal_type)] *)
Definition get_risk_parameters (b : bot) (entry_price : num)
    (signal_type : SignalType) : num * num :=
  match b with
  | momentum_bot => MomentumBot.get_risk_parameters entry_price signal_type
  | grid_trading_bot =>
      GridTradingBot.get_risk_parameters entry_price signal_type
  | crypto_arbitrage_bot =>
      CryptoArbitrageBot.get_risk_parameters entry_price signal_type
  | fibonacci_trader =>
      FibonacciTrader.get_risk_parameters entry_price signal_type
  | mean_reversion_bot =>
      MeanReversionBot.get_risk_parameters entry_price signal_type
  | news_sentinel_bot =>
      NewsSentinelBot.get_risk_parameters entry_price signal_type
  | pattern_recognition_bot =>
      PatternRecognitionBot.get_risk_parameters entry_price signal_type
  | scalping_bot => ScalpingBot.get_risk_parameters entry_price signal_type
  end.

(** ** Summaries of the bots, and the notions the statements use *)

(** The confidence literal each bot attaches to a buy or sell decision;
    the pattern bot has none, it only holds. *)
Definition trade_confidence (b : bot) : option Q :=
  match b with
  | momentum_bot => Some 0.75%Q
  | grid_trading_bot => Some 0.70%Q
  | crypto_arbitrage_bot => Some 0.85%Q
  | fibonacci_trader => Some 0.77%Q
  | mean_reversion_bot => Some 0.80%Q
  | news_sentinel_bot => Some 0.75%Q
  | pattern_recognition_bot => None
  | scalping_bot => Some 0.70%Q
  end.

(** The directions each bot has a branch for besides holding. *)
Definition trade_directions (b : bot) : list SignalType :=
  match b with
  | crypto_arbitrage_bot => [BUY]
  | pattern_recognition_bot => []
  | _ => [BUY; SELL]
  end.

(** What the bots' decisions have in common: a hold decision carries
    confidence 0, a trade decision is one the bot has a branch for and
    carries the bot's confidence literal. *)
Definition decision_of (b : bot) (d : decision) : Prop :=
  match d with
  | (HOLD, c, _) => c = Fin 0
  | (t, c, _) =>
      In t (trade_directions b) /\
      exists q, trade_confidence b = Some q /\ c = Fin q
  end.

(** The handler of each bot's [except] clause. *)
Definition except_handler (b : bot) (symbol : string) (now : Z) (e : exn)
    : TradingSignal :=
  match b with
  | momentum_bot | mean_reversion_bot =>
      hold_signal symbol (Fin 0) now ("Error: " ++ str_exn e) ∅
  | fibonacci_trader =>
      FibonacciTrader.create_error_signal symbol now (str_exn e)
  | pattern_recognition_bot =>
      PatternRecognitionBot.create_error_signal symbol now "Error"
  | grid_trading_bot | crypto_arbitrage_bot | news_sentinel_bot
  | scalping_bot =>
      hold_signal symbol (Fin 0) now "Error" ∅
  end.

(** The signal the specification asks for after a fault: hold, no
    confidence, no stop and no target, and a reason that reports an
    error. *)
Definition fault_signal (s : TradingSignal) : Prop :=
  signal_type s = HOLD /\ confidence s = Fin 0 /\ stop_loss s = Fin 0 /\
  take_profit s = Fin 0 /\ String.prefix "Error" (reason s) = true.

(** The bots that size a position from the risk budget and the distance
    between entry and stop; the grid, scalping and arbitrage bots take a
    fixed share of the portfolio under a fixed ceiling instead. *)
Definition sizes_by_risk (b : bot) : bool :=
  match b with
  | momentum_bot | mean_reversion_bot | news_sentinel_bot => true
  | _ => false
  end.

(** The invariant of section 8 of the specification on a signal. *)
Definition confidence_in_range (s : TradingSignal) : Prop :=
  (Fin 0 <=? confidence s)%num = true /\ (confidence s <=? Fin 1)%num = true.

Definition hold_shape (s : TradingSignal) : Prop :=
  confidence s = Fin 0 /\ stop_loss s = Fin 0 /\ take_profit s = Fin 0.

Definition buy_ordering (s : TradingSignal) : Prop :=
  (stop_loss s <? entry_price s)%num = true /\
  (entry_price s <? take_profit s)%num = true.

Definition sell_ordering (s : TradingSignal) : Prop :=
  (take_profit s <? entry_price s)%num = true /\
  (entry_price s <? stop_loss s)%num = true.

Definition signal_invariant (s : TradingSignal) : Prop :=
  confidence_in_range s /\
  match signal_type s with
  | HOLD => hold_shape s
  | BUY => buy_ordering s
  | SELL => sell_ordering s
  end.

Definition finite_positive (x : num) : Prop :=
  exists q, x = Fin q /\ (0 < q)%Q.

(** The same invariant, with the orderings asked of the signals whose
    entry price is a positive number. *)
Definition signal_invariant_positive (s : TradingSignal) : Prop :=
  confidence_in_range s /\
  match signal_type s with
  | HOLD => hold_shape s
  | BUY => finite_positive (entry_price s) -> buy_ordering s
  | SELL => finite_positive (entry_price s) -> sell_ordering s
  end.

(** The number of rows below which the bot's own windows are not filled:
    the configured period where the bot has one, the width of its rolling
    windows otherwise, one row for the bots that read the last bar only. *)
Definition min_lookback (b : bot) : nat :=
  match b with
  | momentum_bot => MomentumBot.breakout_period
  | grid_trading_bot => GridTradingBot.range_detection_period
  | crypto_arbitrage_bot => 1
  | fibonacci_trader => FibonacciTrader.lookback
  | mean_reversion_bot => MeanReversionBot.bb_period
  | news_sentinel_bot => 20
  | pattern_recognition_bot => 1
  | scalping_bot => ScalpingBot.ema_slow_span
  end.

(** The number of rows below which the bot's trade conditions cannot be
    met.  It is [min_lookback], but for the scalping bot, whose averages are
    defined from the first row and whose 5-row price change needs 6 rows,
    and for the Fibonacci trader, which needs one row: [tail] and [max]
    accept a short frame. *)
Definition rows_needed (b : bot) : nat :=
  match b with
  | scalping_bot => 6
  | fibonacci_trader => 1
  | _ => min_lookback b
  end.

(** ** The application ([app.py])

    [random] is Python's module-level generator.  Its hidden state is made
    explicit as the stream of values the coming calls of [random.random()]
    return; [uniform] and [randint] consume one value each. *)

Definition rng : Type := nat -> Q.

Definition random (g : rng) : Q * rng := (g 0%nat, fun k => g (S k)).

(** [random.uniform(a, b)] is [a + (b - a) * random()]. *)
Definition uniform (a b : Q) (g : rng) : Q * rng :=
  let '(u, g) := random g in ((a + (b - a) * u)%Q, g).

(** [random.randint(a, b)]: an integer from [a] to [b].  CPython picks it
    from random bits and not from [random()]; the statements read the range
    of the value only. *)
Definition randint (a b : Z) (g : rng) : Z * rng :=
  let '(u, g) := random g in
  ((a + Qfloor (u * inject_Z (b - a + 1)))%Z, g).

(** A list comprehension whose element expression draws from [random]. *)
Fixpoint comprehension {A B : Type} (f : A -> rng -> B * rng) (l : list A)
    (g : rng) : list B * rng :=
  match l with
  | [] => ([], g)
  | x :: t =>
      let '(y, g) := f x g in
      let '(ys, g) := comprehension f t g in
      (y :: ys, g)
  end.

(** The random walk of [generate_sample_data]: [n] more prices after
    [last_price]. *)
Fixpoint walk (n : nat) (last_price : Q) (g : rng) : list Q * rng :=
  match n with
  | O => ([], g)
  | S n =>
      let '(change, g) := uniform (-0.05) 0.05 g in
      let new_price := (last_price * (1 + change))%Q in
      let '(rest, g) := walk n new_price g in
      (new_price :: rest, g)
  end.

(** The rows of [pd.DataFrame({...})] from columns of equal length. *)
Fixpoint frame (dates : list Z) (opens highs lows closes : list Q)
    (volumes : list Z) : DataFrame :=
  match dates, opens, highs, lows, closes, volumes with
  | d :: dates, o :: opens, h :: highs, l :: lows, c :: closes, v :: volumes =>
      {| date := d; open := Fin o; high := Fin h; low := Fin l;
         close := Fin c; volume := Fin (inject_Z v) |}
        :: frame dates opens highs lows closes volumes
  | _, _, _, _, _, _ => []
  end.

(** [generate_sample_data(symbol, days)]; [today] is the day number of
    [datetime.now()].  With [days = 0] the price column has one entry and
    the date column none, which the frame constructor rejects. *)
Definition generate_sample_data (symbol : string) (days : nat) (today : Z)
    (g : rng) : result DataFrame * rng :=
  let dates :=
    List.map (fun k => (today - Z.of_nat (days - 1 - k))%Z) (seq 0 days) in
  let '(base_price, g) := uniform 50 500 g in
  let '(more, g) := walk (days - 1) base_price g in
  let prices := base_price :: more in
  let '(highs, g) :=
    comprehension (fun p g => let '(u, g) := uniform 1.0 1.03 g in
                              ((p * u)%Q, g)) prices g in
  let '(lows, g) :=
    comprehension (fun p g => let '(u, g) := uniform 0.97 1.0 g in
                              ((p * u)%Q, g)) prices g in
  let '(closes, g) :=
    comprehension (fun p g => let '(u, g) := uniform 0.98 1.02 g in
                              ((p * u)%Q, g)) prices g in
  let '(volumes, g) :=
    comprehension (fun _ g => randint 1000000 5000000 g) (seq 0 days) g in
  if (length dates =? length prices)%nat
  then (Ok (frame dates prices highs lows closes volumes), g)
  else (Raise (ValueError "All arrays must be of the same length"), g).

(** One entry of the trade log. *)
Record Trade : Type := {
  entry_date : Z;
  trade_type : string;
  trade_entry_price : num;
  exit_price : num;
  pnl_percent : num
}.

(** The variables the backtest loop updates, with the generator. *)
Record BacktestState : Type := {
  trades : list Trade;
  equity_curve : list num;
  generator : rng
}.

(** The signal of step [i]: the bot on the rows before [i]. *)
Definition step_signal `{Runtime} (b : bot) (symbol : string)
    (data : DataFrame) (clock : nat -> Z) (i : nat) : TradingSignal :=
  let window_data := take i data in
  analyze b symbol window_data ∅ (clock i).

(** The body of [for i in range(20, len(data))]; [clock i] is the reading
    of [datetime.now()] in iteration [i]. *)
Definition backtest_step `{Runtime} (b : bot) (symbol : string)
    (data : DataFrame) (clock : nat -> Z) (st : BacktestState) (i : nat)
    : BacktestState :=
  let signal := step_signal b symbol data clock i in
  if negb (String.eqb (value (signal_type signal)) "hold") then
    let entry := entry_price signal in
    let '(u, g) := uniform 0.98 1.05 (generator st) in
    let exit_price := (entry * Fin u)%num in
    let pnl := ((exit_price - entry) / entry * Fin 100)%num in
    {| trades :=
         trades st ++
           [{| entry_date := nth i (List.map date data) 0%Z;
               trade_type := value (signal_type signal);
               trade_entry_price := entry;
               exit_price := exit_price;
               pnl_percent := pnl |}];
       equity_curve :=
         equity_curve st ++
           [(List.last (equity_curve st) NaN * (Fin 1 + pnl / Fin 100))%num];
       generator := g |}
  else st.

(** The loop of [run_backtest] over a given frame, from the starting
    capital. *)
Definition backtest_loop `{Runtime} (b : bot) (symbol : string)
    (data : DataFrame) (clock : nat -> Z) (g : rng) : BacktestState :=
  fold_left (backtest_step b symbol data clock)
    (seq 20 (length data - 20))
    {| trades := []; equity_curve := [Fin 10000]; generator := g |}.

(** [run_backtest] for a registered bot: the frame is generated, then
    replayed.  The response reports [len(trades)], [trades[-10:]] and
    [equity_curve[-50:]] of the state returned here, and rounded summary
    figures. *)
Definition run_backtest `{Runtime} (b : bot) (symbol : string) (days : nat)
    (today : Z) (clock : nat -> Z) (g : rng) : result BacktestState :=
  let '(data, g) := generate_sample_data symbol days today g in
  let* data := data in
  Ok (backtest_loop b symbol data clock g).

(** ** Notions about backtest runs *)

(** Two backtest states with the same log and curve whose generators
    will return the same draws. *)
Definition same_run (s1 s2 : BacktestState) : Prop :=
  trades s1 = trades s2 /\ equity_curve s1 = equity_curve s2 /\
  forall k, generator s1 k = generator s2 k.

(** What [random.random()] promises: every draw lies in [0, 1). *)
Definition unit_draws (g : rng) : Prop :=
  forall k, (0 <= g k)%Q /\ (g k < 1)%Q.

Definition positive_closes (data : DataFrame) : Prop :=
  Forall (fun r => finite_positive (close r)) data.

(** The equity curve of a trade log, in the words of the specification:
    it starts at the initial capital of 10,000, has one sample more than
    there are trades, and the sample after trade [k] is the sample before it
    times [1 + pnl_percent / 100] of that trade. *)
Definition equity_compounds (log : list Trade) (curve : list num) : Prop :=
  nth 0 curve NaN = Fin 10000 /\
  length curve = S (length log) /\
  forall k t, nth_error log k = Some t ->
    nth (S k) curve NaN =
      (nth k curve NaN * (Fin 1 + pnl_percent t / Fin 100))%num.

(** ** Reference inputs *)

(** A runtime for evaluating the model on concrete inputs: the identity
    stands in for the square root and the formats print nothing. *)
Definition plain_runtime : Runtime :=
  {| sqrtQ := fun x => x; format_f := fun _ _ => ""; str_num := fun _ => "" |}.

(** A frame of [n] equal bars. *)
Definition flat_bars (n : nat) (price vol : Q) : DataFrame :=
  List.map
    (fun k => {| date := Z.of_nat k; open := Fin price; high := Fin price;
                 low := Fin price; close := Fin price; volume := Fin vol |})
    (seq 0 n).

(** Nineteen quiet bars at 100, then a bar that trades a hundred times the
    usual volume at a price of zero. *)
Definition zero_close_frame : DataFrame :=
  (flat_bars 19 100 1 ++
     [{| date := 19; open := Fin 0; high := Fin 0; low := Fin 0;
         close := Fin 0; volume := Fin 100 |}])%list.

(** The same, with the last bar at 100 as well. *)
Definition spike_frame : DataFrame :=
  (flat_bars 19 100 1 ++ flat_bars 1 100 100)%list.

Definition good_news : MarketData := {[ "news_sentiment" := Fin 0.9 ]}.

(** A single bar that closes on the middle of its own range. *)
Definition one_bar_frame : DataFrame :=
  [{| date := 0; open := Fin 100; high := Fin 110; low := Fin 90;
      close := Fin 100; volume := Fin 1000 |}].

(** Six bars, each closing above the one before. *)
Definition rising_six : DataFrame :=
  List.map
    (fun k => let p := inject_Z (100 + Z.of_nat k) in
              {| date := Z.of_nat k; open := Fin p; high := Fin p;
                 low := Fin p; close := Fin p; volume := Fin 1000 |})
    (seq 0 6).

(** A signal whose stop sits on its entry price. *)
Definition no_risk_signal : TradingSignal :=
  {| signal_type := BUY; symbol := "AAPL"; confidence := Fin 0.70;
     entry_price := Fin 100; stop_loss := Fin 100; take_profit := Fin 102;
     position_size := Fin 0; timestamp := 0; reason := "";
     indicators := ∅ |}.

(** A buy at 100 with the stop at 98. *)
Definition two_point_risk_signal : TradingSignal :=
  {| signal_type := BUY; symbol := "AAPL"; confidence := Fin 0.75;
     entry_price := Fin 100; stop_loss := Fin 98; take_profit := Fin 105;
     position_size := Fin 0; timestamp := 0; reason := "";
     indicators := ∅ |}.

(** Twenty-one bars with a 4% range around a close of 100: the arbitrage
    bot buys on each. *)
Definition wide_bars : DataFrame :=
  List.map
    (fun k => {| date := Z.of_nat k; open := Fin 100; high := Fin 102;
                 low := Fin 98; close := Fin 100; volume := Fin 1000 |})
    (seq 0 21).

(** Two states of the generator: every coming draw 0, every coming draw
    one half. *)
Definition draws_zero : rng := fun _ => 0%Q.
Definition draws_half : rng := fun _ => (1 # 2)%Q.

Definition clock_zero : nat -> Z := fun _ => 0%Z.

(** The synthetic series of the specification's scenario: 100 closes
    growing by 0.5% a bar from 100. *)
Definition geometric_close (n : nat) : Q := (100 * 1.005 ^ Z.of_nat n)%Q.

Definition geometric_closes : Series :=
  List.map (fun n => Fin (geometric_close n)) (seq 0 100).

(** A frame on that series: every bar opens, peaks, bottoms and closes on
    the series' value, and trades twice the volume of the bar before. *)
Definition geometric_frame : DataFrame :=
  List.map
    (fun n => {| date := Z.of_nat n; open := Fin (geometric_close n);
                 high := Fin (geometric_close n);
                 low := Fin (geometric_close n);
                 close := Fin (geometric_close n);
                 volume := Fin (2 ^ Z.of_nat n) |})
    (seq 0 100).

(** No value of the series is below the one before it. *)
Fixpoint rising (s : Series) : bool :=
  match s with
  | x :: (y :: _) as t => negb (y - x <? Fin 0)%num && rising t
  | _ => true
  end.

(** ** Further notions about series *)

(** No value of the series differs from the one before it. *)
Fixpoint level (s : Series) : bool :=
  match s with
  | x :: (y :: _) as t =>
      negb (y - x <? Fin 0)%num && negb (y - x >? Fin 0)%num && level t
  | _ => true
  end.

(** A number that is zero. *)
Definition is_zero (v : num) : Prop := exists z, v = Fin z /\ (z == 0)%Q.

(** ** Further notions about the bots *)

(** The share of the portfolio each sizer caps a position at. *)
Definition cap_fraction (b : bot) : option Q :=
  match b with
  | momentum_bot => Some 0.25%Q
  | mean_reversion_bot | news_sentinel_bot => Some 0.20%Q
  | grid_trading_bot | scalping_bot => Some 0.10%Q
  | crypto_arbitrage_bot => Some 0.15%Q
  | fibonacci_trader | pattern_recognition_bot => None
  end.

(** The absolute ceiling of the sizers that have one. *)
Definition size_ceiling (b : bot) : option Q :=
  match b with
  | grid_trading_bot => Some GridTradingBot.base_size
  | scalping_bot => Some 10000%Q
  | crypto_arbitrage_bot => Some CryptoArbitrageBot.max_trade_size
  | _ => None
  end.

(** ** The scoring modules ([ai_modules])

    These functions compute on plain Python floats, where a division by
    zero raises [ZeroDivisionError]; [None] stands for that exception.  The
    mappings they read hold floats. *)

(** Python's builtin [max(a, b)]: the first argument is kept unless the
    second compares strictly above it. *)
Definition py_max (a b : num) : num := if ngt b a then b else a.

(** [a / b] on Python numbers. *)
Definition py_div (a b : num) : option num :=
  if neqb b (Fin 0) then None else Some (ndiv a b).

(** *** Market sentiment analyzer ([ai_modules/sentiment_analyzer.py]) *)
Module MarketSentimentAnalyzer.
Record Sentiment : Type := {
  sentiment_score : num;
  sentiment_label : string;
  price_momentum : num;
  volume_change : num;
  timestamp : Z
}.

Definition get_sentiment_label (score : num) : string :=
  if (score >=? Fin 0.7)%num then "Very Bullish"
  else if (score >=? Fin 0.6)%num then "Bullish"
  else if (score >=? Fin 0.4)%num then "Neutral"
  else if (score >=? Fin 0.3)%num then "Bearish"
  else "Very Bearish".

Definition analyze_sentiment (market_data : MarketData) (now : Z) : Sentiment :=
  let price_momentum := default (Fin 0) (market_data !! "price_change_pct") in
  let volume_change := default (Fin 0) (market_data !! "volume_change_pct") in
  let sentiment_score := Fin 0.5 in
  let sentiment_score :=
    if (price_momentum >? Fin 2)%num then (sentiment_score + Fin 0.2)%num
    else if (price_momentum <? Fin (-2))%num
    then (sentiment_score - Fin 0.2)%num
    else sentiment_score in
  let sentiment_score :=
    if (volume_change >? Fin 50)%num then (sentiment_score + Fin 0.1)%num
    else sentiment_score in
  let sentiment_score := py_max (Fin 0) (py_min (Fin 1) sentiment_score) in
  {| sentiment_score := sentiment_score;
     sentiment_label := get_sentiment_label sentiment_score;
     price_momentum := price_momentum;
     volume_change := volume_change;
     timestamp := now |}.
End MarketSentimentAnalyzer.

(** *** Risk assessment engine ([ai_modules/risk_engine.py]) *)
Module RiskAssessmentEngine.
Record Assessment : Type := {
  risk_score : num;
  risk_level : string;
  position_size : num;
  risk_per_trade_pct : num;
  recommended_size : num;
  max_loss : num
}.

Definition calculate_risk_score (risk_pct position portfolio : num)
    : option num :=
  let score := Fin 50 in
  let score :=
    if (risk_pct >? Fin 0.05)%num then (score + Fin 30)%num
    else if (risk_pct >? Fin 0.03)%num then (score + Fin 20)%num
    else score in
  position_pct ←
    (if (portfolio >? Fin 0)%num
     then q ← py_div position portfolio; Some (q * Fin 100)%num
     else Some (Fin 0));
  let score :=
    if (position_pct >? Fin 15)%num then (score + Fin 20)%num else score in
  Some (py_min (Fin 100) score).

Definition get_risk_level (score : num) : string :=
  if (score >=? Fin 70)%num then "High Risk"
  else if (score >=? Fin 40)%num then "Medium Risk"
  else "Low Risk".

Definition assess_trade_risk (signal portfolio : gmap string num)
    : option Assessment :=
  let entry_price := default (Fin 0) (signal !! "entry_price") in
  let stop_loss := default (Fin 0) (signal !! "stop_loss") in
  let portfolio_value := default (Fin 100000) (portfolio !! "total_value") in
  risk_per_trade ←
    (if (entry_price >? Fin 0)%num
     then py_div (nabs (entry_price - stop_loss)) entry_price
     else Some (Fin 0));
  let risk_amount := (portfolio_value * Fin 0.02)%num in
  position_size ←
    (if (nabs (entry_price - stop_loss) >? Fin 0)%num
     then py_div risk_amount (nabs (entry_price - stop_loss))
     else Some (Fin 0));
  let position_size :=
    py_min (position_size * entry_price)%num (portfolio_value * Fin 0.2)%num in
  risk_score ← calculate_risk_score risk_per_trade position_size portfolio_value;
  max_loss ←
    (if (entry_price >? Fin 0)%num
     then q ← py_div position_size entry_price;
          Some (nabs (entry_price - stop_loss) * q)%num
     else Some (Fin 0));
  Some {| risk_score := risk_score;
          risk_level := get_risk_level risk_score;
          position_size := position_size;
          risk_per_trade_pct := (risk_per_trade * Fin 100)%num;
          recommended_size := position_size;
          max_loss := max_loss |}.
End RiskAssessmentEngine.

(** *** Pattern prediction model ([ai_modules/pattern_prediction.py]) *)
Module PatternPredictionModel.
(** The result; the two last keys are absent from the answer on a short
    frame. *)
Record Prediction : Type := {
  prediction : string;
  probability : num;
  confidence : option string;
  timeframe : option string
}.

Definition predict_next_move (data : DataFrame) : result Prediction :=
  if (length data <? 20)%nat then
    Ok {| prediction := "INSUFFICIENT_DATA"; probability := Fin 0;
          confidence := None; timeframe := None |}
  else
    let recent := tail_rows 20 data in
    let sma_5 := rolling agg_mean 5 (col close recent) in
    let sma_20 := rolling agg_mean 20 (col close recent) in
    let* current_price := iloc_last (col close recent) in
    let* sma_5_last := iloc_last sma_5 in
    let* sma_20_last := iloc_last sma_20 in
    let '(prediction, probability) :=
      if (sma_5_last >? sma_20_last)%num then ("UP", Fin 0.65)
      else if (sma_5_last <? sma_20_last)%num then ("DOWN", Fin 0.65)
      else ("SIDEWAYS", Fin 0.60) in
    Ok {| prediction := prediction; probability := probability;
          confidence := Some "MEDIUM"; timeframe := Some "1-5 candles" |}.
End PatternPredictionModel.

(** The endpoint of [app.py] that calls the risk engine:
    [assess_risk(request)]; the portfolio value is the 100,000 of the
    module-level [PORTFOLIO], which nothing in the application changes. *)
Definition assess_risk_endpoint (request : gmap string num)
    : option RiskAssessmentEngine.Assessment :=
  let signal : gmap string num :=
    {[ "entry_price" := default (Fin 100) (request !! "entry_price");
       "stop_loss" := default (Fin 98) (request !! "stop_loss") ]} in
  let portfolio : gmap string num := {[ "total_value" := Fin 100000 ]} in
  RiskAssessmentEngine.assess_trade_risk signal portfolio.

(** ** Further notions about the application *)

(** What [generate_sample_data] promises of a row: a positive open between
    the low and the high, both within 3% of it, a close within 2% of it, and
    a volume between one and five million. *)
Definition sample_bar (r : bar) : Prop :=
  exists o h l c v,
    open r = Fin o /\ high r = Fin h /\ low r = Fin l /\ close r = Fin c /\
    volume r = Fin (inject_Z v) /\
    (0 < o)%Q /\
    (0.97 * o <= l)%Q /\ (l <= o)%Q /\ (o <= h)%Q /\ (h <= 1.03 * o)%Q /\
    (0.98 * o <= c)%Q /\ (c <= 1.02 * o)%Q /\
    (1000000 <= v <= 5000000)%Z.

(** The magnitudes from [10^-100] to [10^100]: products and quotients of
    two or three doubles of such a size neither overflow nor underflow. *)
Definition ordinary (q : Q) : Prop :=
  (1 # 10 ^ 100 <= q)%Q /\ (q <= inject_Z (10 ^ 100))%Q.

(** A frame whose closes are numbers of ordinary magnitude. *)
Definition ordinary_closes (data : DataFrame) : Prop :=
  Forall (fun r => exists q, close r = Fin q /\ ordinary q) data.

(** The margin left to the rounding of the doubles where a statement
    compares a computed number with a formula: [10^-9]. *)
Definition rounding_margin : Q := 1 # 10 ^ 9.

(** The outcome of a trade whose exit factor was drawn with [u], as the
    exact operations give it: the exit price is the entry price times
    [0.98 + 0.07 u], and the result in percent is [7 u - 2]. *)
Definition computed_outcome (u : Q) (t : Trade) : Prop :=
  exists e x p,
    trade_entry_price t = Fin e /\ exit_price t = Fin x /\
    pnl_percent t = Fin p /\
    ordinary e /\ (x == e * (0.98 + 0.07 * u))%Q /\ (p == 7 * u - 2)%Q.

(** The same outcome up to the rounding margin: the exit price is within
    the margin, relative to the entry price, of the entry price times
    [0.98 + 0.07 u], and the result in percent is within the margin of
    [7 u - 2]. *)
Definition drawn_outcome (u : Q) (t : Trade) : Prop :=
  exists e x p,
    trade_entry_price t = Fin e /\ exit_price t = Fin x /\
    pnl_percent t = Fin p /\
    ordinary e /\
    (Qabs (x - e * (0.98 + 0.07 * u)) <= e * rounding_margin)%Q /\
    (Qabs (p - (7 * u - 2)) <= rounding_margin)%Q.

(** A trade of the log of a frame: bought or sold at the close of one row
    and dated with the row after it, which is row 20 or later. *)
Definition priced_before_dated (data : DataFrame) (t : Trade) : Prop :=
  exists i r r',
    (20 <= i)%nat /\ data !! (i - 1)%nat = Some r /\ data !! i = Some r' /\
    trade_entry_price t = close r /\ entry_date t = date r' /\
    (trade_type t = "buy" \/ trade_type t = "sell").

(** [predict_pattern(request)]: the prediction for a frame of 100
    generated days. *)
Definition predict_pattern (symbol : string) (today : Z) (g : rng)
    : result PatternPredictionModel.Prediction * rng :=
  let '(data, g) := generate_sample_data symbol 100 today g in
  (let* data := data in
   PatternPredictionModel.predict_next_move data, g).

(** The [name] each bot's constructor hands to [BaseBot], which the
    endpoints read back as [bot.name]. *)
Definition name (b : bot) : string :=
  match b with
  | momentum_bot => "Momentum Bot"
  | grid_trading_bot => "Grid Trading Bot"
  | crypto_arbitrage_bot => "Crypto Arbitrage Bot"
  | fibonacci_trader => "Fibonacci Trader"
  | mean_reversion_bot => "Mean Reversion Bot"
  | news_sentinel_bot => "News Sentinel Bot"
  | pattern_recognition_bot => "PatternRecognitionBot"
  | scalping_bot => "Scalping Bot"
  end.

(** One entry of the [signals] list of [generate_signals]. *)
Record SignalReport : Type := {
  report_bot : string;
  report_bot_id : string;
  report_type : string;
  report_confidence : num;
  report_entry_price : num;
  report_stop_loss : num;
  report_take_profit : num;
  report_reason : string;
  report_timestamp : Z
}.

Record SignalsResponse : Type := {
  response_symbol : string;
  signals : list SignalReport;
  total_signals : nat
}.

(** The body of [for bot_id, bot in BOTS.items()], for the [k]-th entry of
    the registry; [clock] is read once by [analyze] and once for the
    report.  [analyze] returns a signal on every input, so the handler of
    the loop's [try] is never entered. *)
Definition signals_step `{Runtime} (symbol : string) (data : DataFrame)
    (clock : nat -> Z) (signals : list SignalReport)
    (entry : nat * (string * bot)) : list SignalReport :=
  let '(k, (bot_id, b)) := entry in
  let signal := analyze b symbol data ∅ (clock (2 * k)%nat) in
  if negb (String.eqb (value (signal_type signal)) "hold") then
    (signals ++
       [{| report_bot := name b;
           report_bot_id := bot_id;
           report_type := value (signal_type signal);
           report_confidence := confidence signal;
           report_entry_price := entry_price signal;
           report_stop_loss := stop_loss signal;
           report_take_profit := take_profit signal;
           report_reason := reason signal;
           report_timestamp := clock (2 * k + 1)%nat |}])%list
  else signals.

(** [generate_signals(request)] over a registry [BOTS] of bots of the
    family, in the order of the dictionary. *)
Definition generate_signals `{Runtime} (BOTS : list (string * bot))
    (symbol : string) (today : Z) (clock : nat -> Z) (g : rng)
    : result SignalsResponse * rng :=
  let '(data, g) := generate_sample_data symbol 100 today g in
  (let* data := data in
   let signals :=
     fold_left (signals_step symbol data clock)
       (zip (seq 0 (length BOTS)) BOTS) [] in
   Ok {| response_symbol := symbol; signals := signals;
         total_signals := length signals |}, g).

(** A report as a reader of the endpoint expects it: it comes from a
    registered bot that has trade branches and does not wait for news,
    carries that bot's confidence literal and a positive entry price, and is
    a buy with stop < entry < target or a sell with target < entry < stop. *)
Definition sound_report (BOTS : list (string * bot)) (r : SignalReport)
    : Prop :=
  exists b q,
    In (report_bot_id r, b) BOTS /\ report_bot r = name b /\
    b <> pattern_recognition_bot /\ b <> news_sentinel_bot /\
    trade_confidence b = Some q /\ report_confidence r = Fin q /\
    finite_positive (report_entry_price r) /\
    ((report_type r = "buy" /\
      (report_stop_loss r <? report_entry_price r)%num = true /\
      (report_entry_price r <? report_take_profit r)%num = true) \/
     (report_type r = "sell" /\
      (report_take_profit r <? report_entry_price r)%num = true /\
      (report_entry_price r <? report_stop_loss r)%num = true)).

(** The reason each bot's handler gives on the empty frame, where the
    first [.iloc[-1]] raises pandas' [IndexError]. *)
Definition empty_frame_reason (b : bot) : string :=
  match b with
  | momentum_bot | mean_reversion_bot | fibonacci_trader =>
      "Error: single positional indexer is out-of-bounds"
  | pattern_recognition_bot => "Error: Error"
  | grid_trading_bot | crypto_arbitrage_bot | news_sentinel_bot
  | scalping_bot => "Error"
  end.

(** One bar that closes at 0 between a low of 0 and a high of 1: the
    spread of the arbitrage bot divides by the close. *)
Definition zero_close_bar : DataFrame :=
  [{| date := 0; open := Fin 0; high := Fin 1; low := Fin 0;
      close := Fin 0; volume := Fin 1000 |}].

(** The smallest positive normal double, [2^-1022].  Below it a double
    loses its precision bit by bit, and the product of a price with a
    factor next to 1 can round back to the price itself. *)
Definition min_normal : Q := 2 ^ (-1022).

(** A price that is a number of at least that size. *)
Definition normal_positive (x : num) : Prop :=
  exists q, x = Fin q /\ (min_normal <= q)%Q.

(** The invariant of section 8 of the specification, with the orderings
    asked of the signals whose entry price is such a price. *)
Definition signal_invariant_normal (s : TradingSignal) : Prop :=
  confidence_in_range s /\
  match signal_type s with
  | HOLD => hold_shape s
  | BUY => normal_positive (entry_price s) -> buy_ordering s
  | SELL => normal_positive (entry_price s) -> sell_ordering s
  end.

(** * Properties *)

(** ** Comparisons of finite numbers *)

Lemma Qlt_bool_iff (x y : Q) : Qlt_bool x y = true <-> (x < y)%Q.
Proof.
  unfold Qlt_bool. rewrite negb_true_iff. split.
  - intros E. apply Qnot_le_lt. intros Hle.
    apply Qle_bool_iff in Hle. congruence.
  - intros Hlt. destruct (Qle_bool y x) eqn:E; [|reflexivity].
    apply Qle_bool_iff in E. lra.
Qed.

Lemma Qlt_bool_false (x y : Q) : Qlt_bool x y = false <-> (y <= x)%Q.
Proof.
  unfold Qlt_bool. rewrite negb_false_iff. apply Qle_bool_iff.
Qed.

Lemma nlt_Fin (x y : Q) : (Fin x <? Fin y)%num = true <-> (x < y)%Q.
Proof. apply Qlt_bool_iff. Qed.

Lemma nle_Fin (x y : Q) : (Fin x <=? Fin y)%num = true <-> (x <= y)%Q.
Proof. apply Qle_bool_iff. Qed.

Lemma Qeq_bool_false (x y : Q) : ~ (x == y)%Q -> Qeq_bool x y = false.
Proof.
  intros Hne. destruct (Qeq_bool x y) eqn:E; [|reflexivity].
  now apply Qeq_bool_iff in E.
Qed.

Lemma nlt_nan_r (x : num) : (x <? NaN)%num = false.
Proof. now destruct x. Qed.

Lemma nlt_nan_l (x : num) : (NaN <? x)%num = false.
Proof. reflexivity. Qed.

(** ** Positional access and lengths *)

Lemma last_map {A B : Type} (f : A -> B) (l : list A) :
  last (List.map f l) = option_map f (last l).
Proof.
  induction l as [|x [|y l] IH]; [reflexivity..|].
  exact IH.
Qed.

Lemma last_map_seq {B : Type} (f : nat -> B) (n : nat) :
  last (List.map f (seq 0 (S n))) = Some (f n).
Proof.
  rewrite seq_S, List.map_app. apply last_snoc.
Qed.

Lemma last_zip_with {A B C : Type} (f : A -> B -> C) (a : list A) :
  forall b : list B, length a = length b ->
  last (zip_with f a b) =
    match last a, last b with
    | Some x, Some y => Some (f x y)
    | _, _ => None
    end.
Proof.
  induction a as [|x a IH]; intros [|y b] Hlen; try discriminate; [reflexivity|].
  destruct a as [|x' a], b as [|y' b]; try discriminate; [reflexivity|].
  apply (IH (y' :: b)). simpl in Hlen |- *. lia.
Qed.

Lemma iloc_last_nil {A : Type} :
  @iloc_last A [] =
    Raise (IndexError "single positional indexer is out-of-bounds").
Proof. reflexivity. Qed.

Lemma iloc_last_raise {A : Type} (s : list A) (e : exn) :
  iloc_last s = Raise e -> s = [].
Proof.
  unfold iloc_last. destruct (last s) eqn:E; [discriminate|].
  intros _. now apply last_None.
Qed.

Lemma iloc_last_ok {A : Type} (s : list A) :
  s <> [] -> exists x, iloc_last s = Ok x.
Proof.
  intros Hs. destruct (iloc_last s) eqn:E; [eauto|].
  now apply iloc_last_raise in E.
Qed.

Lemma iloc_last_some {A : Type} (s : list A) (x : A) :
  last s = Some x -> iloc_last s = Ok x.
Proof. unfold iloc_last. now intros ->. Qed.

Lemma length_col (f : bar -> num) (data : DataFrame) :
  length (col f data) = length data.
Proof. apply List.length_map. Qed.

Lemma length_diff (s : Series) : length (diff s) = length s.
Proof.
  destruct s as [|x t]; [reflexivity|].
  simpl. rewrite length_zip_with. simpl. lia.
Qed.

Lemma length_where (c : num -> bool) (o : num) (s : Series) :
  length (where_ c o s) = length s.
Proof. apply List.length_map. Qed.

Lemma length_rolling (agg : Series -> num) (w : nat) (s : Series) :
  length (rolling agg w s) = length s.
Proof. unfold rolling. now rewrite List.length_map, length_seq. Qed.

Lemma length_pct_change (n : nat) (s : Series) :
  length (pct_change n s) = length s.
Proof. unfold pct_change. now rewrite List.length_map, length_seq. Qed.

Lemma length_ewm_scan (alpha : Q) (s : Series) :
  forall st, length (ewm_scan alpha st s) = length s.
Proof. induction s as [|x s IH]; intros st; simpl; [|rewrite IH]; reflexivity. Qed.

Lemma length_ewm_mean (span : nat) (s : Series) :
  length (ewm_mean span s) = length s.
Proof.
  destruct s as [|x s]; [reflexivity|].
  simpl. now rewrite length_ewm_scan.
Qed.

Lemma length_rsi_series (period : nat) (s : Series) :
  length (rsi_series period s) = length s.
Proof.
  unfold rsi_series.
  rewrite List.length_map, length_zip_with, !length_rolling, List.length_map,
    !length_where, length_diff.
  lia.
Qed.

(** The last value of a rolling aggregate: the aggregate of the
    observations among the last [w] rows, when there are [w] of them. *)
Lemma last_rolling (agg : Series -> num) (w : nat) (s : Series) (n : nat) :
  length s = S n ->
  last (rolling agg w s) =
    Some (let obs := List.filter notna (drop (S n - w) s) in
          if (length obs <? w)%nat then NaN else agg obs).
Proof.
  intros Hlen. unfold rolling. rewrite Hlen, last_map_seq.
  now rewrite take_ge by lia.
Qed.

Lemma last_rolling_short (agg : Series -> num) (w : nat) (s : Series) :
  s <> [] -> (length s < w)%nat -> last (rolling agg w s) = Some NaN.
Proof.
  intros Hs Hw. destruct (length s) as [|n] eqn:Hlen.
  - now destruct s.
  - rewrite (last_rolling agg w s n Hlen). cbv zeta.
    pose proof (List.filter_length_le notna (drop (S n - w) s)) as Hf.
    rewrite length_drop in Hf.
    destruct (Nat.ltb_spec (length (List.filter notna (drop (S n - w) s))) w);
      [reflexivity|lia].
Qed.

Lemma last_pct_change_short (n : nat) (s : Series) :
  s <> [] -> (length s <= n)%nat -> last (pct_change n s) = Some NaN.
Proof.
  intros Hs Hn. unfold pct_change. destruct (length s) as [|m] eqn:Hlen.
  - now destruct s.
  - rewrite last_map_seq.
    destruct (Nat.ltb_spec m n); [reflexivity|lia].
Qed.

(** ** The shape of [analyze] *)

Create Rewrite HintDb len.
#[local] Hint Rewrite length_col length_rolling length_rsi_series
  length_pct_change length_ewm_mean @length_zip_with : len.

(** A positional access into a column as long as a non-empty frame does
    not raise. *)
Ltac iloc_ok Hne :=
  match goal with
  | |- context [iloc_last ?s] =>
      let E := fresh "E" in
      destruct (iloc_last s) eqn:E;
      [ cbn [bind]
      | exfalso; apply iloc_last_raise, (f_equal (@length _)) in E;
        autorewrite with len in E; simpl in E; lia ]
  end.

Lemma analyze_body_nil `{Runtime} (b : bot) symbol md now :
  analyze_body b symbol [] md now =
    Raise (IndexError "single positional indexer is out-of-bounds").
Proof. destruct b; reflexivity. Qed.

Lemma iloc_last_col (f : bar -> num) (data : DataFrame) (latest : bar) :
  last data = Some latest -> iloc_last (col f data) = Ok (f latest).
Proof.
  intros Hlast. apply iloc_last_some. unfold col.
  now rewrite last_map, Hlast.
Qed.

(** Case analysis on every condition of a decision. *)
Ltac split_conditions :=
  repeat match goal with
         | |- context [if ?c then _ else _] => destruct c
         end.

(** On a non-empty frame the body of [analyze] ends in [build_signal] at
    the latest close, with a decision of the bot. *)
Lemma analyze_body_cons `{Runtime} (b : bot) symbol data md now latest :
  last data = Some latest ->
  exists d ind,
    decision_of b d /\
    analyze_body b symbol data md now =
      Ok (build_signal (get_risk_parameters b) symbol (close latest) now d ind).
Proof.
  intros Hlast.
  assert (Hne : (0 < length data)%nat).
  { destruct data; [discriminate|simpl; lia]. }
  pose proof (iloc_last_some _ _ Hlast) as Hl.
  destruct b; unfold analyze_body.
  - unfold MomentumBot.analyze_body, MomentumBot.calculate_indicators,
      volume_ratio_of.
    rewrite Hl. repeat iloc_ok Hne.
    eexists _, _. split; [|reflexivity].
    unfold MomentumBot.decide_signal. split_conditions; simpl; eauto 7.
  - unfold GridTradingBot.analyze_body, GridTradingBot.calculate_indicators.
    rewrite Hl. repeat iloc_ok Hne.
    eexists _, _. split; [|reflexivity].
    unfold GridTradingBot.decide_signal. split_conditions; simpl; eauto 7.
  - unfold CryptoArbitrageBot.analyze_body,
      CryptoArbitrageBot.calculate_indicators.
    rewrite Hl. repeat iloc_ok Hne.
    eexists _, _. split; [|reflexivity].
    unfold CryptoArbitrageBot.decide_signal. split_conditions; simpl; eauto 7.
  - unfold FibonacciTrader.analyze_body, FibonacciTrader.calculate_indicators.
    rewrite Hl. repeat iloc_ok Hne.
    eexists _, _. split; [|reflexivity].
    unfold FibonacciTrader.decide_signal. split_conditions; simpl; eauto 7.
  - unfold MeanReversionBot.analyze_body,
      MeanReversionBot.calculate_indicators.
    rewrite Hl. repeat iloc_ok Hne.
    eexists _, _. split; [|reflexivity].
    unfold MeanReversionBot.decide_signal. split_conditions; simpl; eauto 7.
  - unfold NewsSentinelBot.analyze_body, NewsSentinelBot.calculate_indicators,
      volume_ratio_of.
    rewrite Hl. repeat iloc_ok Hne.
    eexists _, _. split; [|reflexivity].
    unfold NewsSentinelBot.decide_signal. split_conditions; simpl; eauto 7.
  - unfold PatternRecognitionBot.analyze_body,
      PatternRecognitionBot.calculate_indicators.
    rewrite !(iloc_last_col close data latest Hlast). cbn [bind].
    exists (HOLD, Fin 0, "Signal logic here"). eexists. split; reflexivity.
  - unfold ScalpingBot.analyze_body, ScalpingBot.calculate_indicators.
    rewrite Hl. repeat iloc_ok Hne.
    eexists _, _. split; [|reflexivity].
    unfold ScalpingBot.decide_signal. split_conditions; simpl; eauto 7.
Qed.

Lemma analyze_try `{Runtime} (b : bot) symbol data md now :
  analyze b symbol data md now =
    try_except (analyze_body b symbol data md now) (except_handler b symbol now).
Proof. destruct b; reflexivity. Qed.

Lemma except_handler_fault (b : bot) symbol now e :
  fault_signal (except_handler b symbol now e).
Proof. destruct b; repeat split. Qed.

(** ** C1: fail-safe to hold *)

(** C1, as the code has it.  [analyze] returns a signal on every input:
    the signal of the body when the body returns, the signal of the bot's
    [except] clause when it raises.  Whatever was raised, that signal is a
    hold with confidence 0, entry, stop and target 0, no indicators, and a
    reason that starts with "Error"; on the empty frame, where the first
    [.iloc[-1]] raises, the reason is "Error: single positional indexer is
    out-of-bounds" for the momentum, mean-reversion and Fibonacci bots,
    "Error: Error" for the pattern bot and "Error" for the others.  (A
    [nan] or a division by zero raises nothing: there the body's own signal
    is returned.) *)
Theorem analyze_fail_safe `{Runtime} (b : bot) (symbol : string)
    (data : DataFrame) (md : MarketData) (now : Z) :
  match analyze_body b symbol data md now with
  | Ok s => analyze b symbol data md now = s
  | Raise e =>
      exists detail,
        analyze b symbol data md now
          = hold_signal symbol (Fin 0) now ("Error" ++ detail) ∅
  end /\
  analyze b symbol [] md now
    = hold_signal symbol (Fin 0) now (empty_frame_reason b) ∅.
Proof.
  split.
  - rewrite analyze_try.
    destruct (analyze_body b symbol data md now) as [s|e]; [reflexivity|].
    cbn [try_except].
    destruct b;
      first [ now exists (": " ++ str_exn e) | now exists ": Error"
            | now exists "" ].
  - rewrite analyze_try, analyze_body_nil. now destruct b.
Qed.

(** C1, as stated, fails: a division by zero is not turned into a hold.
    On a bar that closes at 0 the arbitrage bot divides the bar's range by
    0, reads the infinite spread as an opportunity and buys at a price of
    0. *)
Lemma division_by_zero_buys :
  let s := @analyze plain_runtime crypto_arbitrage_bot "AAPL" zero_close_bar
             ∅ 0 in
  signal_type s = BUY /\ confidence s = Fin 0.85 /\ entry_price s = Fin 0 /\
  ~ fault_signal s.
Proof.
  cbv zeta. split; [vm_compute; reflexivity|].
  split; [vm_compute; reflexivity|]. split; [vm_compute; reflexivity|].
  intros [Ht _]. vm_compute in Ht. discriminate Ht.
Qed.

(** A division by zero is not a fault of the body.  On fifty equal bars
    the grid bot divides 0 by a range of 0: the body returns, and the signal
    is the ordinary hold with the bot's ordinary reason. *)
Lemma flat_frame_grid_holds :
  exists s,
    @analyze_body plain_runtime grid_trading_bot "AAPL" (flat_bars 50 100 1)
      ∅ 0 = Ok s /\
    signal_type s = HOLD /\ reason s = "Grid levels maintained".
Proof. eexists. split; [vm_compute; reflexivity|split; reflexivity]. Qed.

(** ** C2: the signal invariant *)

Lemma pct_risk_buy (stop_pct target_pct e : Q) :
  (0 < e)%Q -> (0 < stop_pct)%Q -> (0 < target_pct)%Q ->
  let '(sl, tp) := pct_risk_parameters stop_pct target_pct (Fin e) BUY in
  (sl <? Fin e)%num = true /\ (Fin e <? tp)%num = true.
Proof.
  intros He Hs Ht. simpl. rewrite !Qlt_bool_iff. split; nra.
Qed.

Lemma pct_risk_sell (stop_pct target_pct e : Q) :
  (0 < e)%Q -> (0 < stop_pct)%Q -> (0 < target_pct)%Q ->
  let '(sl, tp) := pct_risk_parameters stop_pct target_pct (Fin e) SELL in
  (tp <? Fin e)%num = true /\ (Fin e <? sl)%num = true.
Proof.
  intros He Hs Ht. simpl. rewrite !Qlt_bool_iff. split; nra.
Qed.

(** Every bot that trades puts the stop and the target on the right
    sides of a positive entry price. *)
Lemma risk_parameters_buy (b : bot) (e : Q) :
  b <> pattern_recognition_bot -> (0 < e)%Q ->
  let '(sl, tp) := get_risk_parameters b (Fin e) BUY in
  (sl <? Fin e)%num = true /\ (Fin e <? tp)%num = true.
Proof.
  intros Hb He.
  destruct b; try congruence;
    try (apply pct_risk_buy; [assumption|reflexivity..]).
  simpl. rewrite !Qlt_bool_iff. split; lra.
Qed.

Lemma risk_parameters_sell (b : bot) (e : Q) :
  b <> pattern_recognition_bot -> (0 < e)%Q ->
  let '(sl, tp) := get_risk_parameters b (Fin e) SELL in
  (tp <? Fin e)%num = true /\ (Fin e <? sl)%num = true.
Proof.
  intros Hb He.
  destruct b; try congruence;
    try (apply pct_risk_sell; [assumption|reflexivity..]).
  simpl. rewrite !Qlt_bool_iff. split; lra.
Qed.

Lemma trade_confidence_range (b : bot) (q : Q) :
  trade_confidence b = Some q ->
  b <> pattern_recognition_bot /\
  (Fin 0 <=? Fin q)%num = true /\ (Fin q <=? Fin 1)%num = true.
Proof.
  destruct b; simpl; intros [= <-]; repeat split; congruence.
Qed.

Lemma build_signal_invariant (b : bot) symbol c now d ind :
  decision_of b d ->
  signal_invariant_positive
    (build_signal (get_risk_parameters b) symbol c now d ind).
Proof.
  destruct d as [[t conf] r]. unfold build_signal.
  destruct t; simpl.
  - intros (_ & q & Hq & ->).
    destruct (trade_confidence_range b q Hq) as (Hb & H0 & H1).
    destruct (get_risk_parameters b c BUY) as [sl tp] eqn:E.
    split; [split; assumption|]. simpl.
    intros (e & -> & He).
    pose proof (risk_parameters_buy b e Hb He) as Hr.
    rewrite E in Hr. exact Hr.
  - intros (_ & q & Hq & ->).
    destruct (trade_confidence_range b q Hq) as (Hb & H0 & H1).
    destruct (get_risk_parameters b c SELL) as [sl tp] eqn:E.
    split; [split; assumption|]. simpl.
    intros (e & -> & He).
    pose proof (risk_parameters_sell b e Hb He) as Hr.
    rewrite E in Hr. exact Hr.
  - intros ->. repeat split.
Qed.

(** The two shapes of a signal returned by [analyze]. *)
Lemma analyze_cases `{Runtime} (b : bot) symbol data md now :
  (data = [] /\ fault_signal (analyze b symbol data md now)) \/
  (exists latest d ind,
      last data = Some latest /\ decision_of b d /\
      analyze b symbol data md now =
        build_signal (get_risk_parameters b) symbol (close latest) now d ind).
Proof.
  destruct (last data) as [latest|] eqn:Hlast.
  - right. exists latest.
    destruct (analyze_body_cons b symbol data md now latest Hlast)
      as (d & ind & Hd & Hbody).
    exists d, ind. rewrite analyze_try, Hbody. auto.
  - left. apply last_None in Hlast. subst data.
    split; [reflexivity|].
    rewrite analyze_try, analyze_body_nil. apply except_handler_fault.
Qed.

Lemma min_normal_positive : (0 < min_normal)%Q.
Proof. reflexivity. Qed.

Lemma normal_is_positive (x : num) : normal_positive x -> finite_positive x.
Proof.
  intros (q & -> & Hq). exists q. split; [reflexivity|].
  pose proof min_normal_positive. lra.
Qed.

(** C2, as the code has it.  Every signal returned by a bot's [analyze]
    has its confidence in [0, 1]; a hold has confidence 0 and stop and
    target 0; a buy whose entry price is a positive normal number (at least
    [2^-1022]) has stop < entry < target, and a sell whose entry price is
    such a number has target < entry < stop.  The stop and the target are
    products of the entry price with factors between 0.93 and 1.07, which
    are off the entry price by much more than a rounding of such a
    number. *)
Theorem analyze_signal_invariant `{Runtime} (b : bot) (symbol : string)
    (data : DataFrame) (md : MarketData) (now : Z) :
  signal_invariant_normal (analyze b symbol data md now).
Proof.
  destruct (analyze_cases b symbol data md now)
    as [[_ (Ht & Hc & Hs & Hp & _)]|(latest & d & ind & _ & Hd & ->)].
  - unfold signal_invariant_normal, confidence_in_range, hold_shape.
    rewrite Ht, Hc, Hs, Hp. repeat split.
  - destruct (build_signal_invariant b symbol (close latest) now d ind Hd)
      as [Hconf Hord].
    split; [exact Hconf|].
    destruct (signal_type _); [| |exact Hord];
      intros Hn; apply Hord, normal_is_positive, Hn.
Qed.

(** C2, as stated, fails where the latest close is zero: on good news and
    a volume spike the news bot buys at an entry price of 0, with stop and
    target both 0. *)
Lemma zero_price_breaks_ordering :
  ~ signal_invariant
      (@analyze plain_runtime news_sentinel_bot "AAPL" zero_close_frame
         good_news 0).
Proof.
  intros [_ Hord]. vm_compute in Hord. destruct Hord as [Hsl _].
  discriminate Hsl.
Qed.

(** The ordering of C2 on a concrete buy: the news bot on the same news
    and volume spike at a close of 100. *)
Lemma analyze_signal_invariant_witness :
  normal_positive
    (entry_price
       (@analyze plain_runtime news_sentinel_bot "AAPL"
          spike_frame good_news 0)) /\
  buy_ordering
    (@analyze plain_runtime news_sentinel_bot "AAPL"
       spike_frame good_news 0).
Proof.
  assert (Hn : normal_positive
    (entry_price
       (@analyze plain_runtime news_sentinel_bot "AAPL"
          spike_frame good_news 0))).
  { exists 100%Q. split; [vm_compute; reflexivity|].
    unfold Qle. vm_compute. discriminate. }
  split; [exact Hn|].
  pose proof (@analyze_signal_invariant plain_runtime news_sentinel_bot "AAPL"
                spike_frame good_news 0)
    as [_ Hord].
  exact (Hord Hn).
Defined.

(** ** C9 and C10: what a trade signal carries *)

Lemma build_signal_type risk symbol c now (d : decision) ind :
  signal_type (build_signal risk symbol c now d ind) = d.1.1.
Proof.
  destruct d as [[t conf] r]. unfold build_signal.
  destruct t; simpl; try reflexivity; now destruct (risk c _).
Qed.

Lemma build_signal_entry risk symbol c now (d : decision) ind :
  entry_price (build_signal risk symbol c now d ind) = c.
Proof.
  destruct d as [[t conf] r]. unfold build_signal.
  destruct t; simpl; try reflexivity; now destruct (risk c _).
Qed.

Lemma build_signal_confidence (b : bot) risk symbol c now (d : decision) ind :
  decision_of b d ->
  confidence (build_signal risk symbol c now d ind) = d.1.2.
Proof.
  destruct d as [[t conf] r]. unfold build_signal.
  destruct t; simpl; try (now destruct (risk c _)).
  now intros ->.
Qed.

Lemma trade_confidence_validates (b : bot) (q : Q) (s : TradingSignal) :
  trade_confidence b = Some q -> confidence s = Fin q ->
  validate_signal b s = true.
Proof.
  destruct b; simpl; intros [= <-] Hc; try discriminate;
    unfold MomentumBot.validate_signal, GridTradingBot.validate_signal,
      CryptoArbitrageBot.validate_signal, FibonacciTrader.validate_signal,
      MeanReversionBot.validate_signal, NewsSentinelBot.validate_signal,
      ScalpingBot.validate_signal;
    rewrite Hc; reflexivity.
Qed.

(** C9.  Whatever the bot and the input, a signal of [analyze] that is
    not a hold passes the same bot's [validate_signal]: the confidence
    literal of each trade branch is above the bot's own floor. *)
Theorem analyze_self_validates `{Runtime} (b : bot) (symbol : string)
    (data : DataFrame) (md : MarketData) (now : Z) :
  signal_type (analyze b symbol data md now) <> HOLD ->
  validate_signal b (analyze b symbol data md now) = true.
Proof.
  destruct (analyze_cases b symbol data md now)
    as [[_ (Ht & _)]|(latest & d & ind & _ & Hd & ->)].
  - congruence.
  - rewrite build_signal_type. intros Hnh.
    pose proof (build_signal_confidence b (get_risk_parameters b) symbol
                  (close latest) now d ind Hd) as Hc.
    destruct d as [[t conf] r]. simpl in *.
    destruct t; try congruence;
      destruct Hd as (_ & q & Hq & ->);
      exact (trade_confidence_validates b q _ Hq Hc).
Qed.

(** The news bot's buy at a close of 100 passes its own validation. *)
Lemma analyze_self_validates_witness :
  signal_type
    (@analyze plain_runtime news_sentinel_bot "AAPL" spike_frame good_news 0)
    <> HOLD /\
  validate_signal news_sentinel_bot
    (@analyze plain_runtime news_sentinel_bot "AAPL" spike_frame good_news 0)
    = true.
Proof.
  assert (Hnh : signal_type
    (@analyze plain_runtime news_sentinel_bot "AAPL" spike_frame good_news 0)
    <> HOLD).
  { vm_compute. discriminate. }
  split; [exact Hnh|].
  exact (@analyze_self_validates plain_runtime news_sentinel_bot "AAPL"
           spike_frame good_news 0 Hnh).
Defined.

(** C10.  The arbitrage bot never sells: whatever the input, its signal
    is a buy or a hold. *)
Theorem arbitrage_buy_or_hold `{Runtime} (symbol : string) (data : DataFrame)
    (md : MarketData) (now : Z) :
  signal_type (analyze crypto_arbitrage_bot symbol data md now) = BUY \/
  signal_type (analyze crypto_arbitrage_bot symbol data md now) = HOLD.
Proof.
  destruct (analyze_cases crypto_arbitrage_bot symbol data md now)
    as [[_ (Ht & _)]|(latest & d & ind & _ & Hd & ->)].
  - now right.
  - rewrite build_signal_type. destruct d as [[t conf] r]. simpl in *.
    destruct t; [now left| |now right].
    destruct Hd as ([Hin|[]] & _). discriminate Hin.
Qed.

(** ** C4: short series *)

Lemma nadd_nan_r (x : num) : (x + NaN)%num = NaN.
Proof. now destruct x. Qed.

Lemma nsub_nan_r (x : num) : (x - NaN)%num = NaN.
Proof. apply nadd_nan_r. Qed.

Lemma iloc_rolling_short agg (w : nat) (f : bar -> num) (data : DataFrame) :
  data <> [] -> (length data < w)%nat ->
  iloc_last (rolling agg w (col f data)) = Ok NaN.
Proof.
  intros Hne Hw. apply iloc_last_some, last_rolling_short.
  - intros E. apply (f_equal (@length _)) in E. rewrite length_col in E.
    now destruct data.
  - now rewrite length_col.
Qed.

Lemma iloc_pct_change_short (n : nat) (f : bar -> num) (data : DataFrame) :
  data <> [] -> (length data <= n)%nat ->
  iloc_last (pct_change n (col f data)) = Ok NaN.
Proof.
  intros Hne Hn. apply iloc_last_some, last_pct_change_short.
  - intros E. apply (f_equal (@length _)) in E. rewrite length_col in E.
    now destruct data.
  - now rewrite length_col.
Qed.

Lemma iloc_zip_rolling_short (g : num -> num -> num) agg1 agg2 (w : nat)
    (f : bar -> num) (data : DataFrame) :
  data <> [] -> (length data < w)%nat ->
  iloc_last (zip_with g (rolling agg1 w (col f data))
               (rolling agg2 w (col f data))) = Ok (g NaN NaN).
Proof.
  intros Hne Hw. apply iloc_last_some.
  rewrite last_zip_with by now rewrite !length_rolling.
  rewrite !last_rolling_short; try reflexivity; rewrite ?length_col; trivial;
    intros E; apply (f_equal (@length _)) in E; rewrite length_col in E;
    now destruct data.
Qed.

Lemma momentum_short `{Runtime} symbol data md now :
  (length data < 20)%nat ->
  signal_type (analyze momentum_bot symbol data md now) = HOLD.
Proof.
  intros Hlen. destruct (last data) as [latest|] eqn:Hlast.
  2:{ apply last_None in Hlast. now subst data. }
  assert (Hne : data <> []) by (intros ->; discriminate).
  assert (Hpos : (0 < length data)%nat) by (destruct data; simpl; [easy|lia]).
  unfold analyze, MomentumBot.analyze, MomentumBot.analyze_body,
    MomentumBot.calculate_indicators, volume_ratio_of,
    MomentumBot.breakout_period.
  rewrite !iloc_rolling_short by assumption.
  rewrite (iloc_last_some _ _ Hlast). cbn [bind].
  repeat iloc_ok Hpos.
  cbn [try_except]. rewrite build_signal_type.
  unfold MomentumBot.decide_signal, ngt. cbn [MomentumBot.resistance
    MomentumBot.support].
  rewrite (nlt_nan_r (close latest)). reflexivity.
Qed.

Lemma grid_short `{Runtime} symbol data md now :
  (length data < 50)%nat ->
  signal_type (analyze grid_trading_bot symbol data md now) = HOLD.
Proof.
  intros Hlen. destruct (last data) as [latest|] eqn:Hlast.
  2:{ apply last_None in Hlast. now subst data. }
  assert (Hne : data <> []) by (intros ->; discriminate).
  assert (Hpos : (0 < length data)%nat) by (destruct data; simpl; [easy|lia]).
  unfold analyze, GridTradingBot.analyze, GridTradingBot.analyze_body,
    GridTradingBot.calculate_indicators,
    GridTradingBot.range_detection_period.
  rewrite !iloc_rolling_short by assumption.
  rewrite (iloc_last_some _ _ Hlast). cbn [bind].
  repeat iloc_ok Hpos.
  cbn [try_except]. rewrite build_signal_type.
  unfold GridTradingBot.decide_signal, ngt.
  cbn [GridTradingBot.range_high GridTradingBot.range_low].
  rewrite (nsub_nan_r (close latest)). reflexivity.
Qed.

Lemma mean_reversion_short `{Runtime} symbol data md now :
  (length data < 20)%nat ->
  signal_type (analyze mean_reversion_bot symbol data md now) = HOLD.
Proof.
  intros Hlen. destruct (last data) as [latest|] eqn:Hlast.
  2:{ apply last_None in Hlast. now subst data. }
  assert (Hne : data <> []) by (intros ->; discriminate).
  assert (Hpos : (0 < length data)%nat) by (destruct data; simpl; [easy|lia]).
  unfold analyze, MeanReversionBot.analyze, MeanReversionBot.analyze_body,
    MeanReversionBot.calculate_indicators, MeanReversionBot.bb_period.
  rewrite !iloc_zip_rolling_short by assumption.
  rewrite !iloc_rolling_short by assumption.
  rewrite (iloc_last_some _ _ Hlast). cbn [bind].
  repeat iloc_ok Hpos.
  cbn [try_except]. rewrite build_signal_type.
  unfold MeanReversionBot.decide_signal, ngt.
  cbn [MeanReversionBot.bb_lower MeanReversionBot.bb_upper nmul nsub nadd nneg].
  rewrite (nlt_nan_r (close latest)). reflexivity.
Qed.

Lemma news_short `{Runtime} symbol data md now :
  (length data < 20)%nat ->
  signal_type (analyze news_sentinel_bot symbol data md now) = HOLD.
Proof.
  intros Hlen. destruct (last data) as [latest|] eqn:Hlast.
  2:{ apply last_None in Hlast. now subst data. }
  assert (Hne : data <> []) by (intros ->; discriminate).
  assert (Hpos : (0 < length data)%nat) by (destruct data; simpl; [easy|lia]).
  unfold analyze, NewsSentinelBot.analyze, NewsSentinelBot.analyze_body,
    NewsSentinelBot.calculate_indicators, volume_ratio_of.
  rewrite !iloc_rolling_short by assumption.
  rewrite (iloc_last_some _ _ Hlast). cbn [bind].
  repeat iloc_ok Hpos.
  cbn [try_except]. rewrite build_signal_type.
  unfold NewsSentinelBot.decide_signal, ngt.
  cbn [NewsSentinelBot.volume_ratio].
  change (Fin NewsSentinelBot.volume_spike_threshold <? Fin 1)%num with false.
  rewrite !andb_false_r. reflexivity.
Qed.

Lemma scalping_short symbol data md now :
  (length data < 6)%nat ->
  signal_type (ScalpingBot.analyze symbol data md now) = HOLD.
Proof.
  intros Hlen. destruct (last data) as [latest|] eqn:Hlast.
  2:{ apply last_None in Hlast. now subst data. }
  assert (Hne : data <> []) by (intros ->; discriminate).
  assert (Hpos : (0 < length data)%nat) by (destruct data; simpl; [easy|lia]).
  unfold ScalpingBot.analyze, ScalpingBot.analyze_body,
    ScalpingBot.calculate_indicators.
  rewrite iloc_pct_change_short by (trivial; lia).
  rewrite (iloc_last_some _ _ Hlast). cbn [bind].
  repeat iloc_ok Hpos.
  cbn [try_except]. rewrite build_signal_type.
  unfold ScalpingBot.decide_signal, ngt.
  cbn [ScalpingBot.momentum].
  change (Fin 0 <? NaN)%num with false. change (NaN <? Fin 0)%num with false.
  rewrite !andb_false_r. reflexivity.
Qed.

Lemma analyze_nil `{Runtime} (b : bot) symbol md now :
  signal_type (analyze b symbol [] md now) = HOLD.
Proof. destruct b; reflexivity. Qed.

Lemma pattern_holds `{Runtime} symbol data md now :
  signal_type (analyze pattern_recognition_bot symbol data md now) = HOLD.
Proof.
  destruct (analyze_cases pattern_recognition_bot symbol data md now)
    as [[_ (Ht & _)]|(latest & d & ind & _ & Hd & ->)]; [exact Ht|].
  rewrite build_signal_type. destruct d as [[t conf] r]. simpl in *.
  destruct t; try reflexivity; now destruct Hd as ([] & _).
Qed.

(** C4, as the code has it.  A series with fewer rows than the bot needs
    yields a hold: fewer than the minimum lookback for the momentum, grid,
    mean-reversion, news, arbitrage and pattern bots, fewer than 6 rows for
    the scalping bot, no row for the Fibonacci trader.  ([analyze] is total,
    so no bot faults on any series.) *)
Theorem short_series_holds `{Runtime} (b : bot) (symbol : string)
    (data : DataFrame) (md : MarketData) (now : Z) :
  (length data < rows_needed b)%nat ->
  signal_type (analyze b symbol data md now) = HOLD.
Proof.
  intros Hlen. destruct b; simpl in Hlen.
  - now apply momentum_short.
  - now apply grid_short.
  - destruct data; [apply analyze_nil|simpl in Hlen; lia].
  - destruct data; [apply analyze_nil|simpl in Hlen; lia].
  - now apply mean_reversion_short.
  - now apply news_short.
  - apply pattern_holds.
  - now apply scalping_short.
Qed.

(** Ten flat bars are fewer than the grid bot's 50-row range. *)
Lemma short_series_holds_witness :
  (length (flat_bars 10 100 1) < rows_needed grid_trading_bot)%nat /\
  signal_type
    (@analyze plain_runtime grid_trading_bot "AAPL" (flat_bars 10 100 1) ∅ 0)
    = HOLD.
Proof.
  assert (Hlen : (length (flat_bars 10 100 1)
                  < rows_needed grid_trading_bot)%nat).
  { vm_compute. lia. }
  split; [exact Hlen|].
  exact (@short_series_holds plain_runtime grid_trading_bot "AAPL"
           (flat_bars 10 100 1) ∅ 0 Hlen).
Defined.

(** C4, as stated, fails for the Fibonacci trader: on a single bar, far
    below its lookback of 50, it sells. *)
Lemma fibonacci_sells_on_one_bar :
  (length one_bar_frame < min_lookback fibonacci_trader)%nat /\
  signal_type
    (@analyze plain_runtime fibonacci_trader "AAPL" one_bar_frame ∅ 0) = SELL.
Proof. split; [vm_compute; lia|vm_compute; reflexivity]. Qed.

(** The scalping bot buys on six rising bars, fewer than the 15 of its
    slow average. *)
Lemma scalping_buys_on_six_bars :
  (length rising_six < min_lookback scalping_bot)%nat /\
  signal_type
    (@analyze plain_runtime scalping_bot "AAPL" rising_six ∅ 0) = BUY.
Proof. split; [vm_compute; lia|vm_compute; reflexivity]. Qed.

(** ** C8: position sizing *)

Lemma py_min_mono (a1 b1 a2 b2 : Q) :
  (a1 <= a2)%Q -> (b1 <= b2)%Q ->
  (py_min (Fin a1) (Fin b1) <=? py_min (Fin a2) (Fin b2))%num = true.
Proof.
  intros Ha Hb. unfold py_min, nlt.
  destruct (Qlt_bool b1 a1) eqn:E1, (Qlt_bool b2 a2) eqn:E2;
    rewrite ?Qlt_bool_iff, ?Qlt_bool_false in *; apply nle_Fin; lra.
Qed.

Lemma risk_position_size_mono (cap : Q) (s : TradingSignal)
    (e sl r pv1 pv2 : Q) :
  entry_price s = Fin e -> stop_loss s = Fin sl ->
  (0 <= cap)%Q -> (0 <= e)%Q -> (0 <= r)%Q -> (pv1 <= pv2)%Q ->
  (risk_position_size cap s (Fin pv1) (Fin r)
     <=? risk_position_size cap s (Fin pv2) (Fin r))%num = true.
Proof.
  intros He Hsl Hcap He0 Hr Hpv. unfold risk_position_size.
  rewrite He, Hsl. cbn [nsub nneg nadd nabs neqb].
  destruct (Qeq_bool (Qabs (e + - sl)) 0) eqn:Ez; [reflexivity|].
  assert (Hpr : (0 < Qabs (e + - sl))%Q).
  { pose proof (Qabs_nonneg (e + - sl)) as Hn.
    destruct (Qeq_dec (Qabs (e + - sl)) 0) as [Hz|Hz]; [|lra].
    apply Qeq_bool_iff in Hz. congruence. }
  cbn [nmul ndiv]. rewrite Ez. cbn [nmul].
  apply py_min_mono; [|nra].
  set (pr := Qabs (e + - sl)) in *.
  assert (Hinv : (0 < / pr)%Q) by now apply Qinv_lt_0_compat.
  unfold Qdiv.
  assert (Hk : (0 <= r * / pr * e)%Q).
  { apply Qmult_le_0_compat; [apply Qmult_le_0_compat|]; lra. }
  assert (E1 : (pv1 * r * / pr * e == pv1 * (r * / pr * e))%Q) by ring.
  assert (E2 : (pv2 * r * / pr * e == pv2 * (r * / pr * e))%Q) by ring.
  rewrite E1, E2. now apply Qmult_le_compat_r.
Qed.

Lemma risk_position_size_zero (cap : Q) (s : TradingSignal) (e sl : Q)
    (pv r : num) :
  entry_price s = Fin e -> stop_loss s = Fin sl -> (e == sl)%Q ->
  risk_position_size cap s pv r = Fin 0.
Proof.
  intros He Hsl Heq. unfold risk_position_size.
  rewrite He, Hsl. cbn [nsub nneg nadd nabs neqb].
  assert (Hz : Qeq_bool (Qabs (e + - sl)) 0 = true).
  { apply Qeq_bool_iff.
    assert (E : (e + - sl == 0)%Q) by lra.
    now rewrite E. }
  now rewrite Hz.
Qed.

Lemma fixed_size_value (share pv m : Q) :
  (py_min (Fin (pv * share)) (Fin m) =? py_min (Fin m) (Fin (share * pv)))%num
    = true /\
  (py_min (Fin m) (Fin (pv * share)) =? py_min (Fin m) (Fin (share * pv)))%num
    = true.
Proof.
  unfold py_min, nlt.
  split;
    destruct (Qlt_bool m (pv * share)) eqn:E1,
      (Qlt_bool (pv * share) m) eqn:E2,
      (Qlt_bool (share * pv) m) eqn:E3;
    rewrite ?Qlt_bool_iff, ?Qlt_bool_false in *;
    cbn [neqb]; apply Qeq_bool_iff; lra.
Qed.

(** C8, as the code has it.  For a signal with a positive entry price and
    a stop that is not negative, and a risk fraction that is not negative,
    the position size of every bot that defines one does not decrease when
    the portfolio value grows.  The bots that size by risk (momentum, mean
    reversion, news) return exactly 0 when the stop equals the entry price.
    The grid, scalping and arbitrage bots read neither the signal nor the
    risk fraction: whatever these are, their size is the smaller of their
    share of the portfolio and their ceiling.  (With the entry price above 0
    and the stop not below 0 no step of the computation is undefined: the
    price risk is a number, and the number of shares, if the division
    overflows, is multiplied by a price that is not 0.) *)
Theorem position_size_monotone (b : bot) (s : TradingSignal)
    (e sl r pv1 pv2 : Q) (x1 x2 : num) :
  entry_price s = Fin e -> stop_loss s = Fin sl ->
  (0 < e)%Q -> (0 <= sl)%Q -> (0 <= r)%Q -> (pv1 <= pv2)%Q ->
  calculate_position_size b s (Fin pv1) (Fin r) = Some x1 ->
  calculate_position_size b s (Fin pv2) (Fin r) = Some x2 ->
  (x1 <=? x2)%num = true /\
  (sizes_by_risk b = true -> (e == sl)%Q -> x1 = Fin 0) /\
  (sizes_by_risk b = false ->
   exists share ceiling,
     cap_fraction b = Some share /\ size_ceiling b = Some ceiling /\
     forall (s' : TradingSignal) (r' : num),
     exists x,
       calculate_position_size b s' (Fin pv1) r' = Some x /\
       (x =? py_min (Fin ceiling) (Fin (share * pv1)))%num = true).
Proof.
  intros He Hsl He0 Hsl0 Hr Hpv H1 H2.
  assert (He0' : (0 <= e)%Q) by lra.
  destruct b; simpl in H1, H2; try discriminate;
    injection H1 as <-; injection H2 as <-.
  - split; [now apply (risk_position_size_mono _ s e sl)|].
    split; [|discriminate].
    intros _ Heq. now apply (risk_position_size_zero _ s e sl).
  - split; [|split; [discriminate|]].
    + unfold GridTradingBot.calculate_position_size. cbn [nmul].
      apply py_min_mono; lra.
    + intros _. eexists _, _. split; [reflexivity|]. split; [reflexivity|].
      intros s' r'. eexists. split; [reflexivity|].
      unfold GridTradingBot.calculate_position_size. cbn [nmul].
      apply fixed_size_value.
  - split; [|split; [discriminate|]].
    + unfold CryptoArbitrageBot.calculate_position_size. cbn [nmul].
      apply py_min_mono; lra.
    + intros _. eexists _, _. split; [reflexivity|]. split; [reflexivity|].
      intros s' r'. eexists. split; [reflexivity|].
      unfold CryptoArbitrageBot.calculate_position_size. cbn [nmul].
      apply fixed_size_value.
  - split; [now apply (risk_position_size_mono _ s e sl)|].
    split; [|discriminate].
    intros _ Heq. now apply (risk_position_size_zero _ s e sl).
  - split; [now apply (risk_position_size_mono _ s e sl)|].
    split; [|discriminate].
    intros _ Heq. now apply (risk_position_size_zero _ s e sl).
  - split; [|split; [discriminate|]].
    + unfold ScalpingBot.calculate_position_size. cbn [nmul].
      apply py_min_mono; lra.
    + intros _. eexists _, _. split; [reflexivity|]. split; [reflexivity|].
      intros s' r'. eexists. split; [reflexivity|].
      unfold ScalpingBot.calculate_position_size. cbn [nmul].
      apply fixed_size_value.
Qed.

(** The momentum bot sizes a buy at 100 with the stop at 98 for
    portfolios of 10,000 and 20,000 at a risk fraction of 2%. *)
Lemma position_size_monotone_witness :
  (MomentumBot.calculate_position_size two_point_risk_signal (Fin 10000)
     (Fin 0.02)
   <=? MomentumBot.calculate_position_size two_point_risk_signal (Fin 20000)
         (Fin 0.02))%num = true.
Proof.
  refine (proj1 (position_size_monotone momentum_bot two_point_risk_signal
                   100 98 0.02 10000 20000 _ _ _ _ _ _ _ _ _ _));
    try reflexivity; try (vm_compute; discriminate).
Defined.

(** C8, as stated, fails for the bots with a fixed size: with the stop on
    the entry price the grid bot still returns 1000 on a portfolio of
    10,000. *)
Lemma grid_size_ignores_risk :
  entry_price no_risk_signal = stop_loss no_risk_signal /\
  calculate_position_size grid_trading_bot no_risk_signal (Fin 10000)
    (Fin 0.02) = Some (Fin 1000) /\
  (Fin 1000 =? Fin 0)%num = false.
Proof. repeat split. Qed.

(** ** C6: no look-ahead *)

(** C6.  The signal of step [i] is a function of the rows before [i]:
    on two frames with the same first [i] rows the step evaluates to the
    same signal, and extends any equity curve and leaves the generator in
    the same way. *)
Theorem step_signal_prefix `{Runtime} (b : bot) (symbol : string)
    (d1 d2 : DataFrame) (clock : nat -> Z) (i : nat) (st : BacktestState) :
  take i d1 = take i d2 ->
  step_signal b symbol d1 clock i = step_signal b symbol d2 clock i /\
  equity_curve (backtest_step b symbol d1 clock st i) =
    equity_curve (backtest_step b symbol d2 clock st i) /\
  generator (backtest_step b symbol d1 clock st i) =
    generator (backtest_step b symbol d2 clock st i).
Proof.
  intros Hpre.
  assert (Hs : step_signal b symbol d1 clock i = step_signal b symbol d2 clock i).
  { unfold step_signal. now rewrite Hpre. }
  split; [exact Hs|].
  unfold backtest_step. rewrite Hs.
  destruct (negb _); [|split; reflexivity].
  destruct (uniform _ _ _). split; reflexivity.
Qed.

(** Two frames that share their first twenty bars and differ in the
    twenty-first. *)
Lemma step_signal_prefix_witness :
  @step_signal plain_runtime crypto_arbitrage_bot "AAPL" wide_bars
    clock_zero 20 =
  @step_signal plain_runtime crypto_arbitrage_bot "AAPL"
    (take 20 wide_bars ++ one_bar_frame)%list clock_zero 20.
Proof.
  refine (proj1 (@step_signal_prefix plain_runtime crypto_arbitrage_bot "AAPL"
                   wide_bars (take 20 wide_bars ++ one_bar_frame)%list
                   clock_zero 20
                   {| trades := []; equity_curve := [Fin 10000];
                      generator := draws_zero |} _)).
  reflexivity.
Defined.

(** ** C3: what a backtest run depends on *)

(** The clock only stamps the signal: the direction and the entry price
    do not depend on it. *)
Lemma analyze_clock_free `{Runtime} (b : bot) symbol data md now1 now2 :
  signal_type (analyze b symbol data md now1) =
    signal_type (analyze b symbol data md now2) /\
  entry_price (analyze b symbol data md now1) =
    entry_price (analyze b symbol data md now2).
Proof.
  destruct b; unfold analyze.
  - unfold MomentumBot.analyze, MomentumBot.analyze_body.
    destruct (MomentumBot.calculate_indicators data); [|split; reflexivity].
    destruct (iloc_last data); [|split; reflexivity].
    cbn [bind try_except]. now rewrite !build_signal_type, !build_signal_entry.
  - unfold GridTradingBot.analyze, GridTradingBot.analyze_body.
    destruct (GridTradingBot.calculate_indicators data); [|split; reflexivity].
    destruct (iloc_last data); [|split; reflexivity].
    cbn [bind try_except]. now rewrite !build_signal_type, !build_signal_entry.
  - unfold CryptoArbitrageBot.analyze, CryptoArbitrageBot.analyze_body.
    destruct (CryptoArbitrageBot.calculate_indicators data);
      [|split; reflexivity].
    destruct (iloc_last data); [|split; reflexivity].
    cbn [bind try_except]. now rewrite !build_signal_type, !build_signal_entry.
  - unfold FibonacciTrader.analyze, FibonacciTrader.analyze_body.
    destruct (FibonacciTrader.calculate_indicators data); [|split; reflexivity].
    destruct (iloc_last data); [|split; reflexivity].
    cbn [bind try_except]. now rewrite !build_signal_type, !build_signal_entry.
  - unfold MeanReversionBot.analyze, MeanReversionBot.analyze_body.
    destruct (MeanReversionBot.calculate_indicators data);
      [|split; reflexivity].
    destruct (iloc_last data); [|split; reflexivity].
    cbn [bind try_except]. now rewrite !build_signal_type, !build_signal_entry.
  - unfold NewsSentinelBot.analyze, NewsSentinelBot.analyze_body.
    destruct (NewsSentinelBot.calculate_indicators data); [|split; reflexivity].
    destruct (iloc_last data); [|split; reflexivity].
    cbn [bind try_except]. now rewrite !build_signal_type, !build_signal_entry.
  - unfold PatternRecognitionBot.analyze, PatternRecognitionBot.analyze_body.
    destruct (PatternRecognitionBot.calculate_indicators data);
      [|split; reflexivity].
    destruct (iloc_last (col close data)); split; reflexivity.
  - unfold ScalpingBot.analyze, ScalpingBot.analyze_body.
    destruct (ScalpingBot.calculate_indicators data); [|split; reflexivity].
    destruct (iloc_last data); [|split; reflexivity].
    cbn [bind try_except]. now rewrite !build_signal_type, !build_signal_entry.
Qed.

Lemma backtest_step_same_run `{Runtime} (b : bot) symbol data clock1 clock2
    (s1 s2 : BacktestState) (i : nat) :
  same_run s1 s2 ->
  same_run (backtest_step b symbol data clock1 s1 i)
    (backtest_step b symbol data clock2 s2 i).
Proof.
  intros (Ht & He & Hg). unfold backtest_step, step_signal.
  destruct (analyze_clock_free b symbol (take i data) ∅ (clock1 i) (clock2 i))
    as [-> ->].
  destruct (negb _); [|now repeat split].
  unfold uniform, random. cbn [trades equity_curve generator].
  rewrite Ht, He, (Hg 0%nat). repeat split. intros k. apply Hg.
Qed.

Lemma fold_backtest_same_run `{Runtime} (b : bot) symbol data clock1 clock2
    (steps : list nat) :
  forall s1 s2, same_run s1 s2 ->
  same_run (fold_left (backtest_step b symbol data clock1) steps s1)
    (fold_left (backtest_step b symbol data clock2) steps s2).
Proof.
  induction steps as [|i steps IH]; intros s1 s2 Hs; [exact Hs|].
  simpl. apply IH. now apply backtest_step_same_run.
Qed.

(** C3, as the code has it.  The backtest loop takes no seed: its
    randomness is the state of the process-wide generator.  Two runs over
    the same series with the same strategy whose generators return the same
    draws yield the same trade log and the same equity curve, whatever the
    clock reads. *)
Theorem backtest_same_draws `{Runtime} (b : bot) (symbol : string)
    (data : DataFrame) (clock1 clock2 : nat -> Z) (g1 g2 : rng) :
  (forall k, g1 k = g2 k) ->
  trades (backtest_loop b symbol data clock1 g1) =
    trades (backtest_loop b symbol data clock2 g2) /\
  equity_curve (backtest_loop b symbol data clock1 g1) =
    equity_curve (backtest_loop b symbol data clock2 g2).
Proof.
  intros Hg.
  destruct (fold_backtest_same_run b symbol data clock1 clock2
              (seq 20 (length data - 20))
              {| trades := []; equity_curve := [Fin 10000]; generator := g1 |}
              {| trades := []; equity_curve := [Fin 10000]; generator := g2 |})
    as (Ht & He & _); [now repeat split|].
  split; assumption.
Qed.

(** The generator that draws one half each time, and its even draws. *)
Lemma backtest_same_draws_witness :
  equity_curve
    (@backtest_loop plain_runtime crypto_arbitrage_bot "AAPL" wide_bars
       clock_zero draws_half) =
  equity_curve
    (@backtest_loop plain_runtime crypto_arbitrage_bot "AAPL" wide_bars
       (fun i => Z.of_nat i) (fun k => draws_half (2 * k))).
Proof.
  refine (proj2 (@backtest_same_draws plain_runtime crypto_arbitrage_bot "AAPL"
                   wide_bars clock_zero (fun i => Z.of_nat i) draws_half
                   (fun k => draws_half (2 * k)) _)).
  intros k. reflexivity.
Defined.

(** C3, as stated, fails: the same series and strategy, replayed from two
    states of the generator, end on different equity. *)
Lemma backtest_depends_on_generator :
  (List.last
     (equity_curve
        (@backtest_loop plain_runtime crypto_arbitrage_bot "AAPL" wide_bars
           clock_zero draws_zero)) NaN
   =? List.last
        (equity_curve
           (@backtest_loop plain_runtime crypto_arbitrage_bot "AAPL" wide_bars
              clock_zero draws_half)) NaN)%num = false.
Proof. vm_compute. reflexivity. Qed.

(** ** C7: the equity curve *)

Lemma last_nth_pred {A : Type} (l : list A) (d : A) :
  l <> [] -> List.last l d = nth (length l - 1) l d.
Proof.
  intros Hl. destruct (exists_last Hl) as (l' & x & ->).
  rewrite List.last_last, length_app. simpl.
  replace (length l' + 1 - 1)%nat with (length l') by lia.
  now rewrite nth_middle.
Qed.

Lemma equity_compounds_snoc (log : list Trade) (curve : list num) (t : Trade) :
  equity_compounds log curve ->
  equity_compounds (log ++ [t])
    (curve ++ [(List.last curve NaN * (Fin 1 + pnl_percent t / Fin 100))%num]).
Proof.
  intros (H0 & Hlen & Hstep).
  assert (Hne : curve <> []) by (intros ->; discriminate).
  repeat split.
  - rewrite app_nth1 by lia. exact H0.
  - rewrite !length_app, Hlen. simpl. lia.
  - intros k t' Hk.
    destruct (Nat.lt_ge_cases k (length log)) as [Hlt|Hge].
    + rewrite nth_error_app1 in Hk by exact Hlt.
      rewrite !app_nth1 by lia. now apply Hstep.
    + assert (Hklen : k = length log).
      { assert (Hin : (k < length (log ++ [t]))%nat).
        { apply nth_error_Some. congruence. }
        rewrite length_app in Hin. simpl in Hin. lia. }
      subst k. rewrite nth_error_app2, Nat.sub_diag in Hk by lia.
      injection Hk as <-.
      rewrite <- Hlen, nth_middle.
      rewrite app_nth1 by lia.
      rewrite (last_nth_pred curve NaN Hne), Hlen. simpl.
      now rewrite Nat.sub_0_r.
Qed.

Lemma unit_draws_tail (g : rng) :
  unit_draws g -> unit_draws (fun k => g (S k)).
Proof. intros Hg k. apply Hg. Qed.

Lemma uniform_lower (a b : Q) (g : rng) (u : Q) (g' : rng) :
  (a <= b)%Q -> unit_draws g -> uniform a b g = (u, g') ->
  (a <= u)%Q /\ unit_draws g'.
Proof.
  intros Hab Hg. unfold uniform, random. intros [= <- <-].
  split; [|now apply unit_draws_tail].
  destruct (Hg 0%nat) as [H0 _]. nra.
Qed.

Lemma ndiv_Fin (a e : Q) :
  ~ (e == 0)%Q -> (Fin a / Fin e)%num = Fin (a / e).
Proof. intros He. unfold ndiv. now rewrite Qeq_bool_false. Qed.

(** One trade at a positive entry price and a positive exit factor keeps
    a positive equity positive. *)
Lemma compound_positive (x e u : Q) :
  (0 < x)%Q -> (0 < e)%Q -> (0 < u)%Q ->
  finite_positive
    (Fin x * (Fin 1 + (Fin e * Fin u - Fin e) / Fin e * Fin 100 / Fin 100))%num.
Proof.
  intros Hx He Hu. cbn [nmul nsub nadd nneg].
  rewrite ndiv_Fin by lra. cbn [nmul].
  rewrite ndiv_Fin by lra. cbn [nadd nmul].
  eexists. split; [reflexivity|].
  assert (E : (1 + (e * u + - e) / e * 100 / 100 == u)%Q) by (field; lra).
  rewrite E. nra.
Qed.

Lemma last_default_in {A : Type} (l : list A) (d : A) :
  l <> [] -> In (List.last l d) l.
Proof.
  intros Hl. destruct (exists_last Hl) as (l' & x & ->).
  rewrite List.last_last. apply in_or_app. right. now left.
Qed.

Lemma hold_value (t : SignalType) :
  negb (String.eqb (value t) "hold") = true -> t <> HOLD.
Proof. now destruct t. Qed.

(** A signal that is not a hold enters at the close of the last row of
    its window. *)
Lemma trade_entry_positive `{Runtime} (b : bot) symbol data md now :
  positive_closes data ->
  signal_type (analyze b symbol data md now) <> HOLD ->
  finite_positive (entry_price (analyze b symbol data md now)).
Proof.
  intros Hpos Hnh.
  destruct (analyze_cases b symbol data md now)
    as [[_ (Ht & _)]|(latest & d & ind & Hlast & _ & E)]; [congruence|].
  rewrite E, build_signal_entry.
  apply last_Some_elem_of in Hlast.
  unfold positive_closes in Hpos. rewrite Forall_forall in Hpos.
  now apply Hpos.
Qed.

Lemma positive_closes_take (i : nat) (data : DataFrame) :
  positive_closes data -> positive_closes (take i data).
Proof. apply Forall_take. Qed.

Lemma backtest_step_invariant `{Runtime} (b : bot) symbol data clock
    (st : BacktestState) (i : nat) :
  positive_closes data ->
  equity_compounds (trades st) (equity_curve st) ->
  Forall finite_positive (equity_curve st) ->
  unit_draws (generator st) ->
  let st' := backtest_step b symbol data clock st i in
  equity_compounds (trades st') (equity_curve st') /\
  Forall finite_positive (equity_curve st') /\
  unit_draws (generator st').
Proof.
  intros Hdata Hc Hp Hg. unfold backtest_step.
  destruct (negb _) eqn:Hnh; [|cbn zeta; auto].
  apply hold_value in Hnh.
  destruct (uniform 0.98 1.05 (generator st)) as [u g'] eqn:Eu.
  assert (Hab : (0.98 <= 1.05)%Q) by lra.
  destruct (uniform_lower _ _ _ _ _ Hab Hg Eu) as [Hu Hg'].
  cbn zeta. cbn [trades equity_curve generator].
  split; [|split; [|exact Hg']].
  - exact (equity_compounds_snoc _ _ _ Hc).
  - apply Forall_app. split; [exact Hp|]. apply Forall_singleton.
    assert (Hne : equity_curve st <> []).
    { destruct Hc as (_ & Hlen & _). intros E. now rewrite E in Hlen. }
    pose proof (last_default_in _ NaN Hne) as Hin.
    apply list_elem_of_In in Hin.
    rewrite Forall_forall in Hp. destruct (Hp _ Hin) as (x & -> & Hx).
    destruct (trade_entry_positive b symbol (take i data) ∅ (clock i)
                (positive_closes_take i data Hdata) Hnh) as (e & He & He0).
    unfold step_signal. rewrite He.
    apply compound_positive; lra.
Qed.

Lemma backtest_fold_invariant `{Runtime} (b : bot) symbol data clock
    (steps : list nat) :
  positive_closes data ->
  forall st,
  equity_compounds (trades st) (equity_curve st) ->
  Forall finite_positive (equity_curve st) ->
  unit_draws (generator st) ->
  let st' := fold_left (backtest_step b symbol data clock) steps st in
  equity_compounds (trades st') (equity_curve st') /\
  Forall finite_positive (equity_curve st').
Proof.
  intros Hdata. induction steps as [|i steps IH]; intros st Hc Hp Hg.
  - now split.
  - simpl.
    destruct (backtest_step_invariant b symbol data clock st i Hdata Hc Hp Hg)
      as (Hc' & Hp' & Hg').
    now apply IH.
Qed.

(** The loop over a frame of positive closes, from a generator that keeps
    its promise. *)
Lemma backtest_loop_equity `{Runtime} (b : bot) symbol data clock (g : rng) :
  positive_closes data -> unit_draws g ->
  let st := backtest_loop b symbol data clock g in
  equity_compounds (trades st) (equity_curve st) /\
  Forall finite_positive (equity_curve st).
Proof.
  intros Hdata Hg. unfold backtest_loop.
  apply backtest_fold_invariant; cbn [trades equity_curve generator]; trivial.
  - repeat split. intros [|k] t; discriminate.
  - apply Forall_singleton. exists 10000%Q. now split.
Qed.

(** *** The generated frame *)

Lemma comprehension_inv {A B : Type} (f : A -> rng -> B * rng)
    (P : A -> Prop) (Q : B -> Prop) :
  (forall x g y g', P x -> unit_draws g -> f x g = (y, g') ->
                    Q y /\ unit_draws g') ->
  forall l g ys g', Forall P l -> unit_draws g ->
    comprehension f l g = (ys, g') ->
    Forall Q ys /\ length ys = length l /\ unit_draws g'.
Proof.
  intros Hf. induction l as [|x l IH]; intros g ys g' Hl Hg; simpl.
  - intros [= <- <-]. split; [constructor|split; [reflexivity|assumption]].
  - destruct (f x g) as [y g1] eqn:E1.
    destruct (comprehension f l g1) as [ys' g2] eqn:E2.
    intros [= <- <-].
    apply Forall_cons in Hl. destruct Hl as [Hx Hl].
    destruct (Hf x g y g1 Hx Hg E1) as [Hy Hg1].
    destruct (IH g1 ys' g2 Hl Hg1 E2) as (Hys & Hlen & Hg2).
    split; [now constructor|split; [simpl; now rewrite Hlen|assumption]].
Qed.

Lemma scale_positive (lo hi : Q) (p : Q) (g : rng) (y : Q) (g' : rng) :
  (0 < lo)%Q -> (lo <= hi)%Q -> (0 < p)%Q -> unit_draws g ->
  (let '(u, g) := uniform lo hi g in ((p * u)%Q, g)) = (y, g') ->
  (0 < y)%Q /\ unit_draws g'.
Proof.
  intros Hlo Hhi Hp Hg.
  destruct (uniform lo hi g) as [u g1] eqn:E. intros [= <- <-].
  destruct (uniform_lower lo hi g u g1 Hhi Hg E) as [Hu Hg1].
  split; [nra|assumption].
Qed.

Lemma walk_positive (n : nat) :
  forall (p : Q) (g : rng) (l : list Q) (g' : rng),
  (0 < p)%Q -> unit_draws g -> walk n p g = (l, g') ->
  Forall (fun x => (0 < x)%Q) l /\ length l = n /\ unit_draws g'.
Proof.
  induction n as [|n IH]; intros p g l g' Hp Hg; cbn [walk].
  - intros [= <- <-]. split; [constructor|split; [reflexivity|assumption]].
  - destruct (uniform (-0.05) 0.05 g) as [change g1] eqn:E1.
    destruct (walk n (p * (1 + change)) g1) as [rest g2] eqn:E2.
    intros [= <- <-].
    assert (Hab : (-0.05 <= 0.05)%Q) by lra.
    destruct (uniform_lower _ _ _ _ _ Hab Hg E1) as [Hc Hg1].
    assert (Hnew : (0 < p * (1 + change))%Q) by nra.
    destruct (IH _ g1 rest g2 Hnew Hg1 E2) as (Hrest & Hlen & Hg2).
    split; [now constructor|split; [simpl; now rewrite Hlen|assumption]].
Qed.

Lemma frame_positive_closes (closes : list Q) :
  Forall (fun x => (0 < x)%Q) closes ->
  forall dates opens highs lows volumes,
  positive_closes (frame dates opens highs lows closes volumes).
Proof.
  induction 1 as [|c closes Hc _ IH]; intros dates opens highs lows volumes.
  - destruct dates, opens, highs, lows, volumes; constructor.
  - destruct dates, opens, highs, lows, volumes; try constructor.
    + exists c. now split.
    + apply IH.
Qed.

(** For a positive number of days the generated frame exists, every
    close in it is a positive number, and the generator is left keeping its
    promise. *)
Lemma generate_sample_data_positive symbol (days : nat) today (g : rng) :
  (0 < days)%nat -> unit_draws g ->
  exists data g',
    generate_sample_data symbol days today g = (Ok data, g') /\
    positive_closes data /\ unit_draws g'.
Proof.
  intros Hdays Hg. unfold generate_sample_data.
  destruct (uniform 50 500 g) as [base g1] eqn:E1.
  assert (Hab : (50 <= 500)%Q) by lra.
  destruct (uniform_lower _ _ _ _ _ Hab Hg E1) as [Hbase Hg1].
  destruct (walk (days - 1) base g1) as [more g2] eqn:E2.
  assert (Hbase0 : (0 < base)%Q) by lra.
  destruct (walk_positive _ _ _ _ _ Hbase0 Hg1 E2) as (Hmore & Hlen & Hg2).
  assert (Hprices : Forall (fun x => (0 < x)%Q) (base :: more))
    by now constructor.
  destruct (comprehension _ (base :: more) g2) as [highs g3] eqn:E3.
  destruct (comprehension_inv _ _ (fun x => (0 < x)%Q)
              (fun p g y g' Hp Hg => scale_positive 1.0 1.03 p g y g'
                 ltac:(lra) ltac:(lra) Hp Hg)
              _ _ _ _ Hprices Hg2 E3) as (_ & _ & Hg3).
  destruct (comprehension _ (base :: more) g3) as [lows g4] eqn:E4.
  destruct (comprehension_inv _ _ (fun x => (0 < x)%Q)
              (fun p g y g' Hp Hg => scale_positive 0.97 1.0 p g y g'
                 ltac:(lra) ltac:(lra) Hp Hg)
              _ _ _ _ Hprices Hg3 E4) as (_ & _ & Hg4).
  destruct (comprehension _ (base :: more) g4) as [closes g5] eqn:E5.
  destruct (comprehension_inv _ _ (fun x => (0 < x)%Q)
              (fun p g y g' Hp Hg => scale_positive 0.98 1.02 p g y g'
                 ltac:(lra) ltac:(lra) Hp Hg)
              _ _ _ _ Hprices Hg4 E5) as (Hcloses & _ & Hg5).
  destruct (comprehension _ (seq 0 days) g5) as [volumes g6] eqn:E6.
  destruct (comprehension_inv (fun (_ : nat) g => randint 1000000 5000000 g)
              (fun _ => True) (fun _ => True)
              (fun x g y g' _ Hg E =>
                 conj I (eq_ind _ unit_draws (unit_draws_tail g Hg) _
                           (f_equal snd E)))
              (seq 0 days) g5 volumes g6
              (Forall_true _ _ (fun _ => I)) Hg5 E6) as (_ & _ & Hg6).
  rewrite List.length_map, length_seq. simpl length. rewrite Hlen.
  replace (days =? S (days - 1))%nat with true
    by (symmetry; apply Nat.eqb_eq; lia).
  eexists _, _. split; [reflexivity|]. split; [|exact Hg6].
  now apply frame_positive_closes.
Qed.

(** C7.  For every backtest run over a positive number of days, from a
    generator whose draws lie in [0, 1): the run returns, the equity curve
    starts at 10,000, has one sample more than the trade log has trades,
    each sample after the first is the one before it times
    [1 + pnl_percent / 100] of the corresponding trade, and every sample is
    a positive number. *)
Theorem run_backtest_equity `{Runtime} (b : bot) (symbol : string)
    (days : nat) (today : Z) (clock : nat -> Z) (g : rng) :
  (0 < days)%nat -> unit_draws g ->
  exists st,
    run_backtest b symbol days today clock g = Ok st /\
    equity_compounds (trades st) (equity_curve st) /\
    Forall finite_positive (equity_curve st).
Proof.
  intros Hdays Hg. unfold run_backtest.
  destruct (generate_sample_data_positive symbol days today g Hdays Hg)
    as (data & g' & -> & Hdata & Hg').
  cbn [bind]. eexists. split; [reflexivity|].
  now apply backtest_loop_equity.
Qed.

(** A run of 25 days from the generator that draws one half each
    time. *)
Lemma run_backtest_equity_witness :
  exists st,
    @run_backtest plain_runtime crypto_arbitrage_bot "AAPL" 25 0 clock_zero
      draws_half = Ok st /\
    equity_compounds (trades st) (equity_curve st) /\
    Forall finite_positive (equity_curve st).
Proof.
  apply (@run_backtest_equity plain_runtime crypto_arbitrage_bot "AAPL" 25 0
           clock_zero draws_half).
  - lia.
  - intros k. split; [discriminate|reflexivity].
Defined.

(** ** C5: the momentum bot on a rising series *)

Lemma nlt_trans (a b c : num) :
  (a <? b)%num = true -> (b <? c)%num = true -> (a <? c)%num = true.
Proof.
  destruct a, b, c; simpl; try discriminate; try reflexivity.
  rewrite !Qlt_bool_iff. lra.
Qed.

Lemma nlt_le_trans (a b c : num) :
  notna c = true ->
  (a <? b)%num = true -> (c <? b)%num = false -> (a <? c)%num = true.
Proof.
  destruct a, b, c; simpl; try discriminate; try reflexivity.
  rewrite !Qlt_bool_iff, Qlt_bool_false. lra.
Qed.

Lemma nle_nlt_false (a b : num) :
  (a <=? b)%num = true -> (b <? a)%num = false.
Proof.
  destruct a, b; simpl; try discriminate; try reflexivity.
  rewrite Qle_bool_iff, Qlt_bool_false. trivial.
Qed.

Lemma nle_notna (a b : num) : (a <=? b)%num = true -> notna a = true.
Proof. now destruct a. Qed.

(** A number below the minimum of a window is below every observation
    in it. *)
Lemma fold_min_below (c : num) (l : Series) :
  Forall (fun y => notna y = true) l ->
  forall m, notna m = true ->
  (c <? fold_left (fun m y => if (y <? m)%num then y else m) l m)%num = true ->
  (c <? m)%num = true /\ Forall (fun y => (c <? y)%num = true) l.
Proof.
  induction 1 as [|y l Hy _ IH]; intros m Hm; simpl.
  - intros Hc. split; [exact Hc|constructor].
  - intros Hc. destruct (y <? m)%num eqn:Eym.
    + destruct (IH y Hy Hc) as [Hcy Hl].
      split; [now apply (nlt_trans c y m)|now constructor].
    + destruct (IH m Hm Hc) as [Hcm Hl].
      split; [exact Hcm|constructor; [|exact Hl]].
      now apply (nlt_le_trans c m y).
Qed.

Lemma agg_min_below (c x : num) (obs : Series) :
  Forall (fun y => notna y = true) obs -> In x obs ->
  (c <? agg_min obs)%num = true -> (c <? x)%num = true.
Proof.
  intros Hobs Hin. destruct obs as [|m l]; [destruct Hin|].
  apply Forall_cons in Hobs. destruct Hobs as [Hm Hl].
  unfold agg_min. intros Hc.
  destruct (fold_min_below c l Hl m Hm Hc) as [Hcm Hcl].
  destruct Hin as [<-|Hin]; [exact Hcm|].
  rewrite Forall_forall in Hcl. apply Hcl. now apply list_elem_of_In.
Qed.

Lemma last_drop_lt {A : Type} (k : nat) (l : list A) :
  (k < length l)%nat -> last (drop k l) = last l.
Proof.
  intros Hk. rewrite !last_lookup, lookup_drop, length_drop.
  f_equal. lia.
Qed.

(** The close of a bar that does not close below its low is not below
    the rolling support. *)
Lemma support_not_above_close (data : DataFrame) (latest : bar) (w : nat)
    (support : num) :
  (0 < w)%nat ->
  last data = Some latest ->
  (low latest <=? close latest)%num = true ->
  last (rolling agg_min w (col low data)) = Some support ->
  (close latest <? support)%num = false.
Proof.
  intros Hw Hlast Hlow Hsup.
  assert (Hlen : exists n, length (col low data) = S n).
  { destruct data; [discriminate|]. simpl. eauto. }
  destruct Hlen as [n Hlen].
  rewrite (last_rolling agg_min w _ n Hlen) in Hsup.
  injection Hsup as <-. cbv zeta.
  destruct (_ <? w)%nat; [apply nlt_nan_r|].
  destruct (close latest <? _)%num eqn:Hc; [|reflexivity].
  assert (Hin : In (low latest)
                  (List.filter notna (drop (S n - w) (col low data)))).
  { apply List.filter_In. split; [|exact (nle_notna _ _ Hlow)].
    apply list_elem_of_In, last_Some_elem_of.
    rewrite last_drop_lt by (rewrite Hlen; lia).
    unfold col. now rewrite last_map, Hlast. }
  assert (Hobs : Forall (fun y => notna y = true)
                   (List.filter notna (drop (S n - w) (col low data)))).
  { apply List.Forall_forall. intros y Hy. now apply List.filter_In in Hy. }
  pose proof (agg_min_below _ _ _ Hobs Hin Hc) as Hbelow.
  rewrite (nle_nlt_false _ _ Hlow) in Hbelow. discriminate.
Qed.

Lemma rising_deltas (t : Series) :
  forall x, rising (x :: t) = true ->
  Forall (fun d => (d <? Fin 0)%num = false) (zip_with nsub t (x :: t)).
Proof.
  induction t as [|y t IH]; intros x Hr; [constructor|].
  cbn [rising] in Hr. apply andb_true_iff in Hr. destruct Hr as [Hd Hr].
  cbn [zip_with]. constructor; [now apply negb_true_iff|now apply IH].
Qed.

Lemma rising_diff (s : Series) :
  rising s = true -> Forall (fun d => (d <? Fin 0)%num = false) (diff s).
Proof.
  destruct s as [|x t]; intros Hr; [constructor|].
  unfold diff. constructor; [reflexivity|now apply rising_deltas].
Qed.

Lemma rising_take (k : nat) :
  forall s, rising s = true -> rising (take k s) = true.
Proof.
  induction k as [|k IH]; intros s Hr; [reflexivity|].
  destruct s as [|x [|y t]]; try reflexivity.
  - now destruct k.
  - cbn [rising] in Hr. apply andb_true_iff in Hr. destruct Hr as [Hd Hr].
    specialize (IH (y :: t) Hr).
    destruct k as [|k]; [reflexivity|].
    change (take (S (S k)) (x :: y :: t)) with (x :: take (S k) (y :: t)).
    change (take (S k) (y :: t)) with (y :: take k t) in *.
    change (rising (x :: y :: take k t))
      with (negb (y - x <? Fin 0)%num && rising (y :: take k t)).
    now rewrite Hd, IH.
Qed.

(** Without a falling bar the loss column of the RSI is zero all
    along. *)
Lemma losses_zero (delta : Series) :
  Forall (fun d => (d <? Fin 0)%num = false) delta ->
  Forall (fun v => v = Fin (- 0))
    (List.map nneg (where_ (fun d => (d <? Fin 0)%num) (Fin 0) delta)).
Proof.
  induction 1 as [|d delta Hd _ IH]; [constructor|].
  simpl. rewrite Hd. now constructor.
Qed.

Lemma nsum_zeros (obs : Series) :
  Forall (fun v => v = Fin (- 0)) obs ->
  forall a, (a == 0)%Q ->
  exists q, fold_left nadd obs (Fin a) = Fin q /\ (q == 0)%Q.
Proof.
  induction 1 as [|v obs -> _ IH]; intros a Ha; simpl.
  - now exists a.
  - apply IH. lra.
Qed.

Lemma mean_zeros (obs : Series) :
  Forall (fun v => v = Fin (- 0)) obs ->
  agg_mean obs = NaN \/ exists z, agg_mean obs = Fin z /\ (z == 0)%Q.
Proof.
  intros Hobs. unfold agg_mean, nsum, of_nat.
  destruct (nsum_zeros obs Hobs 0 ltac:(reflexivity)) as (q & -> & Hq).
  unfold ndiv.
  destruct (Qeq_bool _ 0) eqn:En.
  - left. unfold nsign.
    replace (Qlt_bool 0 q) with false by (symmetry; apply Qlt_bool_false; lra).
    replace (Qlt_bool q 0) with false by (symmetry; apply Qlt_bool_false; lra).
    reflexivity.
  - right. eexists. split; [reflexivity|].
    rewrite Hq. unfold Qdiv. ring.
Qed.

(** With a zero (or undefined) average loss the RSI is 100 or undefined,
    and never below the overbought line. *)
Lemma rsi_not_below (gain loss : num) (line : Q) :
  (line <= 100)%Q ->
  loss = NaN \/ (exists z, loss = Fin z /\ (z == 0)%Q) ->
  (Fin 100 - Fin 100 / (Fin 1 + gain / loss) <? Fin line)%num = false.
Proof.
  intros Hline [->|(z & -> & Hz)].
  - now destruct gain.
  - assert (Ez : Qeq_bool z 0 = true) by now apply Qeq_bool_iff.
    assert (Elt : Qlt_bool z 0 = false) by (apply Qlt_bool_false; lra).
    destruct gain as [| | |x]; unfold ndiv at 2; rewrite ?Ez, ?Elt;
      try reflexivity;
      try (simpl; apply Qlt_bool_false; lra).
    unfold nsign. destruct (Qlt_bool 0 x); [simpl; apply Qlt_bool_false; lra|].
    destruct (Qlt_bool x 0); [simpl; apply Qlt_bool_false; lra|reflexivity].
Qed.

Lemma last_rsi_rising (s : Series) (r : num) (line : Q) :
  (line <= 100)%Q -> rising s = true ->
  last (rsi_series 14 s) = Some r -> (r <? Fin line)%num = false.
Proof.
  intros Hline Hr. unfold rsi_series.
  rewrite last_map, last_zip_with
    by (rewrite !length_rolling, List.length_map, !length_where; reflexivity).
  destruct (last (rolling agg_mean 14 (where_ _ _ _))) as [gain|];
    [|discriminate].
  destruct (last (rolling agg_mean 14 (List.map nneg _))) as [loss|] eqn:El;
    [|discriminate].
  intros [= <-]. apply rsi_not_below; [exact Hline|].
  pose proof (losses_zero _ (rising_diff s Hr)) as Hz.
  set (L := List.map nneg _) in *.
  destruct (length L) as [|n] eqn:Hlen.
  { destruct L; [discriminate El|discriminate Hlen]. }
  rewrite (last_rolling agg_mean 14 L n Hlen) in El.
  injection El as <-. cbv zeta.
  destruct (_ <? 14)%nat; [now left|].
  apply mean_zeros.
  apply List.Forall_forall. intros v Hv.
  apply List.filter_In in Hv. destruct Hv as [Hv _].
  apply list_elem_of_In in Hv.
  rewrite Forall_forall in Hz. apply Hz.
  exact (subseteq_drop _ _ _ Hv).
Qed.

Lemma iloc_last_inv {A : Type} (s : list A) (x : A) :
  iloc_last s = Ok x -> last s = Some x.
Proof. unfold iloc_last. destruct (last s); now intros [= <-]. Qed.

(** On a frame whose closes never fall and whose latest bar does not
    close below its low, the momentum bot holds. *)
Lemma momentum_rising_holds `{Runtime} symbol (data : DataFrame) md now :
  rising (col close data) = true ->
  (forall latest, last data = Some latest ->
                  (low latest <=? close latest)%num = true) ->
  signal_type (analyze momentum_bot symbol data md now) = HOLD.
Proof.
  intros Hr Hlow. destruct (last data) as [latest|] eqn:Hlast.
  2:{ apply last_None in Hlast. now subst data. }
  specialize (Hlow latest eq_refl).
  assert (Hpos : (0 < length data)%nat) by (destruct data; simpl; [easy|lia]).
  unfold analyze, MomentumBot.analyze, MomentumBot.analyze_body,
    MomentumBot.calculate_indicators, volume_ratio_of,
    MomentumBot.breakout_period.
  rewrite (iloc_last_some _ _ Hlast).
  repeat iloc_ok Hpos.
  cbn [try_except]. rewrite build_signal_type.
  unfold MomentumBot.decide_signal.
  cbn [MomentumBot.rsi MomentumBot.support].
  match goal with
  | E : iloc_last (rsi_series _ _) = Ok ?r |- _ =>
      rewrite (last_rsi_rising _ r MomentumBot.rsi_overbought
                 ltac:(unfold MomentumBot.rsi_overbought; lra) Hr
                 (iloc_last_inv _ _ E))
  end.
  match goal with
  | E : iloc_last (rolling agg_min _ _) = Ok ?s |- _ =>
      rewrite (support_not_above_close data latest 20 s ltac:(lia) Hlast Hlow
                 (iloc_last_inv _ _ E))
  end.
  rewrite andb_false_r. reflexivity.
Qed.

Lemma geometric_rising : rising geometric_closes = true.
Proof. vm_compute. reflexivity. Qed.

(** At the 30-bar window of the scenario's frame the volume condition
    is met; the close does not exceed the resistance, whose window holds the
    latest bar, and the RSI is 100. *)
Lemma geometric_window_conditions :
  match MomentumBot.calculate_indicators (take 30 geometric_frame),
        iloc_last (take 30 geometric_frame) with
  | Ok i, Ok latest =>
      (close latest >? MomentumBot.resistance i)%num = false /\
      (MomentumBot.rsi i =? Fin 100)%num = true /\
      (MomentumBot.volume_ratio i >? Fin MomentumBot.volume_threshold)%num
        = true
  | _, _ => False
  end.
Proof. vm_compute. repeat split. Qed.

(** C5, as the code has it.  On the 100-bar series 100 * 1.005^n, with
    bars that do not close below their lows, the momentum bot holds at every
    window: it sells at none, and it buys at none either, the RSI of closes
    that only rise being 100 (or undefined), which the overbought guard
    turns away. *)
Theorem momentum_geometric_holds `{Runtime} (symbol : string)
    (data : DataFrame) (md : MarketData) (now : Z) (k : nat) :
  col close data = geometric_closes ->
  Forall (fun r => (low r <=? close r)%num = true) data ->
  signal_type (analyze momentum_bot symbol (take k data) md now) = HOLD.
Proof.
  intros Hclose Hlow. apply momentum_rising_holds.
  - unfold col. rewrite <- List.firstn_map.
    apply rising_take. fold (col close data). rewrite Hclose.
    exact geometric_rising.
  - intros latest Hlast. apply last_Some_elem_of in Hlast.
    rewrite Forall_forall in Hlow. apply Hlow.
    exact (subseteq_take _ _ _ Hlast).
Qed.

Lemma geometric_frame_lows :
  Forall (fun r => (low r <=? close r)%num = true) geometric_frame.
Proof.
  apply List.Forall_forall, List.forallb_forall. vm_compute. reflexivity.
Qed.

(** The 30-bar window of the scenario's frame. *)
Lemma momentum_geometric_holds_witness :
  signal_type
    (@analyze plain_runtime momentum_bot "AAPL" (take 30 geometric_frame) ∅ 0)
    = HOLD.
Proof.
  apply (@momentum_geometric_holds plain_runtime "AAPL" geometric_frame ∅ 0 30).
  - reflexivity.
  - exact geometric_frame_lows.
Defined.

(** C5, as stated, fails: on the scenario's frame, where every bar
    doubles the volume of the one before, no window makes the momentum bot
    buy. *)
Lemma momentum_never_buys_geometric :
  ~ exists k,
      signal_type
        (@analyze plain_runtime momentum_bot "AAPL" (take k geometric_frame)
           ∅ 0) = BUY.
Proof.
  intros [k Hbuy].
  rewrite (@momentum_rising_holds plain_runtime) in Hbuy; [discriminate| |].
  - unfold col. rewrite <- List.firstn_map.
    apply rising_take. exact geometric_rising.
  - intros latest Hlast. apply last_Some_elem_of in Hlast.
    pose proof geometric_frame_lows as Hlow.
    rewrite Forall_forall in Hlow. apply Hlow.
    exact (subseteq_take _ _ _ Hlast).
Qed.

(** * Further properties of the bots *)

(** ** The momentum bot on bars that close within their range *)

Lemma nlt_le_trans_l (a b c : num) :
  notna a = true ->
  (b <? c)%num = true -> (b <? a)%num = false -> (a <? c)%num = true.
Proof.
  destruct a, b, c; simpl; try discriminate; try reflexivity.
  rewrite !Qlt_bool_iff, Qlt_bool_false. lra.
Qed.

(** A number above the maximum of a window is above every observation
    in it. *)
Lemma fold_max_above (c : num) (l : Series) :
  Forall (fun y => notna y = true) l ->
  forall m, notna m = true ->
  (fold_left (fun m y => if (m <? y)%num then y else m) l m <? c)%num = true ->
  (m <? c)%num = true /\ Forall (fun y => (y <? c)%num = true) l.
Proof.
  induction 1 as [|y l Hy _ IH]; intros m Hm; simpl.
  - intros Hc. split; [exact Hc|constructor].
  - intros Hc. destruct (m <? y)%num eqn:Emy.
    + destruct (IH y Hy Hc) as [Hyc Hl].
      split; [now apply (nlt_trans m y c)|now constructor].
    + destruct (IH m Hm Hc) as [Hmc Hl].
      split; [exact Hmc|constructor; [|exact Hl]].
      now apply (nlt_le_trans_l y m c).
Qed.

Lemma agg_max_above (c x : num) (obs : Series) :
  Forall (fun y => notna y = true) obs -> In x obs ->
  (agg_max obs <? c)%num = true -> (x <? c)%num = true.
Proof.
  intros Hobs Hin. destruct obs as [|m l]; [destruct Hin|].
  apply Forall_cons in Hobs. destruct Hobs as [Hm Hl].
  unfold agg_max. intros Hc.
  destruct (fold_max_above c l Hl m Hm Hc) as [Hmc Hlc].
  destruct Hin as [<-|Hin]; [exact Hmc|].
  rewrite Forall_forall in Hlc. apply Hlc. now apply list_elem_of_In.
Qed.

(** The close of a bar that does not close above its high does not exceed
    the rolling resistance, whose window holds that bar. *)
Lemma resistance_not_below_close (data : DataFrame) (latest : bar) (w : nat)
    (resistance : num) :
  (0 < w)%nat ->
  last data = Some latest ->
  (close latest <=? high latest)%num = true ->
  last (rolling agg_max w (col high data)) = Some resistance ->
  (close latest >? resistance)%num = false.
Proof.
  intros Hw Hlast Hhigh Hres. unfold ngt.
  assert (Hlen : exists n, length (col high data) = S n).
  { destruct data; [discriminate|]. simpl. eauto. }
  destruct Hlen as [n Hlen].
  rewrite (last_rolling agg_max w _ n Hlen) in Hres.
  injection Hres as <-. cbv zeta.
  destruct (_ <? w)%nat; [reflexivity|].
  destruct (_ <? close latest)%num eqn:Hc; [|reflexivity].
  assert (Hna : notna (high latest) = true).
  { destruct (high latest), (close latest); try discriminate; reflexivity. }
  assert (Hin : In (high latest)
                  (List.filter notna (drop (S n - w) (col high data)))).
  { apply List.filter_In. split; [|exact Hna].
    apply list_elem_of_In, last_Some_elem_of.
    rewrite last_drop_lt by (rewrite Hlen; lia).
    unfold col. now rewrite last_map, Hlast. }
  assert (Hobs : Forall (fun y => notna y = true)
                   (List.filter notna (drop (S n - w) (col high data)))).
  { apply List.Forall_forall. intros y Hy. now apply List.filter_In in Hy. }
  pose proof (agg_max_above _ _ _ Hobs Hin Hc) as Habove.
  rewrite (nle_nlt_false _ _ Hhigh) in Habove. discriminate.
Qed.

(** X1.  Whatever the history, the volume and the RSI, the momentum bot
    holds on every frame whose latest bar closes within its own range
    (low <= close <= high): the 20-row windows of the resistance and of the
    support contain the latest bar, so its close can neither exceed the one
    nor fall below the other. *)
Theorem momentum_holds_within_range `{Runtime} (symbol : string)
    (data : DataFrame) (md : MarketData) (now : Z) (latest : bar) :
  last data = Some latest ->
  (low latest <=? close latest)%num = true ->
  (close latest <=? high latest)%num = true ->
  signal_type (analyze momentum_bot symbol data md now) = HOLD.
Proof.
  intros Hlast Hlow Hhigh.
  assert (Hpos : (0 < length data)%nat) by (destruct data; simpl; [easy|lia]).
  unfold analyze, MomentumBot.analyze, MomentumBot.analyze_body,
    MomentumBot.calculate_indicators, volume_ratio_of,
    MomentumBot.breakout_period.
  rewrite (iloc_last_some _ _ Hlast).
  repeat iloc_ok Hpos.
  cbn [try_except]. rewrite build_signal_type.
  unfold MomentumBot.decide_signal.
  cbn [MomentumBot.resistance MomentumBot.support].
  match goal with
  | E : iloc_last (rolling agg_max _ _) = Ok ?r |- _ =>
      rewrite (resistance_not_below_close data latest 20 r ltac:(lia) Hlast
                 Hhigh (iloc_last_inv _ _ E))
  end.
  match goal with
  | E : iloc_last (rolling agg_min _ _) = Ok ?s |- _ =>
      rewrite (support_not_above_close data latest 20 s ltac:(lia) Hlast Hlow
                 (iloc_last_inv _ _ E))
  end.
  reflexivity.
Qed.

(** The arbitrage scenario's 21 bars: the latest closes at 100 between 98
    and 102. *)
Lemma momentum_holds_within_range_witness :
  signal_type (@analyze plain_runtime momentum_bot "AAPL" wide_bars ∅ 0)
    = HOLD.
Proof.
  apply (@momentum_holds_within_range plain_runtime "AAPL" wide_bars ∅ 0
           {| date := 20; open := Fin 100; high := Fin 102; low := Fin 98;
              close := Fin 100; volume := Fin 1000 |});
    reflexivity.
Defined.

(** ** Level closes: the RSI is undefined *)

Lemma level_deltas (t : Series) :
  forall x, level (x :: t) = true ->
  Forall (fun d => (d <? Fin 0)%num = false /\ (d >? Fin 0)%num = false)
    (zip_with nsub t (x :: t)).
Proof.
  induction t as [|y t IH]; intros x Hl; [constructor|].
  cbn [level] in Hl. apply andb_true_iff in Hl. destruct Hl as [Hd Hl].
  apply andb_true_iff in Hd. destruct Hd as [Hlt Hgt].
  cbn [zip_with]. constructor; [|now apply IH].
  split; now apply negb_true_iff.
Qed.

Lemma level_diff (s : Series) :
  level s = true ->
  Forall (fun d => (d <? Fin 0)%num = false /\ (d >? Fin 0)%num = false)
    (diff s).
Proof.
  destruct s as [|x t]; intros Hl; [constructor|].
  unfold diff. constructor; [split; reflexivity|now apply level_deltas].
Qed.

Lemma nsum_is_zero (obs : Series) :
  Forall is_zero obs ->
  forall a, (a == 0)%Q ->
  exists q, fold_left nadd obs (Fin a) = Fin q /\ (q == 0)%Q.
Proof.
  induction 1 as [|v obs (z & -> & Hz) _ IH]; intros a Ha; simpl.
  - now exists a.
  - apply IH. lra.
Qed.

Lemma mean_is_zero (obs : Series) :
  Forall is_zero obs -> agg_mean obs = NaN \/ is_zero (agg_mean obs).
Proof.
  intros Hobs. unfold agg_mean, nsum, of_nat.
  destruct (nsum_is_zero obs Hobs 0 ltac:(reflexivity)) as (q & -> & Hq).
  unfold ndiv.
  destruct (Qeq_bool _ 0) eqn:En.
  - left. unfold nsign.
    replace (Qlt_bool 0 q) with false by (symmetry; apply Qlt_bool_false; lra).
    replace (Qlt_bool q 0) with false by (symmetry; apply Qlt_bool_false; lra).
    reflexivity.
  - right. eexists. split; [reflexivity|].
    rewrite Hq. unfold Qdiv. ring.
Qed.

Lemma last_rolling_mean_zero (w : nat) (s : Series) (v : num) :
  Forall is_zero s -> last (rolling agg_mean w s) = Some v ->
  v = NaN \/ is_zero v.
Proof.
  intros Hs Hv. destruct (length s) as [|n] eqn:Hlen.
  { destruct s; [discriminate Hv|discriminate Hlen]. }
  rewrite (last_rolling agg_mean w s n Hlen) in Hv.
  injection Hv as <-. cbv zeta.
  destruct (_ <? w)%nat; [now left|].
  apply mean_is_zero.
  apply List.Forall_forall. intros x Hx.
  apply List.filter_In in Hx. destruct Hx as [Hx _].
  apply list_elem_of_In in Hx.
  rewrite Forall_forall in Hs. apply Hs.
  exact (subseteq_drop _ _ _ Hx).
Qed.

(** Zero average gain over zero average loss: the RSI is [nan]. *)
Lemma rsi_zero_over_zero (gain loss : num) :
  gain = NaN \/ is_zero gain -> loss = NaN \/ is_zero loss ->
  (Fin 100 - Fin 100 / (Fin 1 + gain / loss))%num = NaN.
Proof.
  intros [->|(g & -> & Hg)] [->|(l & -> & Hl)]; try reflexivity.
  unfold ndiv at 2.
  replace (Qeq_bool l 0) with true by (symmetry; now apply Qeq_bool_iff).
  unfold nsign.
  replace (Qlt_bool 0 g) with false by (symmetry; apply Qlt_bool_false; lra).
  replace (Qlt_bool g 0) with false by (symmetry; apply Qlt_bool_false; lra).
  reflexivity.
Qed.

Lemma last_rsi_level (period : nat) (s : Series) (r : num) :
  level s = true -> last (rsi_series period s) = Some r -> r = NaN.
Proof.
  intros Hl. unfold rsi_series.
  rewrite last_map, last_zip_with
    by (rewrite !length_rolling, List.length_map, !length_where; reflexivity).
  destruct (last (rolling agg_mean period (where_ _ _ _))) as [gain|] eqn:Eg;
    [|discriminate].
  destruct (last (rolling agg_mean period (List.map nneg _))) as [loss|] eqn:El;
    [|discriminate].
  intros [= <-].
  pose proof (level_diff s Hl) as Hd.
  apply rsi_zero_over_zero.
  - eapply last_rolling_mean_zero; [|exact Eg].
    clear -Hd. unfold where_.
    induction Hd as [|d delta [_ Hgt] _ IH]; [constructor|].
    cbn [List.map]. rewrite Hgt. constructor; [|exact IH].
    exists 0%Q. now split.
  - eapply last_rolling_mean_zero; [|exact El].
    clear -Hd. unfold where_.
    induction Hd as [|d delta [Hlt _] _ IH]; [constructor|].
    cbn [List.map]. rewrite Hlt. constructor; [|exact IH].
    exists (- 0)%Q. now split.
Qed.

(** X2.  On a frame whose closes never move, the two bots that read the
    RSI hold, whatever the highs, lows and volumes: gain and loss average to
    zero, 0/0 leaves the RSI undefined, and no comparison with it is
    true.  No division by zero is raised on the way. *)
Theorem level_closes_hold `{Runtime} (symbol : string) (data : DataFrame)
    (md : MarketData) (now : Z) :
  level (col close data) = true ->
  signal_type (analyze momentum_bot symbol data md now) = HOLD /\
  signal_type (analyze mean_reversion_bot symbol data md now) = HOLD.
Proof.
  intros Hl. destruct (last data) as [latest|] eqn:Hlast.
  2:{ apply last_None in Hlast. now subst data. }
  assert (Hpos : (0 < length data)%nat) by (destruct data; simpl; [easy|lia]).
  split.
  - unfold analyze, MomentumBot.analyze, MomentumBot.analyze_body,
      MomentumBot.calculate_indicators, volume_ratio_of.
    rewrite (iloc_last_some _ _ Hlast).
    repeat iloc_ok Hpos.
    cbn [try_except]. rewrite build_signal_type.
    unfold MomentumBot.decide_signal. cbn [MomentumBot.rsi].
    match goal with
    | E : iloc_last (rsi_series _ _) = Ok ?r |- _ =>
        rewrite (last_rsi_level _ _ r Hl (iloc_last_inv _ _ E))
    end.
    cbn [nlt ngt]. rewrite !andb_false_r. reflexivity.
  - unfold analyze, MeanReversionBot.analyze, MeanReversionBot.analyze_body,
      MeanReversionBot.calculate_indicators.
    rewrite (iloc_last_some _ _ Hlast).
    repeat iloc_ok Hpos.
    cbn [try_except]. rewrite build_signal_type.
    unfold MeanReversionBot.decide_signal. cbn [MeanReversionBot.rsi].
    match goal with
    | E : iloc_last (rsi_series _ _) = Ok ?r |- _ =>
        rewrite (last_rsi_level _ _ r Hl (iloc_last_inv _ _ E))
    end.
    cbn [nlt ngt]. rewrite !andb_false_r. reflexivity.
Qed.

(** Thirty bars at 100. *)
Lemma level_closes_hold_witness :
  signal_type
    (@analyze plain_runtime momentum_bot "AAPL" (flat_bars 30 100 1) ∅ 0)
    = HOLD /\
  signal_type
    (@analyze plain_runtime mean_reversion_bot "AAPL" (flat_bars 30 100 1) ∅ 0)
    = HOLD.
Proof.
  apply (@level_closes_hold plain_runtime "AAPL" (flat_bars 30 100 1) ∅ 0).
  vm_compute. reflexivity.
Defined.

(** ** The Fibonacci trader below twenty rows *)

(** X3.  With fewer than 20 rows the Fibonacci trader never buys: the
    20-row mean is undefined, no price compares above it, and the trend
    reads as a downtrend.  (It can sell, as on a single bar.) *)
Theorem fibonacci_short_never_buys `{Runtime} (symbol : string)
    (data : DataFrame) (md : MarketData) (now : Z) :
  (length data < 20)%nat ->
  signal_type (analyze fibonacci_trader symbol data md now) <> BUY.
Proof.
  intros Hlen. destruct (last data) as [latest|] eqn:Hlast.
  2:{ apply last_None in Hlast. now subst data. }
  assert (Hne : data <> []) by (intros ->; discriminate).
  assert (Hpos : (0 < length data)%nat) by (destruct data; simpl; [easy|lia]).
  unfold analyze, FibonacciTrader.analyze, FibonacciTrader.analyze_body,
    FibonacciTrader.calculate_indicators.
  rewrite !iloc_rolling_short by assumption.
  rewrite (iloc_last_some _ _ Hlast). cbn [bind].
  repeat iloc_ok Hpos.
  cbn [try_except]. rewrite build_signal_type.
  unfold FibonacciTrader.decide_signal, ngt.
  cbn [FibonacciTrader.at_fib_level FibonacciTrader.trend
       FibonacciTrader.fib_level nlt].
  destruct (FibonacciTrader.find_level _ _); [|discriminate].
  cbn [String.eqb Ascii.eqb Bool.eqb andb].
  destruct (FibonacciTrader.in_mid_levels _); discriminate.
Qed.

(** The single bar on which the trader sells. *)
Lemma fibonacci_short_never_buys_witness :
  signal_type
    (@analyze plain_runtime fibonacci_trader "AAPL" one_bar_frame ∅ 0) <> BUY.
Proof.
  apply (@fibonacci_short_never_buys plain_runtime "AAPL" one_bar_frame ∅ 0).
  vm_compute. lia.
Defined.

(** ** Validation of holds *)

Lemma zero_confidence_rejected (b : bot) (s : TradingSignal) :
  confidence s = Fin 0 -> validate_signal b s = false.
Proof.
  intros Hc.
  destruct b; unfold validate_signal, MomentumBot.validate_signal,
    GridTradingBot.validate_signal, CryptoArbitrageBot.validate_signal,
    FibonacciTrader.validate_signal, MeanReversionBot.validate_signal,
    NewsSentinelBot.validate_signal, PatternRecognitionBot.validate_signal,
    ScalpingBot.validate_signal;
    rewrite Hc; reflexivity.
Qed.

(** X4.  A hold returned by [analyze], of any bot and on any input, is
    refused by the same bot's [validate_signal]: every floor is above the
    confidence 0 of a hold.  The validator alone therefore tells the trades
    from the holds. *)
Theorem hold_is_rejected `{Runtime} (b : bot) (symbol : string)
    (data : DataFrame) (md : MarketData) (now : Z) :
  signal_type (analyze b symbol data md now) = HOLD ->
  validate_signal b (analyze b symbol data md now) = false.
Proof.
  destruct (analyze_cases b symbol data md now)
    as [[_ (_ & Hc & _)]|(latest & d & ind & _ & Hd & ->)].
  - intros _. now apply zero_confidence_rejected.
  - rewrite build_signal_type. intros Ht.
    apply zero_confidence_rejected.
    rewrite (build_signal_confidence b _ _ _ _ d ind Hd).
    destruct d as [[t conf] r]. simpl in *. subst t. exact Hd.
Qed.

(** Ten flat bars, on which the grid bot holds. *)
Lemma hold_is_rejected_witness :
  validate_signal grid_trading_bot
    (@analyze plain_runtime grid_trading_bot "AAPL" (flat_bars 10 100 1) ∅ 0)
    = false.
Proof.
  apply (@hold_is_rejected plain_runtime grid_trading_bot "AAPL"
           (flat_bars 10 100 1) ∅ 0).
  reflexivity.
Defined.

(** X5.  The pattern-recognition bot never yields an actionable signal:
    whatever the input its signal is a hold, and its own validator refuses
    it. *)
Theorem pattern_bot_never_actionable `{Runtime} (symbol : string)
    (data : DataFrame) (md : MarketData) (now : Z) :
  signal_type (analyze pattern_recognition_bot symbol data md now) = HOLD /\
  validate_signal pattern_recognition_bot
    (analyze pattern_recognition_bot symbol data md now) = false.
Proof.
  pose proof (pattern_holds symbol data md now) as Hh.
  split; [exact Hh|].
  destruct (analyze_cases pattern_recognition_bot symbol data md now)
    as [[_ (_ & Hc & _)]|(latest & d & ind & _ & Hd & E)].
  - now apply zero_confidence_rejected.
  - rewrite E in Hh |- *. rewrite build_signal_type in Hh.
    apply zero_confidence_rejected.
    rewrite (build_signal_confidence pattern_recognition_bot _ _ _ _ d ind Hd).
    destruct d as [[t conf] r]. simpl in *. subst t. exact Hd.
Qed.

(** ** The news bot without news *)

(** X6.  The news bot holds whenever the sentiment it is given is
    neither above 0.6 nor below -0.6, whatever the frame; in particular
    when the market context has no [news_sentiment] entry, as in every call
    the application makes. *)
Theorem news_bot_needs_sentiment `{Runtime} (symbol : string)
    (data : DataFrame) (md : MarketData) (now : Z) :
  (default (Fin 0) (md !! "news_sentiment")
     >? Fin NewsSentinelBot.sentiment_threshold)%num = false ->
  (default (Fin 0) (md !! "news_sentiment")
     <? Fin (- NewsSentinelBot.sentiment_threshold))%num = false ->
  signal_type (analyze news_sentinel_bot symbol data md now) = HOLD.
Proof.
  intros Hup Hdown. destruct (last data) as [latest|] eqn:Hlast.
  2:{ apply last_None in Hlast. now subst data. }
  assert (Hpos : (0 < length data)%nat) by (destruct data; simpl; [easy|lia]).
  unfold analyze, NewsSentinelBot.analyze, NewsSentinelBot.analyze_body,
    NewsSentinelBot.calculate_indicators, volume_ratio_of.
  rewrite (iloc_last_some _ _ Hlast).
  repeat iloc_ok Hpos.
  cbn [try_except]. rewrite build_signal_type.
  unfold NewsSentinelBot.decide_signal. cbv zeta.
  rewrite Hup, Hdown. reflexivity.
Qed.

(** The volume spike at 100 without a market context. *)
Lemma news_bot_needs_sentiment_witness :
  signal_type (@analyze plain_runtime news_sentinel_bot "AAPL" spike_frame ∅ 0)
    = HOLD.
Proof.
  apply (@news_bot_needs_sentiment plain_runtime "AAPL" spike_frame ∅ 0);
    reflexivity.
Defined.

(** ** The arbitrage bot reads one bar *)

(** X7.  The signal of the arbitrage bot is a function of the symbol, the
    clock and the latest bar alone: the earlier rows and the market context
    change nothing, no other exchange is consulted. *)
Theorem arbitrage_reads_latest_bar `{Runtime} (symbol : string)
    (data : DataFrame) (md md' : MarketData) (now : Z) (latest : bar) :
  last data = Some latest ->
  analyze crypto_arbitrage_bot symbol data md now =
    analyze crypto_arbitrage_bot symbol [latest] md' now.
Proof.
  intros Hlast.
  unfold analyze, CryptoArbitrageBot.analyze,
    CryptoArbitrageBot.analyze_body, CryptoArbitrageBot.calculate_indicators.
  rewrite !(iloc_last_col _ data latest Hlast).
  rewrite !(iloc_last_col _ [latest] latest eq_refl).
  rewrite (iloc_last_some _ _ Hlast).
  reflexivity.
Qed.

Lemma arbitrage_reads_latest_bar_witness :
  @analyze plain_runtime crypto_arbitrage_bot "AAPL" wide_bars ∅ 0 =
  @analyze plain_runtime crypto_arbitrage_bot "AAPL"
    [{| date := 20; open := Fin 100; high := Fin 102; low := Fin 98;
        close := Fin 100; volume := Fin 1000 |}] good_news 0.
Proof.
  apply (@arbitrage_reads_latest_bar plain_runtime "AAPL" wide_bars ∅
           good_news 0).
  reflexivity.
Defined.

(** ** Sizes *)

Lemma py_min_le_r (a b : Q) :
  (py_min (Fin a) (Fin b) <=? Fin b)%num = true.
Proof.
  unfold py_min, nlt. destruct (Qlt_bool b a) eqn:E; apply nle_Fin; [lra|].
  now apply Qlt_bool_false in E.
Qed.

Lemma py_min_le_l (a b : Q) :
  (py_min (Fin a) (Fin b) <=? Fin a)%num = true.
Proof.
  unfold py_min, nlt. destruct (Qlt_bool b a) eqn:E; apply nle_Fin; [|lra].
  apply Qlt_bool_iff in E. lra.
Qed.

Lemma nle_Fin_proper (v : num) (a b : Q) :
  (a == b)%Q -> (v <=? Fin a)%num = true -> (v <=? Fin b)%num = true.
Proof.
  intros Hab. destruct v; simpl; trivial.
  rewrite !Qle_bool_iff. now rewrite Hab.
Qed.

Lemma risk_position_size_capped (cap : Q) (s : TradingSignal)
    (e sl r pv : Q) :
  entry_price s = Fin e -> stop_loss s = Fin sl ->
  (0 <= cap)%Q -> (0 <= pv)%Q ->
  (risk_position_size cap s (Fin pv) (Fin r) <=? Fin (cap * pv))%num = true.
Proof.
  intros He Hsl Hcap Hpv. unfold risk_position_size.
  rewrite He, Hsl. cbn [nsub nneg nadd nabs neqb].
  destruct (Qeq_bool (Qabs (e + - sl)) 0) eqn:Ez.
  - apply nle_Fin. nra.
  - cbn [nmul ndiv]. rewrite Ez. cbn [nmul].
    eapply nle_Fin_proper; [|apply py_min_le_r]. ring.
Qed.

(** X9.  On a portfolio that is not negative, for a signal with a
    positive entry price and a stop that is not negative, no sizer lets a
    position exceed its share of the portfolio (25% momentum, 20% mean
    reversion and news, 15% arbitrage, 10% grid and scalping), and the
    sizers with an absolute ceiling (1,000 grid, 10,000 scalping, 50,000
    arbitrage) never exceed it.  (An entry price of 0 is excluded: there
    the number of shares, if the division overflows, is multiplied by 0.) *)
Theorem position_size_capped (b : bot) (s : TradingSignal)
    (e sl r pv c : Q) (x : num) :
  entry_price s = Fin e -> stop_loss s = Fin sl ->
  (0 < e)%Q -> (0 <= sl)%Q -> (0 <= pv)%Q ->
  calculate_position_size b s (Fin pv) (Fin r) = Some x ->
  cap_fraction b = Some c ->
  (x <=? Fin (c * pv))%num = true /\
  forall m, size_ceiling b = Some m -> (x <=? Fin m)%num = true.
Proof.
  intros He Hsl He0 Hsl0 Hpv Hx Hc.
  destruct b; simpl in Hx, Hc; try discriminate;
    injection Hx as <-; injection Hc as <-.
  - split; [|discriminate].
    apply (risk_position_size_capped _ s e sl); trivial; lra.
  - unfold GridTradingBot.calculate_position_size. cbn [nmul].
    split.
    + eapply nle_Fin_proper; [|apply py_min_le_r]. ring.
    + intros m [= <-]. apply py_min_le_l.
  - unfold CryptoArbitrageBot.calculate_position_size. cbn [nmul].
    split.
    + eapply nle_Fin_proper; [|apply py_min_le_l]. ring.
    + intros m [= <-]. apply py_min_le_r.
  - split; [|discriminate].
    apply (risk_position_size_capped _ s e sl); trivial; lra.
  - split; [|discriminate].
    apply (risk_position_size_capped _ s e sl); trivial; lra.
  - unfold ScalpingBot.calculate_position_size. cbn [nmul].
    split.
    + eapply nle_Fin_proper; [|apply py_min_le_l]. ring.
    + intros m [= <-]. apply py_min_le_r.
Qed.

(** The buy at 100 with the stop at 98 on a portfolio of 10,000: the risk
    budget would buy 10,000 worth, the cap leaves 2,500. *)
Lemma position_size_capped_witness :
  (MomentumBot.calculate_position_size two_point_risk_signal (Fin 10000)
     (Fin 0.02) <=? Fin (0.25 * 10000))%num = true.
Proof.
  refine (proj1 (position_size_capped momentum_bot two_point_risk_signal
                   100 98 0.02 10000 0.25 _ _ _ _ _ _ _ _));
    try reflexivity; try (vm_compute; discriminate).
Defined.

(** * Properties of the scoring modules *)

(** ** Market sentiment *)

(** X10.  Whatever the market data (missing keys count as 0), the
    sentiment score lies between 0.3 and 0.8, so the clamp to [0, 1] never
    binds and the label is never "Very Bearish"; and the label is "Very
    Bullish" exactly when the price change is above 2: volume alone lifts
    the label no further than "Bullish". *)
Theorem sentiment_score_range (market_data : MarketData) (now : Z) :
  let r := MarketSentimentAnalyzer.analyze_sentiment market_data now in
  (Fin 0.3 <=? MarketSentimentAnalyzer.sentiment_score r)%num = true /\
  (MarketSentimentAnalyzer.sentiment_score r <=? Fin 0.8)%num = true /\
  MarketSentimentAnalyzer.sentiment_label r <> "Very Bearish" /\
  (MarketSentimentAnalyzer.sentiment_label r = "Very Bullish" <->
   (MarketSentimentAnalyzer.price_momentum r >? Fin 2)%num = true).
Proof.
  unfold MarketSentimentAnalyzer.analyze_sentiment.
  set (pm := default (Fin 0) (market_data !! "price_change_pct")).
  set (vc := default (Fin 0) (market_data !! "volume_change_pct")).
  cbv zeta.
  cbn [MarketSentimentAnalyzer.sentiment_score
       MarketSentimentAnalyzer.sentiment_label
       MarketSentimentAnalyzer.price_momentum].
  destruct (pm >? Fin 2)%num, (pm <? Fin (-2))%num, (vc >? Fin 50)%num;
    vm_compute; repeat split; congruence.
Qed.

(** ** Risk assessment *)

Lemma py_div_guarded (a x : num) :
  (x >? Fin 0)%num = true -> py_div a x = Some (a / x)%num.
Proof.
  intros Hx. unfold py_div.
  destruct x as [| | |q]; try discriminate; try reflexivity.
  simpl in Hx. apply Qlt_bool_iff in Hx.
  cbn [neqb]. rewrite Qeq_bool_false by lra. reflexivity.
Qed.

Lemma calculate_risk_score_range (risk_pct position portfolio : num) :
  exists score,
    RiskAssessmentEngine.calculate_risk_score risk_pct position portfolio
      = Some score /\
    (Fin 50 <=? score)%num = true /\ (score <=? Fin 100)%num = true /\
    RiskAssessmentEngine.get_risk_level score <> "Low Risk".
Proof.
  unfold RiskAssessmentEngine.calculate_risk_score. cbv zeta.
  destruct (portfolio >? Fin 0)%num eqn:Hp;
    [rewrite (py_div_guarded _ _ Hp)|]; cbn [mbind option_bind];
    destruct (risk_pct >? Fin 0.05)%num, (risk_pct >? Fin 0.03)%num,
      (_ >? Fin 15)%num;
    eexists; (split; [reflexivity|]); vm_compute; repeat split; congruence.
Qed.

(** What [assess_trade_risk] returns, step by step. *)
Lemma assess_trade_risk_steps (signal portfolio : gmap string num) :
  let entry_price := default (Fin 0) (signal !! "entry_price") in
  let stop_loss := default (Fin 0) (signal !! "stop_loss") in
  let portfolio_value := default (Fin 100000) (portfolio !! "total_value") in
  let distance := nabs (entry_price - stop_loss)%num in
  let risk_per_trade :=
    if (entry_price >? Fin 0)%num then (distance / entry_price)%num
    else Fin 0 in
  let shares :=
    if (distance >? Fin 0)%num
    then (portfolio_value * Fin 0.02 / distance)%num else Fin 0 in
  let position :=
    py_min (shares * entry_price)%num (portfolio_value * Fin 0.2)%num in
  exists a,
    RiskAssessmentEngine.assess_trade_risk signal portfolio = Some a /\
    RiskAssessmentEngine.position_size a = position /\
    RiskAssessmentEngine.recommended_size a = position /\
    RiskAssessmentEngine.risk_level a =
      RiskAssessmentEngine.get_risk_level (RiskAssessmentEngine.risk_score a) /\
    RiskAssessmentEngine.calculate_risk_score risk_per_trade position
      portfolio_value = Some (RiskAssessmentEngine.risk_score a).
Proof.
  cbv zeta. unfold RiskAssessmentEngine.assess_trade_risk.
  set (e := default (Fin 0) (signal !! "entry_price")).
  set (s := default (Fin 0) (signal !! "stop_loss")).
  set (pv := default (Fin 100000) (portfolio !! "total_value")).
  cbv zeta.
  destruct (e >? Fin 0)%num eqn:He;
    [rewrite !(py_div_guarded _ _ He)|]; cbn [mbind option_bind];
    (destruct (nabs (e - s) >? Fin 0)%num eqn:Hd;
     [rewrite (py_div_guarded _ _ Hd)|]; cbn [mbind option_bind]);
    match goal with
    | |- context [RiskAssessmentEngine.calculate_risk_score ?r ?p ?v] =>
        destruct (calculate_risk_score_range r p v) as (score & Hs & _)
    end;
    rewrite Hs; cbn [mbind option_bind];
    repeat match goal with
           | H : (?x >? Fin 0)%num = true |- context [py_div _ ?x] =>
               rewrite (py_div_guarded _ _ H); cbn [mbind option_bind]
           end;
    eexists; (split; [reflexivity|]);
    cbn [RiskAssessmentEngine.position_size
         RiskAssessmentEngine.recommended_size
         RiskAssessmentEngine.risk_level RiskAssessmentEngine.risk_score];
    repeat split; reflexivity.
Qed.

(** X11.  [assess_trade_risk] answers on every signal and portfolio
    that map their keys to floats: each of its divisions is guarded, none
    raises, also when the stop sits on the entry price or the entry price is
    0, negative, infinite, not a number or missing.  The risk score lies
    between 50 and 100, and the risk level is never "Low Risk".  (A Python
    integer beyond the range of the doubles is no float: converting it
    raises [OverflowError].) *)
Theorem assess_trade_risk_answers (signal portfolio : gmap string num) :
  exists a,
    RiskAssessmentEngine.assess_trade_risk signal portfolio = Some a /\
    (Fin 50 <=? RiskAssessmentEngine.risk_score a)%num = true /\
    (RiskAssessmentEngine.risk_score a <=? Fin 100)%num = true /\
    RiskAssessmentEngine.risk_level a <> "Low Risk".
Proof.
  destruct (assess_trade_risk_steps signal portfolio)
    as (a & Ha & _ & _ & Hlevel & Hscore).
  match type of Hscore with
  | RiskAssessmentEngine.calculate_risk_score ?r ?p ?v = _ =>
      destruct (calculate_risk_score_range r p v)
        as (score & Hs & H50 & H100 & Hl)
  end.
  rewrite Hs in Hscore. injection Hscore as Hsc.
  exists a. rewrite Hlevel, <- Hsc. auto.
Qed.

Lemma risk_score_high (risk_pct position portfolio score : num) :
  RiskAssessmentEngine.calculate_risk_score risk_pct position portfolio
    = Some score ->
  (risk_pct >? Fin 0.05)%num = true \/
  ((portfolio >? Fin 0)%num = true /\
   (position / portfolio * Fin 100 >? Fin 15)%num = true) ->
  RiskAssessmentEngine.get_risk_level score = "High Risk".
Proof.
  unfold RiskAssessmentEngine.calculate_risk_score. cbv zeta.
  destruct (portfolio >? Fin 0)%num eqn:Hp;
    [rewrite (py_div_guarded _ _ Hp)|]; cbn [mbind option_bind];
    destruct (risk_pct >? Fin 0.05)%num eqn:H1,
      (risk_pct >? Fin 0.03)%num eqn:H2;
    try destruct (position / portfolio * Fin 100 >? Fin 15)%num eqn:H3;
    intros [= <-] [Hr|[Hq Hr]]; try reflexivity; try discriminate.
Qed.

Lemma ordinary_positive (q : Q) : ordinary q -> (0 < q)%Q.
Proof.
  intros [Hlo _]. assert (H0 : (0 < 1 # 10 ^ 100)%Q) by reflexivity. lra.
Qed.

(** X12.  The engine rates every trade of ordinary size "High Risk":
    with an entry price and a portfolio value between [10^-100] and
    [10^100] and a stop between 0 and [10^100] that is off the entry, either
    the stop is more than 5% away, which adds 30 to the base score of 50, or
    it is closer, and then the 2% risk budget buys about twice the cap of
    20% of the portfolio or more, a share above 15% that adds 20.  (The
    bounds keep the budget, the number of shares and the cap away from
    underflow; the margins, 0.4 against 0.2 and 20 against 15, are far wider
    than a rounding.) *)
Theorem ordinary_trade_rated_high (signal portfolio : gmap string num)
    (e sl pv : Q) (a : RiskAssessmentEngine.Assessment) :
  default (Fin 0) (signal !! "entry_price") = Fin e ->
  default (Fin 0) (signal !! "stop_loss") = Fin sl ->
  default (Fin 100000) (portfolio !! "total_value") = Fin pv ->
  ordinary e -> (0 <= sl)%Q -> (sl <= inject_Z (10 ^ 100))%Q ->
  ~ (sl == e)%Q -> ordinary pv ->
  RiskAssessmentEngine.assess_trade_risk signal portfolio = Some a ->
  RiskAssessmentEngine.risk_level a = "High Risk".
Proof.
  intros He Hsl Hpv Heo _ _ Hne Hpvo Ha.
  pose proof (ordinary_positive e Heo) as He0.
  pose proof (ordinary_positive pv Hpvo) as Hpv0.
  destruct (assess_trade_risk_steps signal portfolio)
    as (a' & Ha' & _ & _ & Hlevel & Hscore).
  rewrite Ha in Ha'. injection Ha' as <-.
  rewrite Hlevel. apply (risk_score_high _ _ _ _ Hscore).
  rewrite He, Hsl, Hpv. cbn [nsub nneg nadd nabs].
  set (d := Qabs (e + - sl)).
  assert (Hd : (0 < d)%Q).
  { unfold d. pose proof (Qabs_nonneg (e + - sl)) as Hn.
    destruct (Qeq_dec (Qabs (e + - sl)) 0) as [Hz|Hz]; [|lra].
    exfalso. apply Hne. revert Hz. apply Qabs_case; intros; lra. }
  assert (Ee : (Fin 0 <? Fin e)%num = true) by now apply nlt_Fin.
  assert (Ed : (Fin 0 <? Fin d)%num = true) by now apply nlt_Fin.
  assert (Ev : (Fin 0 <? Fin pv)%num = true) by now apply nlt_Fin.
  unfold ngt. rewrite Ee, Ed, Ev.
  cbn [nmul]. rewrite !ndiv_Fin by lra. cbn [nmul].
  destruct (Qlt_le_dec 0.05 (d / e)) as [Hfar|Hnear].
  - left. now apply nlt_Fin.
  - right. split; [reflexivity|].
    assert (Hde : (d <= 0.05 * e)%Q).
    { assert (E : (d == d / e * e)%Q) by (field; lra).
      rewrite E. apply Qmult_le_compat_r; lra. }
    assert (Hk : (0 < / d)%Q) by now apply Qinv_lt_0_compat.
    assert (Hek : (20 <= e * / d)%Q).
    { assert (E : (20 == 20 * d * / d)%Q) by (field; lra).
      rewrite E. apply Qmult_le_compat_r; lra. }
    assert (Hcap : (pv * 0.2 < pv * 0.02 / d * e)%Q).
    { unfold Qdiv.
      assert (E : (pv * 0.02 * / d * e == pv * 0.02 * (e * / d))%Q) by ring.
      rewrite E. nra. }
    unfold py_min.
    rewrite (proj2 (nlt_Fin _ _) Hcap).
    rewrite ndiv_Fin by lra. cbn [nmul]. apply nlt_Fin.
    assert (E : (pv * 0.2 / pv * 100 == 20)%Q) by (field; lra).
    rewrite E. reflexivity.
Qed.

(** The request the endpoint completes by default: entry 100, stop 98,
    on the portfolio of 100,000. *)
Lemma ordinary_trade_rated_high_witness :
  exists a, assess_risk_endpoint ∅ = Some a /\
            RiskAssessmentEngine.risk_level a = "High Risk".
Proof.
  destruct (assess_trade_risk_steps
              {[ "entry_price" := Fin 100; "stop_loss" := Fin 98 ]}
              {[ "total_value" := Fin 100000 ]}) as (a & Ha & _).
  exists a. split; [exact Ha|].
  apply (ordinary_trade_rated_high
           {[ "entry_price" := Fin 100; "stop_loss" := Fin 98 ]}
           {[ "total_value" := Fin 100000 ]} 100 98 100000 a);
    try reflexivity; try exact Ha;
    try (split; unfold Qle; vm_compute; discriminate);
    try (unfold Qle; vm_compute; discriminate);
    try (unfold Qeq; vm_compute; discriminate).
Defined.




(** ** Pattern prediction *)

Lemma length_tail_rows {A : Type} (n : nat) (l : list A) :
  length (tail_rows n l) = Nat.min n (length l).
Proof. unfold tail_rows. rewrite length_drop. lia. Qed.

Lemma filter_notna_short (l : Series) :
  Exists (fun x => notna x = false) l ->
  (length (List.filter notna l) < length l)%nat.
Proof.
  induction 1 as [x l Hx|x l _ IH]; simpl.
  - rewrite Hx. pose proof (List.filter_length_le notna l). lia.
  - destruct (notna x); simpl; [lia|].
    pose proof (List.filter_length_le notna l). lia.
Qed.

(** The two averages [predict_next_move] compares on a frame of at least
    20 rows. *)
Lemma predict_averages (data : DataFrame) :
  (20 <= length data)%nat ->
  let closes := col close (tail_rows 20 data) in
  last (rolling agg_mean 5 closes) =
    Some (let obs := List.filter notna (drop 15 closes) in
          if (length obs <? 5)%nat then NaN else agg_mean obs) /\
  last (rolling agg_mean 20 closes) =
    Some (let obs := List.filter notna closes in
          if (length obs <? 20)%nat then NaN else agg_mean obs) /\
  exists c, iloc_last closes = Ok c.
Proof.
  intros Hlen closes.
  assert (Hc : length closes = 20%nat).
  { unfold closes. rewrite length_col, length_tail_rows. lia. }
  rewrite (last_rolling agg_mean 5 closes 19 Hc).
  rewrite (last_rolling agg_mean 20 closes 19 Hc).
  repeat split. apply iloc_last_ok. intros E. now rewrite E in Hc.
Qed.

(** X14.  [predict_next_move] answers on every frame, the empty one
    included; the answer is "INSUFFICIENT_DATA" exactly when the frame has
    fewer than 20 rows, and the answer for a frame is the answer for its
    last 20 rows. *)
Theorem predict_next_move_answers (data : DataFrame) :
  exists p,
    PatternPredictionModel.predict_next_move data = Ok p /\
    (PatternPredictionModel.prediction p = "INSUFFICIENT_DATA" <->
     (length data < 20)%nat) /\
    PatternPredictionModel.predict_next_move (tail_rows 20 data) = Ok p.
Proof.
  unfold PatternPredictionModel.predict_next_move.
  destruct (Nat.ltb_spec (length data) 20) as [Hlt|Hge].
  - eexists. split; [reflexivity|]. split; [now split|].
    unfold tail_rows at 1.
    replace (length data - 20)%nat with 0%nat by lia.
    rewrite drop_0.
    destruct (Nat.ltb_spec (length data) 20); [reflexivity|lia].
  - assert (Ht : tail_rows 20 (tail_rows 20 data) = tail_rows 20 data).
    { unfold tail_rows at 1. rewrite length_tail_rows.
      replace (Nat.min 20 (length data) - 20)%nat with 0%nat by lia.
      apply drop_0. }
    rewrite length_tail_rows, Ht.
    destruct (Nat.ltb_spec (Nat.min 20 (length data)) 20); [lia|].
    destruct (predict_averages data Hge) as (H5 & H20 & c & Hc).
    cbv zeta in H5, H20.
    rewrite Hc, (iloc_last_some _ _ H5), (iloc_last_some _ _ H20).
    cbn [bind].
    destruct (_ >? _)%num; [|destruct (_ <? _)%num];
      (eexists; split; [reflexivity|]; split; [|reflexivity];
       cbn [PatternPredictionModel.prediction]; split; [discriminate|lia]).
Qed.

(** X16.  A missing close among the last 20 rows leaves the 20-row mean
    undefined, no comparison with it is true, and the prediction is
    "SIDEWAYS" with probability 0.60. *)
Theorem predict_missing_close_sideways (data : DataFrame) :
  (20 <= length data)%nat ->
  Exists (fun r => notna (close r) = false) (tail_rows 20 data) ->
  exists p,
    PatternPredictionModel.predict_next_move data = Ok p /\
    PatternPredictionModel.prediction p = "SIDEWAYS" /\
    PatternPredictionModel.probability p = Fin 0.60.
Proof.
  intros Hlen Hmiss.
  unfold PatternPredictionModel.predict_next_move.
  destruct (Nat.ltb_spec (length data) 20); [lia|].
  destruct (predict_averages data Hlen) as (H5 & H20 & c & Hc).
  cbv zeta in H5, H20.
  assert (Hshort : (length (List.filter notna (col close (tail_rows 20 data)))
                    < 20)%nat).
  { assert (Hlen20 : length (col close (tail_rows 20 data)) = 20%nat)
      by (rewrite length_col, length_tail_rows; lia).
    rewrite <- Hlen20 at 2. apply filter_notna_short.
    unfold col. apply List.Exists_map.
    apply List.Exists_exists. apply Exists_exists in Hmiss.
    destruct Hmiss as (r & Hr & Hna). exists r.
    split; [now apply list_elem_of_In|exact Hna]. }
  destruct (Nat.ltb_spec
              (length (List.filter notna (col close (tail_rows 20 data)))) 20)
    as [_|Hge] in H20; [|lia].
  rewrite Hc, (iloc_last_some _ _ H5), (iloc_last_some _ _ H20).
  cbn [bind]. unfold ngt. rewrite nlt_nan_r. cbn [nlt].
  eexists. repeat split.
Qed.

(** Twenty bars, the last of which has no close. *)
Lemma predict_missing_close_sideways_witness :
  exists p,
    PatternPredictionModel.predict_next_move
      (flat_bars 19 100 1 ++
         [{| date := 19; open := Fin 100; high := Fin 100; low := Fin 100;
             close := NaN; volume := Fin 1 |}])%list = Ok p /\
    PatternPredictionModel.prediction p = "SIDEWAYS" /\
    PatternPredictionModel.probability p = Fin 0.60.
Proof.
  apply predict_missing_close_sideways.
  - vm_compute. lia.
  - apply List.Exists_exists. eexists.
    split; [apply in_or_app; right; now left|reflexivity].
Defined.

(** * Further properties of the application *)

(** ** The generated frame *)

Lemma uniform_range (a b : Q) (g : rng) (u : Q) (g' : rng) :
  (a <= b)%Q -> unit_draws g -> uniform a b g = (u, g') ->
  (a <= u)%Q /\ (u <= b)%Q /\ unit_draws g'.
Proof.
  intros Hab Hg. unfold uniform, random. intros [= <- <-].
  destruct (Hg 0%nat) as [H0 H1].
  repeat split; [nra|nra|apply (unit_draws_tail g Hg)..].
Qed.

Lemma randint_range (a b : Z) (g : rng) (v : Z) (g' : rng) :
  (a <= b)%Z -> unit_draws g -> randint a b g = (v, g') ->
  (a <= v <= b)%Z /\ unit_draws g'.
Proof.
  intros Hab Hg. unfold randint, random. intros [= <- <-].
  split; [|now apply unit_draws_tail].
  destruct (Hg 0%nat) as [H0 H1].
  set (n := (b - a + 1)%Z).
  assert (Hn : (0 < inject_Z n)%Q).
  { change 0%Q with (inject_Z 0). rewrite <- Zlt_Qlt. unfold n. lia. }
  assert (Hlo : (0 <= g 0%nat * inject_Z n)%Q) by nra.
  assert (Hhi : (g 0%nat * inject_Z n < inject_Z n)%Q) by nra.
  pose proof (Qfloor_le (g 0%nat * inject_Z n)) as Hf1.
  pose proof (Qlt_floor (g 0%nat * inject_Z n)) as Hf2.
  assert (Hge : (0 < Qfloor (g 0%nat * inject_Z n) + 1)%Z).
  { rewrite Zlt_Qlt. change (inject_Z 0) with 0%Q. lra. }
  assert (Hlt : (Qfloor (g 0%nat * inject_Z n) < n)%Z).
  { rewrite Zlt_Qlt. lra. }
  subst n.
  change (a <= a + Qfloor (g 0%nat * inject_Z (b - a + 1)) <= b)%Z. lia.
Qed.

Lemma comprehension_rel {A B : Type} (f : A -> rng -> B * rng)
    (P : A -> Prop) (R : A -> B -> Prop) :
  (forall x g y g', P x -> unit_draws g -> f x g = (y, g') ->
                    R x y /\ unit_draws g') ->
  forall l g ys g', Forall P l -> unit_draws g ->
    comprehension f l g = (ys, g') ->
    Forall2 R l ys /\ unit_draws g'.
Proof.
  intros Hf. induction l as [|x l IH]; intros g ys g' Hl Hg; simpl.
  - intros [= <- <-]. split; [constructor|assumption].
  - destruct (f x g) as [y g1] eqn:E1.
    destruct (comprehension f l g1) as [ys' g2] eqn:E2.
    intros [= <- <-].
    apply Forall_cons in Hl. destruct Hl as [Hx Hl].
    destruct (Hf x g y g1 Hx Hg E1) as [Hy Hg1].
    destruct (IH g1 ys' g2 Hl Hg1 E2) as (Hys & Hg2).
    split; [now constructor|assumption].
Qed.

Lemma scale_within (lo hi : Q) (p : Q) (g : rng) (y : Q) (g' : rng) :
  (lo <= hi)%Q -> (0 < p)%Q -> unit_draws g ->
  (let '(u, g) := uniform lo hi g in ((p * u)%Q, g)) = (y, g') ->
  ((lo * p <= y)%Q /\ (y <= hi * p)%Q) /\ unit_draws g'.
Proof.
  intros Hhi Hp Hg.
  destruct (uniform lo hi g) as [u g1] eqn:E. intros [= <- <-].
  destruct (uniform_range lo hi g u g1 Hhi Hg E) as (Hlo & Hup & Hg1).
  repeat split; [nra|nra|apply Hg1..].
Qed.

Lemma frame_sample_bars (opens : list Q) :
  forall dates highs lows closes volumes,
  Forall (fun o => (0 < o)%Q) opens ->
  Forall2 (fun o h => (1.0 * o <= h)%Q /\ (h <= 1.03 * o)%Q) opens highs ->
  Forall2 (fun o l => (0.97 * o <= l)%Q /\ (l <= 1.0 * o)%Q) opens lows ->
  Forall2 (fun o c => (0.98 * o <= c)%Q /\ (c <= 1.02 * o)%Q) opens closes ->
  Forall (fun v => (1000000 <= v <= 5000000)%Z) volumes ->
  Forall sample_bar (frame dates opens highs lows closes volumes).
Proof.
  induction opens as [|o opens IH];
    intros dates highs lows closes volumes Ho Hh Hl Hc Hv.
  - destruct dates; constructor.
  - inversion Ho as [|? ? Ho1 Ho2]; subst.
    inversion Hh as [|? h ? highs' [Hh1 Hh2] Hh3]; subst.
    inversion Hl as [|? l ? lows' [Hl1 Hl2] Hl3]; subst.
    inversion Hc as [|? c ? closes' [Hc1 Hc2] Hc3]; subst.
    destruct dates as [|d dates]; [constructor|].
    destruct volumes as [|v volumes]; [constructor|].
    inversion Hv as [|? ? Hv1 Hv2]; subst.
    cbn [frame]. constructor; [|now apply IH].
    exists o, h, l, c, v. cbn [open high low close volume].
    repeat split; try reflexivity; try lra; lia.
Qed.

Lemma frame_dates (dates : list Z) :
  forall opens highs lows closes volumes,
  length opens = length dates -> length highs = length dates ->
  length lows = length dates -> length closes = length dates ->
  length volumes = length dates ->
  List.map date (frame dates opens highs lows closes volumes) = dates.
Proof.
  induction dates as [|d dates IH];
    intros [|o opens] [|h highs] [|l lows] [|c closes] [|v volumes];
    simpl; intros; try discriminate; try reflexivity.
  f_equal. apply IH; lia.
Qed.

(** The frame of a request for [S n] days, and the generator after
    it. *)
Lemma generate_sample_data_rows (symbol : string) (n : nat) (today : Z)
    (g : rng) :
  unit_draws g ->
  exists data g',
    generate_sample_data symbol (S n) today g = (Ok data, g') /\
    List.map date data =
      List.map (fun k => (today - Z.of_nat (S n - 1 - k))%Z) (seq 0 (S n)) /\
    Forall sample_bar data /\
    unit_draws g'.
Proof.
  intros Hg. unfold generate_sample_data.
  destruct (uniform 50 500 g) as [base g1] eqn:E1.
  assert (Hab : (50 <= 500)%Q) by lra.
  destruct (uniform_lower _ _ _ _ _ Hab Hg E1) as [Hbase Hg1].
  destruct (walk (S n - 1) base g1) as [more g2] eqn:E2.
  assert (Hbase0 : (0 < base)%Q) by lra.
  destruct (walk_positive _ _ _ _ _ Hbase0 Hg1 E2) as (Hmore & Hlen & Hg2).
  assert (Hprices : Forall (fun x => (0 < x)%Q) (base :: more))
    by now constructor.
  destruct (comprehension _ (base :: more) g2) as [highs g3] eqn:E3.
  destruct (comprehension_rel _ _
              (fun o h => (1.0 * o <= h)%Q /\ (h <= 1.03 * o)%Q)
              (fun p g y g' Hp Hg => scale_within 1.0 1.03 p g y g'
                 ltac:(lra) Hp Hg)
              _ _ _ _ Hprices Hg2 E3) as (Hhighs & Hg3).
  destruct (comprehension _ (base :: more) g3) as [lows g4] eqn:E4.
  destruct (comprehension_rel _ _
              (fun o l => (0.97 * o <= l)%Q /\ (l <= 1.0 * o)%Q)
              (fun p g y g' Hp Hg => scale_within 0.97 1.0 p g y g'
                 ltac:(lra) Hp Hg)
              _ _ _ _ Hprices Hg3 E4) as (Hlows & Hg4).
  destruct (comprehension _ (base :: more) g4) as [closes g5] eqn:E5.
  destruct (comprehension_rel _ _
              (fun o c => (0.98 * o <= c)%Q /\ (c <= 1.02 * o)%Q)
              (fun p g y g' Hp Hg => scale_within 0.98 1.02 p g y g'
                 ltac:(lra) Hp Hg)
              _ _ _ _ Hprices Hg4 E5) as (Hcloses & Hg5).
  destruct (comprehension _ (seq 0 (S n)) g5) as [volumes g6] eqn:E6.
  destruct (comprehension_rel (fun (_ : nat) g => randint 1000000 5000000 g)
              (fun _ => True)
              (fun _ v => (1000000 <= v <= 5000000)%Z)
              (fun x g y g' _ Hg E =>
                 randint_range 1000000 5000000 g y g' ltac:(lia) Hg E)
              (seq 0 (S n)) g5 volumes g6
              (Forall_true _ _ (fun _ => I)) Hg5 E6) as (Hvolumes & Hg6).
  rewrite List.length_map, length_seq. simpl length. rewrite Hlen.
  replace (S n =? S (S n - 1))%nat with true
    by (symmetry; apply Nat.eqb_eq; lia).
  eexists. eexists. split; [reflexivity|].
  split; [|split; [|exact Hg6]].
  - apply frame_dates; rewrite List.length_map, length_seq; simpl;
      rewrite <- ?(Forall2_length _ _ _ Hhighs),
        <- ?(Forall2_length _ _ _ Hlows),
        <- ?(Forall2_length _ _ _ Hcloses),
        <- ?(Forall2_length _ _ _ Hvolumes); simpl;
      rewrite ?Hlen, ?length_seq; lia.
  - apply frame_sample_bars; trivial.
    clear -Hvolumes. induction Hvolumes; constructor; trivial.
Qed.

(** X17.  From a generator that keeps its promise, a request for a
    positive number of days yields a frame of that many rows, dated day by
    day up to today, in which every row has a positive open between its low
    and its high (each within 3% of it), a close within 2% of the open, and
    a volume between one and five million; a request for no day fails on
    the frame constructor. *)
Theorem generated_frame_rows (symbol : string) (days : nat) (today : Z)
    (g : rng) :
  unit_draws g ->
  match days with
  | O => exists msg,
      fst (generate_sample_data symbol days today g) = Raise (ValueError msg)
  | S _ => exists data,
      fst (generate_sample_data symbol days today g) = Ok data /\
      List.map date data =
        List.map (fun k => (today - Z.of_nat (days - 1 - k))%Z) (seq 0 days) /\
      Forall sample_bar data
  end.
Proof.
  intros Hg. destruct days as [|n].
  - unfold generate_sample_data.
    destruct (uniform 50 500 g) as [base g1]. cbn [Nat.sub walk].
    repeat match goal with
           | |- context [comprehension ?f ?l ?r] =>
               destruct (comprehension f l r)
           end.
    eexists. reflexivity.
  - destruct (generate_sample_data_rows symbol n today g Hg)
      as (data & g' & E & Hdates & Hbars & _).
    exists data. rewrite E. now split.
Qed.

(** A hundred days from the generator that draws one half each time. *)
Lemma generated_frame_rows_witness :
  exists data,
    fst (generate_sample_data "AAPL" 100 0 draws_half) = Ok data /\
    List.map date data =
      List.map (fun k => (0 - Z.of_nat (100 - 1 - k))%Z) (seq 0 100) /\
    Forall sample_bar data.
Proof.
  apply (generated_frame_rows "AAPL" 100 0 draws_half).
  intros k. split; [discriminate|reflexivity].
Defined.


(** ** What the backtest records *)

(** One iteration of the loop: nothing changes on a hold; otherwise one
    draw is taken and one trade is appended. *)
Lemma backtest_step_cases `{Runtime} (b : bot) symbol data clock
    (st : BacktestState) (i : nat) :
  let signal := step_signal b symbol data clock i in
  (signal_type signal = HOLD /\ backtest_step b symbol data clock st i = st) \/
  (signal_type signal <> HOLD /\
   exists t,
     trades (backtest_step b symbol data clock st i)
       = (trades st ++ [t])%list /\
     generator (backtest_step b symbol data clock st i)
       = (fun k => generator st (S k)) /\
     entry_date t = nth i (List.map date data) 0%Z /\
     trade_type t = value (signal_type signal) /\
     trade_entry_price t = entry_price signal /\
     exit_price t
       = (entry_price signal
            * Fin (0.98 + (1.05 - 0.98) * generator st 0%nat))%num /\
     pnl_percent t
       = ((exit_price t - entry_price signal) / entry_price signal
            * Fin 100)%num).
Proof.
  cbv zeta. unfold backtest_step.
  destruct (negb _) eqn:Hnh.
  - right. split; [now apply hold_value|].
    unfold uniform, random. cbn zeta. cbn [trades generator].
    eexists. split; [reflexivity|]. now repeat split.
  - left. split; [|reflexivity].
    destruct (signal_type _); [discriminate..|reflexivity].
Qed.

Lemma computed_outcome_of_step (e u : Q) (t : Trade) :
  ordinary e ->
  trade_entry_price t = Fin e ->
  exit_price t = (Fin e * Fin (0.98 + (1.05 - 0.98) * u))%num ->
  pnl_percent t = ((exit_price t - Fin e) / Fin e * Fin 100)%num ->
  computed_outcome u t.
Proof.
  intros Heo Hentry Hexit Hpnl. rewrite Hexit in Hpnl.
  pose proof (ordinary_positive e Heo) as He.
  cbn [nmul nsub nadd nneg] in Hexit, Hpnl.
  rewrite ndiv_Fin in Hpnl by lra. cbn [nmul] in Hpnl.
  eexists _, _, _. split; [exact Hentry|]. split; [exact Hexit|].
  split; [exact Hpnl|]. split; [exact Heo|]. split; [ring|field; lra].
Qed.

(** A signal that is not a hold, on a frame of ordinary closes, enters at
    a price of ordinary magnitude. *)
Lemma trade_entry_ordinary `{Runtime} (b : bot) symbol data md now :
  ordinary_closes data ->
  signal_type (analyze b symbol data md now) <> HOLD ->
  exists e, entry_price (analyze b symbol data md now) = Fin e /\ ordinary e.
Proof.
  intros Hdata Hnh.
  destruct (analyze_cases b symbol data md now)
    as [[_ (Ht & _)]|(latest & d & ind & Hlast & _ & E)]; [congruence|].
  rewrite E, build_signal_entry.
  apply last_Some_elem_of in Hlast.
  unfold ordinary_closes in Hdata. rewrite Forall_forall in Hdata.
  now apply Hdata.
Qed.

Lemma backtest_fold_outcomes `{Runtime} (b : bot) symbol data clock (g : rng)
    (steps : list nat) :
  ordinary_closes data ->
  forall st,
  (forall j, generator st j = g (length (trades st) + j)%nat) ->
  (forall k t, trades st !! k = Some t -> computed_outcome (g k) t) ->
  let st' := fold_left (backtest_step b symbol data clock) steps st in
  forall k t, trades st' !! k = Some t -> computed_outcome (g k) t.
Proof.
  intros Hdata. induction steps as [|i steps IH]; intros st Hgen Hlog.
  - exact Hlog.
  - simpl. apply IH.
    + destruct (backtest_step_cases b symbol data clock st i)
        as [[_ ->]|(_ & t & Ht & Hg' & _)]; [exact Hgen|].
      intros j. rewrite Hg', Ht, Hgen, length_app. simpl. f_equal. lia.
    + destruct (backtest_step_cases b symbol data clock st i)
        as [[_ ->]|(Hnh & t & Ht & _ & _ & _ & Hentry & Hexit & Hpnl)];
        [exact Hlog|].
      intros k t'. rewrite Ht. intros Hk.
      apply lookup_snoc_Some in Hk. destruct Hk as [[_ Hk]|[-> <-]].
      * now apply Hlog.
      * destruct (trade_entry_ordinary b symbol (take i data) ∅ (clock i)
                    (Forall_take _ i data Hdata) Hnh)
          as (e & He & Heo).
        unfold step_signal in Hentry, Hexit, Hpnl.
        rewrite He in Hentry, Hexit, Hpnl.
        rewrite Hgen, Nat.add_0_r in Hexit.
        now apply (computed_outcome_of_step e).
Qed.

Lemma computed_outcome_drawn (u : Q) (t : Trade) :
  computed_outcome u t -> drawn_outcome u t.
Proof.
  intros (e & x & p & He & Hx & Hp & Heo & Ex & Ep).
  pose proof (ordinary_positive e Heo) as He0.
  exists e, x, p. split; [exact He|]. split; [exact Hx|].
  split; [exact Hp|]. split; [exact Heo|].
  assert (Ex0 : (x - e * (0.98 + 0.07 * u) == 0)%Q) by (rewrite Ex; ring).
  assert (Ep0 : (p - (7 * u - 2) == 0)%Q) by (rewrite Ep; ring).
  rewrite Ex0, Ep0. change (Qabs 0) with 0%Q.
  split; [|discriminate].
  apply Qmult_le_0_compat; [lra|discriminate].
Qed.

(** X18.  On a frame whose closes are of ordinary magnitude (between
    [10^-100] and [10^100]), with draws in [0, 1), the [k]-th trade of the
    log is decided by the [k]-th draw [u] alone, whichever bot traded,
    whatever the prices and whether the signal was a buy or a sell: up to
    rounding (a margin of [10^-9]) it exits at the entry price times
    [0.98 + 0.07 u] and records [7 u - 2] percent.  It is a winning trade
    whenever the draw is 0.29 or more and a losing one whenever the draw is
    0.28 or less; the break-even draw is 2/7. *)
Theorem backtest_outcome_is_the_draw `{Runtime} (b : bot) (symbol : string)
    (data : DataFrame) (clock : nat -> Z) (g : rng) (k : nat) (t : Trade) :
  ordinary_closes data -> unit_draws g ->
  trades (backtest_loop b symbol data clock g) !! k = Some t ->
  drawn_outcome (g k) t /\
  ((0.29 <= g k)%Q -> (pnl_percent t >? Fin 0)%num = true) /\
  ((g k <= 0.28)%Q -> (pnl_percent t <? Fin 0)%num = true).
Proof.
  intros Hdata _ Hk.
  assert (Ho : computed_outcome (g k) t).
  { revert k t Hk. unfold backtest_loop.
    apply backtest_fold_outcomes; cbn [trades generator]; trivial.
    intros k t Hk. now rewrite lookup_nil in Hk. }
  split; [now apply computed_outcome_drawn|].
  destruct Ho as (e & x & p & _ & _ & -> & _ & _ & Hp).
  unfold ngt. rewrite !nlt_Fin, Hp. split; intros; lra.
Qed.

Lemma wide_bars_ordinary : ordinary_closes wide_bars.
Proof.
  unfold ordinary_closes, wide_bars. apply List.Forall_map.
  apply List.Forall_forall. intros k _. exists 100%Q.
  split; [reflexivity|]. split; unfold Qle; vm_compute; discriminate.
Qed.

(** The one trade of the arbitrage bot on the 21 wide bars, with a draw of
    one half: up 1.5%. *)
Lemma backtest_outcome_is_the_draw_witness :
  exists t,
    trades (@backtest_loop plain_runtime crypto_arbitrage_bot "AAPL" wide_bars
              clock_zero draws_half) !! 0%nat = Some t /\
    drawn_outcome (draws_half 0%nat) t /\
    ((0.29 <= draws_half 0%nat)%Q -> (pnl_percent t >? Fin 0)%num = true) /\
    ((draws_half 0%nat <= 0.28)%Q -> (pnl_percent t <? Fin 0)%num = true).
Proof.
  eexists. split; [vm_compute; reflexivity|].
  apply (@backtest_outcome_is_the_draw plain_runtime crypto_arbitrage_bot
           "AAPL" wide_bars clock_zero draws_half 0).
  - exact wide_bars_ordinary.
  - intros k. split; [discriminate|reflexivity].
  - vm_compute. reflexivity.
Defined.

(** ** Which rows a trade comes from *)

Lemma value_buy_or_sell (t : SignalType) :
  t <> HOLD -> value t = "buy" \/ value t = "sell".
Proof. destruct t; [now left|now right|congruence]. Qed.

(** A signal that is not a hold enters at the close of the last row of its
    window. *)
Lemma trade_entry_latest `{Runtime} (b : bot) symbol data md now :
  signal_type (analyze b symbol data md now) <> HOLD ->
  exists latest,
    last data = Some latest /\
    entry_price (analyze b symbol data md now) = close latest.
Proof.
  intros Hnh.
  destruct (analyze_cases b symbol data md now)
    as [[_ (Ht & _)]|(latest & d & ind & Hlast & _ & E)]; [congruence|].
  exists latest. split; [exact Hlast|]. now rewrite E, build_signal_entry.
Qed.

Lemma last_take_lookup {A : Type} (i : nat) (l : list A) (x : A) :
  (i <= length l)%nat -> last (take i l) = Some x ->
  l !! (i - 1)%nat = Some x.
Proof.
  intros Hi. rewrite last_lookup, length_take.
  replace (i `min` length l)%nat with i by lia.
  destruct i as [|i]; [now rewrite take_0|].
  simpl. rewrite Nat.sub_0_r. rewrite lookup_take_Some. now intros [? _].
Qed.

Lemma backtest_fold_rows `{Runtime} (b : bot) symbol data clock
    (steps : list nat) :
  Forall (fun i => (20 <= i < length data)%nat) steps ->
  forall st,
  Forall (priced_before_dated data) (trades st) ->
  Forall (priced_before_dated data)
    (trades (fold_left (backtest_step b symbol data clock) steps st)).
Proof.
  induction 1 as [|i steps Hi _ IH]; intros st Hlog; [exact Hlog|].
  simpl. apply IH.
  destruct (backtest_step_cases b symbol data clock st i)
    as [[_ ->]|(Hnh & t & -> & _ & Hdate & Htype & Hentry & _)];
    [exact Hlog|].
  apply Forall_app. split; [exact Hlog|]. apply Forall_singleton.
  destruct (trade_entry_latest b symbol (take i data) ∅ (clock i) Hnh)
    as (r & Hlast & Hprice).
  destruct (lookup_lt_is_Some_2 data i ltac:(lia)) as [r' Hr'].
  exists i, r, r'. split; [lia|].
  split; [apply last_take_lookup; [lia|exact Hlast]|].
  split; [exact Hr'|]. split; [now rewrite Hentry|]. split.
  - rewrite Hdate. apply nth_lookup_Some with (d := 0%Z).
    now rewrite list_lookup_fmap, Hr'.
  - rewrite Htype. now apply value_buy_or_sell.
Qed.

Lemma backtest_steps_in_range (n : nat) :
  Forall (fun i => (20 <= i < n)%nat) (seq 20 (n - 20)).
Proof. apply List.Forall_forall. intros i Hi. apply in_seq in Hi. lia. Qed.

(** X19.  Every trade of a backtest log is a buy or a sell, priced at the
    close of one row of the frame and dated with the row after it; the
    dated row is row 20 or later, so the first 20 rows date no trade. *)
Theorem trade_priced_before_dated `{Runtime} (b : bot) (symbol : string)
    (data : DataFrame) (clock : nat -> Z) (g : rng) :
  Forall (priced_before_dated data)
    (trades (backtest_loop b symbol data clock g)).
Proof.
  unfold backtest_loop. apply backtest_fold_rows.
  - apply backtest_steps_in_range.
  - constructor.
Qed.

(** ** How many trades *)

Lemma backtest_fold_count `{Runtime} (b : bot) symbol data clock
    (steps : list nat) (st : BacktestState) :
  (length (trades (fold_left (backtest_step b symbol data clock) steps st))
   <= length (trades st) + length steps)%nat.
Proof.
  revert st. induction steps as [|i steps IH]; intros st; simpl; [lia|].
  etransitivity; [apply IH|].
  destruct (backtest_step_cases b symbol data clock st i)
    as [[_ ->]|(_ & t & -> & _)]; [lia|].
  rewrite length_app. simpl. lia.
Qed.

(** X20.  A run over a positive number of days, from a generator that
    keeps its promise, records at most [days - 20] trades; over 20 days or
    fewer it records none and its equity curve is the starting capital
    alone. *)
Theorem run_backtest_trade_count `{Runtime} (b : bot) (symbol : string)
    (days : nat) (today : Z) (clock : nat -> Z) (g : rng) :
  (0 < days)%nat -> unit_draws g ->
  exists st,
    run_backtest b symbol days today clock g = Ok st /\
    (length (trades st) <= days - 20)%nat /\
    ((days <= 20)%nat ->
     trades st = [] /\ equity_curve st = [Fin 10000]).
Proof.
  intros Hdays Hg. destruct days as [|n]; [lia|].
  destruct (generate_sample_data_rows symbol n today g Hg)
    as (data & g' & E & Hdates & _ & _).
  assert (Hlen : length data = S n).
  { rewrite <- (List.length_map date data), Hdates.
    now rewrite List.length_map, length_seq. }
  unfold run_backtest. rewrite E. cbn [bind].
  eexists. split; [reflexivity|]. split.
  - unfold backtest_loop.
    etransitivity; [apply backtest_fold_count|].
    cbn [trades length]. rewrite length_seq. lia.
  - intros Hshort. unfold backtest_loop.
    replace (length data - 20)%nat with 0%nat by lia.
    now split.
Qed.

(** Twenty days from the generator that draws one half each time. *)
Lemma run_backtest_trade_count_witness :
  exists st,
    @run_backtest plain_runtime scalping_bot "AAPL" 20 0 clock_zero draws_half
      = Ok st /\
    (length (trades st) <= 20 - 20)%nat /\
    ((20 <= 20)%nat -> trades st = [] /\ equity_curve st = [Fin 10000]).
Proof.
  apply (@run_backtest_trade_count plain_runtime scalping_bot "AAPL" 20 0
           clock_zero draws_half).
  - lia.
  - intros k. split; [discriminate|reflexivity].
Defined.

(** ** Bots that never trade in a backtest *)

Lemma news_holds_without_context `{Runtime} symbol (data : DataFrame) now :
  signal_type (analyze news_sentinel_bot symbol data ∅ now) = HOLD.
Proof.
  destruct (last data) as [latest|] eqn:Hlast.
  2:{ apply last_None in Hlast. now subst data. }
  assert (Hpos : (0 < length data)%nat) by (destruct data; simpl; [easy|lia]).
  unfold analyze, NewsSentinelBot.analyze, NewsSentinelBot.analyze_body,
    NewsSentinelBot.calculate_indicators, volume_ratio_of.
  rewrite (iloc_last_some _ _ Hlast).
  repeat iloc_ok Hpos.
  cbn [try_except]. now rewrite build_signal_type.
Qed.

Lemma backtest_fold_holds `{Runtime} (b : bot) symbol data clock
    (steps : list nat) (st : BacktestState) :
  (forall i, signal_type (step_signal b symbol data clock i) = HOLD) ->
  fold_left (backtest_step b symbol data clock) steps st = st.
Proof.
  intros Hh. induction steps as [|i steps IH]; [reflexivity|].
  simpl. destruct (backtest_step_cases b symbol data clock st i)
    as [[_ ->]|(Hnh & _)]; [exact IH|].
  now destruct Hnh.
Qed.

(** X21.  The backtest loop calls every bot with an empty market context,
    so the news bot never trades in it, and neither does the
    pattern-recognition bot: on every frame both logs are empty and both
    equity curves are the starting capital alone. *)
Theorem contextless_bots_never_trade `{Runtime} (symbol : string)
    (data : DataFrame) (clock : nat -> Z) (g : rng) :
  let news := backtest_loop news_sentinel_bot symbol data clock g in
  let pattern := backtest_loop pattern_recognition_bot symbol data clock g in
  (trades news = [] /\ equity_curve news = [Fin 10000]) /\
  (trades pattern = [] /\ equity_curve pattern = [Fin 10000]).
Proof.
  cbv zeta. unfold backtest_loop.
  rewrite !backtest_fold_holds; [now repeat split|..].
  - intros i. apply pattern_holds.
  - intros i. apply news_holds_without_context.
Qed.


(** ** The prediction endpoint *)

Lemma sample_bar_close (r : bar) :
  sample_bar r -> finite_positive (close r).
Proof.
  intros (o & h & l & c & v & _ & _ & _ & Hc & _ & Ho & _ & _ & _ & _ & Hlo & _).
  exists c. split; [exact Hc|]. lra.
Qed.

(** The answer on a frame of at least 20 rows. *)
Lemma predict_long_frame (data : DataFrame) :
  (20 <= length data)%nat ->
  exists p,
    PatternPredictionModel.predict_next_move data = Ok p /\
    In (PatternPredictionModel.prediction p,
        PatternPredictionModel.probability p)
      [("UP", Fin 0.65); ("DOWN", Fin 0.65); ("SIDEWAYS", Fin 0.60)] /\
    PatternPredictionModel.confidence p = Some "MEDIUM" /\
    PatternPredictionModel.timeframe p = Some "1-5 candles".
Proof.
  intros Hlen. unfold PatternPredictionModel.predict_next_move.
  destruct (Nat.ltb_spec (length data) 20); [lia|].
  destruct (predict_averages data Hlen) as (H5 & H20 & c & Hc).
  cbv zeta in H5, H20.
  rewrite Hc, (iloc_last_some _ _ H5), (iloc_last_some _ _ H20).
  cbn [bind].
  destruct (_ >? _)%num; [|destruct (_ <? _)%num];
    (eexists; split; [reflexivity|]; split; [|split; reflexivity]);
    cbn [PatternPredictionModel.prediction
         PatternPredictionModel.probability In]; auto.
Qed.

(** X22.  From a generator that keeps its promise the prediction endpoint
    always answers, and never with "INSUFFICIENT_DATA": it generates 100
    days, and its answer is "UP" or "DOWN" with probability 0.65 or
    "SIDEWAYS" with probability 0.60, with confidence "MEDIUM" for the
    time frame "1-5 candles". *)
Theorem predict_pattern_answers (symbol : string) (today : Z) (g : rng) :
  unit_draws g ->
  exists p,
    fst (predict_pattern symbol today g) = Ok p /\
    In (PatternPredictionModel.prediction p,
        PatternPredictionModel.probability p)
      [("UP", Fin 0.65); ("DOWN", Fin 0.65); ("SIDEWAYS", Fin 0.60)] /\
    PatternPredictionModel.prediction p <> "INSUFFICIENT_DATA" /\
    PatternPredictionModel.confidence p = Some "MEDIUM" /\
    PatternPredictionModel.timeframe p = Some "1-5 candles".
Proof.
  intros Hg.
  destruct (generate_sample_data_rows symbol 99 today g Hg)
    as (data & g' & E & Hdates & _ & _).
  assert (Hlen : length data = 100%nat).
  { rewrite <- (List.length_map date data), Hdates.
    now rewrite List.length_map, length_seq. }
  destruct (predict_long_frame data ltac:(lia)) as (p & Hp & Hv & Hc & Ht).
  exists p. unfold predict_pattern. rewrite E. cbn [fst bind].
  split; [exact Hp|]. split; [exact Hv|]. split; [|now split].
  intros Hi. rewrite Hi in Hv. cbn [In] in Hv.
  destruct Hv as [Hv|[Hv|[Hv|[]]]]; discriminate Hv.
Qed.

(** The generator that draws one half each time. *)
Lemma predict_pattern_answers_witness :
  exists p,
    fst (predict_pattern "AAPL" 0 draws_half) = Ok p /\
    In (PatternPredictionModel.prediction p,
        PatternPredictionModel.probability p)
      [("UP", Fin 0.65); ("DOWN", Fin 0.65); ("SIDEWAYS", Fin 0.60)] /\
    PatternPredictionModel.prediction p <> "INSUFFICIENT_DATA" /\
    PatternPredictionModel.confidence p = Some "MEDIUM" /\
    PatternPredictionModel.timeframe p = Some "1-5 candles".
Proof.
  apply (predict_pattern_answers "AAPL" 0 draws_half).
  intros k. split; [discriminate|reflexivity].
Defined.

(** ** The signal endpoint *)

(** What a signal that is not a hold carries, on a frame of positive
    closes and without a market context. *)
Lemma trade_signal_facts `{Runtime} (b : bot) symbol (data : DataFrame) now :
  positive_closes data ->
  signal_type (analyze b symbol data ∅ now) <> HOLD ->
  b <> pattern_recognition_bot /\ b <> news_sentinel_bot /\
  (exists q, trade_confidence b = Some q /\
             confidence (analyze b symbol data ∅ now) = Fin q) /\
  finite_positive (entry_price (analyze b symbol data ∅ now)) /\
  match signal_type (analyze b symbol data ∅ now) with
  | BUY => buy_ordering (analyze b symbol data ∅ now)
  | SELL => sell_ordering (analyze b symbol data ∅ now)
  | HOLD => False
  end.
Proof.
  intros Hdata Hnh.
  pose proof (trade_entry_positive b symbol data ∅ now Hdata Hnh) as Hentry.
  assert (Hnews : b <> news_sentinel_bot).
  { intros ->. apply Hnh. apply news_holds_without_context. }
  destruct (analyze_cases b symbol data ∅ now)
    as [[_ (Ht & _)]|(latest & d & ind & _ & Hd & E)]; [congruence|].
  pose proof (build_signal_invariant b symbol (close latest) now d ind Hd)
    as [_ Hinv].
  rewrite <- E in Hinv.
  assert (Hq : exists q, trade_confidence b = Some q /\
                 confidence (analyze b symbol data ∅ now) = Fin q).
  { rewrite E in Hnh |- *. rewrite build_signal_type in Hnh.
    destruct d as [[t conf] r]. cbn [fst] in Hnh.
    destruct t; [| |congruence];
      destruct Hd as (_ & q & Hq & ->); exists q; (split; [exact Hq|]);
      unfold build_signal;
      destruct (get_risk_parameters b (close latest) _); reflexivity. }
  destruct Hq as (q & Hq & Hconf).
  destruct (trade_confidence_range b q Hq) as (Hpat & _).
  split; [exact Hpat|]. split; [exact Hnews|].
  split; [now exists q|]. split; [exact Hentry|].
  destruct (signal_type (analyze b symbol data ∅ now));
    [now apply Hinv|now apply Hinv|congruence].
Qed.

Lemma signals_step_cases `{Runtime} symbol (data : DataFrame) clock
    (signals : list SignalReport) (k : nat) (bot_id : string) (b : bot)
    (BOTS : list (string * bot)) :
  positive_closes data -> In (bot_id, b) BOTS ->
  signals_step symbol data clock signals (k, (bot_id, b)) = signals \/
  exists r,
    signals_step symbol data clock signals (k, (bot_id, b))
      = (signals ++ [r])%list /\
    sound_report BOTS r.
Proof.
  intros Hdata Hin. unfold signals_step.
  destruct (negb _) eqn:Hnh; [right|now left].
  eexists. split; [reflexivity|].
  pose proof (hold_value _ Hnh) as Hnh'.
  destruct (trade_signal_facts b symbol data (clock (2 * k)%nat) Hdata Hnh')
    as (Hpat & Hnews & (q & Hq & Hconf) & Hentry & Hord).
  exists b, q. cbn [report_bot report_bot_id report_type report_confidence
                    report_entry_price report_stop_loss report_take_profit].
  split; [exact Hin|]. split; [reflexivity|]. split; [exact Hpat|].
  split; [exact Hnews|]. split; [exact Hq|]. split; [exact Hconf|].
  split; [exact Hentry|].
  destruct (signal_type _); [left|right|contradiction];
    (split; [reflexivity|exact Hord]).
Qed.

Lemma signals_fold_sound `{Runtime} symbol (data : DataFrame) clock
    (BOTS : list (string * bot)) (todo : list (nat * (string * bot))) :
  positive_closes data ->
  Forall (fun entry => In (snd entry) BOTS) todo ->
  forall signals,
  Forall (sound_report BOTS) signals ->
  let signals' := fold_left (signals_step symbol data clock) todo signals in
  Forall (sound_report BOTS) signals' /\
  (length signals' <= length signals + length todo)%nat.
Proof.
  intros Hdata. induction 1 as [|[k [bot_id b]] todo Hin _ IH];
    intros signals Hs; cbv zeta.
  - simpl. split; [exact Hs|lia].
  - cbn [fold_left].
    destruct (signals_step_cases symbol data clock signals k bot_id b BOTS
                Hdata Hin) as [->|(r & -> & Hr)].
    + destruct (IH signals Hs) as [IH1 IH2]. split; [exact IH1|].
      simpl. lia.
    + assert (Hs' : Forall (sound_report BOTS) (signals ++ [r])).
      { apply Forall_app. split; [exact Hs|now apply Forall_singleton]. }
      destruct (IH _ Hs') as [IH1 IH2]. split; [exact IH1|].
      rewrite length_app in IH2. simpl in *. lia.
Qed.

(** X23.  From a generator that keeps its promise, the signal endpoint
    answers for every registry of bots of the family; it reports at most one
    signal per registered bot and counts them; every report is a buy with
    stop < entry < target or a sell with target < entry < stop, at a
    positive entry price and with the confidence literal of its bot; and
    neither the pattern-recognition bot nor the news bot is ever among
    them. *)
Theorem generate_signals_sound `{Runtime} (BOTS : list (string * bot))
    (symbol : string) (today : Z) (clock : nat -> Z) (g : rng) :
  unit_draws g ->
  exists response,
    fst (generate_signals BOTS symbol today clock g) = Ok response /\
    response_symbol response = symbol /\
    total_signals response = length (signals response) /\
    (total_signals response <= length BOTS)%nat /\
    Forall (sound_report BOTS) (signals response).
Proof.
  intros Hg.
  destruct (generate_sample_data_rows symbol 99 today g Hg)
    as (data & g' & E & _ & Hbars & _).
  assert (Hdata : positive_closes data).
  { eapply Forall_impl; [exact Hbars|]. exact sample_bar_close. }
  unfold generate_signals. rewrite E. cbn [fst bind].
  eexists. split; [reflexivity|].
  cbn [response_symbol total_signals signals].
  split; [reflexivity|]. split; [reflexivity|].
  destruct (signals_fold_sound symbol data clock BOTS
              (zip (seq 0 (length BOTS)) BOTS) Hdata) with (signals := @nil SignalReport)
    as [Hsound Hcount].
  - apply List.Forall_forall. intros [k entry] Hin.
    apply list_elem_of_In, elem_of_zip_r in Hin.
    now apply list_elem_of_In.
  - constructor.
  - split; [|exact Hsound].
    etransitivity; [exact Hcount|].
    rewrite length_zip, length_seq. simpl. lia.
Qed.

(** The eight bots under their module names, and the generator that draws
    one half each time. *)
Lemma generate_signals_sound_witness :
  let BOTS :=
    [("momentum_bot", momentum_bot); ("grid_trading_bot", grid_trading_bot);
     ("crypto_arbitrage_bot", crypto_arbitrage_bot);
     ("fibonacci_trader", fibonacci_trader);
     ("mean_reversion_bot", mean_reversion_bot);
     ("news_sentinel_bot", news_sentinel_bot);
     ("pattern_recognition_bot", pattern_recognition_bot);
     ("scalping_bot", scalping_bot)] in
  exists response,
    fst (@generate_signals plain_runtime BOTS "AAPL" 0 clock_zero draws_half)
      = Ok response /\
    response_symbol response = "AAPL" /\
    total_signals response = length (signals response) /\
    (total_signals response <= length BOTS)%nat /\
    Forall (sound_report BOTS) (signals response).
Proof.
  intros BOTS.
  apply (@generate_signals_sound plain_runtime BOTS "AAPL" 0 clock_zero
           draws_half).
  intros k. split; [discriminate|reflexivity].
Defined.
